(** * EdgeNudge: the browser script [frontend/app.js]

    A shallow embedding of the occupancy-prediction page: the sensor
    reader, the inference adapter, the energy estimator, the campus
    projection, the running latency metrics and the auto-demo player,
    followed by the properties of the specification they satisfy.

    Conventions of the embedding:
    - JavaScript numbers are IEEE 754 binary64 values; they are modelled
      by Rocq's primitive [float], whose operations are the same binary64
      operations, so every decimal literal below denotes the same number
      as the literal of the script. The two counters of the script only
      ever hold whole numbers and are counted in [nat].
    - The script's global variables and the page form one [State], passed
      explicitly; each function of the script is a function on states.
    - What the script does to the outside (alerts, calls of the
      classifier) is appended to a journal; timers live in a table the
      event loop fires from.
    - [console.log] lines are left out. The start-up code comes last,
      after the event loop; the properties of the specification only
      need the session that [loadModel] leaves. *)

From Stdlib Require Import ZArith List String Bool Lia.
From Stdlib Require Import Floats.
Import ListNotations.

Set Warnings "-inexact-float".

Local Open Scope string_scope.
Local Open Scope float_scope.

(** ** JavaScript numbers *)

Module Js.

(** The type [Number]. *)
Definition number := float.

(** [x === y] on two numbers: IEEE equality ([NaN] differs from itself,
    the two zeros are equal). *)
Definition strict_eq (x y : number) : bool := PrimFloat.eqb x y.

(** [x > y] and [x <= y] on two numbers. *)
Definition gt (x y : number) : bool := PrimFloat.ltb y x.
Definition le (x y : number) : bool := PrimFloat.leb x y.

(** An integer as a number, rounded to the nearest binary64 value:
    [Number(b)] for a BigInt [b], and the value of an integer counter. *)
Definition of_Z (z : Z) : number :=
  SF2Prim (binary_normalize prec emax z 0 false).

(** What a [Float32Array] stores for the number [x]: [x] rounded to the
    nearest binary32 value (ties to even, overflow to an infinity),
    read back as a number. *)
Definition fround (x : number) : number :=
  match Prim2SF x with
  | S754_finite s m e =>
      SF2Prim (binary_normalize 24 128 (cond_Zopp s (Zpos m)) e s)
  | _ => x
  end.

(** [new Float32Array(xs)]. *)
Definition Float32Array (xs : list number) : list number := map fround xs.

(** The number read back by [parseFloat] from the text that assigning
    the number [x] to a widget's [value] leaves there: [String(x)]
    prints either zero as [0], every other number round-trips. *)
Definition parseFloat_String (x : number) : number :=
  if PrimFloat.is_zero x then 0 else x.

End Js.

(** ** Sensor readings and the energy estimator *)

(** The object returned by [getSensorValues]. *)
Record Sensors := {
  hour : Js.number;
  day_of_week : Js.number;
  ambient_light : Js.number;
  pir_motion : Js.number;
  phone_presence : Js.number;
  temperature : Js.number
}.

(** The object returned by [calculateEnergySavings]. *)
Record Savings := {
  lightsKwh : Js.number;
  fanKwh : Js.number;
  acKwh : Js.number;
  totalKwh : Js.number;
  totalCost : Js.number;
  co2Saved : Js.number;
  treesEquiv : Js.number;
  hoursEmpty : Js.number
}.

Module Estimator.

Definition LIGHTS_POWER : Js.number := 10.
Definition FAN_POWER : Js.number := 75.
Definition AC_POWER : Js.number := 500.
Definition hoursEmpty : Js.number := 2.
Definition costPerKwh : Js.number := 0.12.
Definition co2PerKwh : Js.number := 0.92.

Definition calculateEnergySavings (sensors : Sensors) : Savings :=
  let lightsKwh :=
    if Js.gt (ambient_light sensors) 300
    then (LIGHTS_POWER * hoursEmpty) / 1000 else 0 in
  let fanKwh :=
    if Js.gt (temperature sensors) 24
    then (FAN_POWER * hoursEmpty) / 1000 else 0 in
  let acKwh :=
    if Js.gt (temperature sensors) 25
    then (AC_POWER * hoursEmpty) / 1000 else 0 in
  let totalKwh := lightsKwh + fanKwh + acKwh in
  let totalCost := totalKwh * costPerKwh in
  let co2Saved := totalKwh * co2PerKwh * 0.453592 in
  let treesEquiv := co2Saved / 0.0575 in
  Build_Savings lightsKwh fanKwh acKwh totalKwh totalCost co2Saved
    treesEquiv hoursEmpty.

End Estimator.

(** The campus-wide figures computed inside [displayEnergySummary]. *)
Record Projection := {
  dailySavingsPerRoom : Js.number;
  monthlySavings : Js.number;
  annualSavings : Js.number;
  annualCO2 : Js.number
}.

Module Campus.

Definition roomsCount : Js.number := 100.
Definition daysPerMonth : Js.number := 30.
Definition daysPerYear : Js.number := 365.
Definition optimizationRate : Js.number := 0.3.
Definition predictionsPerDay : Js.number := 4.

Definition projection (savings : Savings) : Projection :=
  let dailySavingsPerRoom :=
    totalKwh savings * predictionsPerDay * optimizationRate in
  let monthlySavings := dailySavingsPerRoom * roomsCount * daysPerMonth in
  let annualSavings := dailySavingsPerRoom * roomsCount * daysPerYear in
  let annualCO2 :=
    co2Saved savings * predictionsPerDay * optimizationRate
    * roomsCount * daysPerYear in
  {| dailySavingsPerRoom := dailySavingsPerRoom;
     monthlySavings := monthlySavings;
     annualSavings := annualSavings;
     annualCO2 := annualCO2 |}.

End Campus.

(** ** The page

    The markup of the page is not part of the sources: every element the
    script looks up is taken to exist, and an input widget is a plain
    holder of its value (no clamping to a minimum, maximum or step). *)

(** Text the script writes into the page, kept symbolic where the script
    formats a number. *)
Inductive Text :=
| Lit (s : string)
| Num (x : Js.number)                  (* a number inside a template *)
| Int (z : Z)                          (* an integer inside a template *)
| Fixed (x : Js.number) (digits : nat) (* x.toFixed(digits) *)
| Round (x : Js.number)                (* Math.round(x) *)
| Upper (s : string)                   (* s.toUpperCase() *)
| Undefined
| Cat (a b : Text).

Infix "+++" := Cat (at level 60, right associativity).

(** The three blocks of HTML the script assigns to [innerHTML]. *)
Inductive Markup :=
| PredictionResult (statusClass statusEmoji statusText : string)
    (confidence : Text)
| NudgeRoomInUse
| NudgeOpportunity (potential : Text).

Module Dom.

Record Element := {
  value : Js.number;   (* parseFloat of an input's value *)
  checked : bool;
  textContent : Text;
  innerHTML : option Markup;
  display : string     (* style.display *)
}.

Definition Document := string -> Element.

Definition set_value (v : Js.number) (e : Element) : Element :=
  {| value := v; checked := checked e; textContent := textContent e;
     innerHTML := innerHTML e; display := display e |}.
Definition set_checked (b : bool) (e : Element) : Element :=
  {| value := value e; checked := b; textContent := textContent e;
     innerHTML := innerHTML e; display := display e |}.
Definition set_textContent (t : Text) (e : Element) : Element :=
  {| value := value e; checked := checked e; textContent := t;
     innerHTML := innerHTML e; display := display e |}.
Definition set_innerHTML (m : Markup) (e : Element) : Element :=
  {| value := value e; checked := checked e; textContent := textContent e;
     innerHTML := Some m; display := display e |}.
Definition set_display (s : string) (e : Element) : Element :=
  {| value := value e; checked := checked e; textContent := textContent e;
     innerHTML := innerHTML e; display := s |}.

(** [document.getElementById(id)] followed by an assignment [f]. *)
Definition update (id : string) (f : Element -> Element) (d : Document)
  : Document :=
  fun id' => if String.eqb id' id then f (d id') else d id'.

Definition blank : Element :=
  {| value := 0; checked := false; textContent := Lit "";
     innerHTML := None; display := "" |}.

End Dom.

(** ** The external classifier and the browser's timers *)

Record Tensor := {
  dtype : string;
  data : list Js.number;
  dims : list Z
}.

(** The ONNX session, as far as the script reads it. *)
Record Session := {
  executionProviders : option (list string)
}.

(** How one [await session.run(feeds, fetchOutputs)] ends: it resolves
    with the BigInt [results.output_label.data[0]], or the [try] block
    throws. *)
Inductive RunResult :=
| RunResolved (output_label : Z)
| RunRejected.

(** What the outside world contributes to one call of [runPrediction]:
    the two readings of [performance.now()] and the classifier's answer. *)
Record World := {
  startTime : Js.number;
  endTime : Js.number;
  response : RunResult
}.

Inductive Callback :=
| RunPredictionCallback   (* setTimeout(runPrediction, 500) *)
| DemoStepCallback.       (* the arrow function given to setInterval *)

Record Timer := {
  handle : positive;
  callback : Callback;
  delay : Z;
  repeats : bool
}.

(** What the page does to the outside, oldest first; [Estimated] records a
    call of [calculateEnergySavings] with its result. *)
Inductive Event :=
| Alert (message : string)
| SessionRun (feeds : list (string * Tensor)) (fetchOutputs : list string)
| Estimated (sensors : Sensors) (savings : Savings).

(** ** Global state

    The globals [session], [inferenceTime], [predictionCount],
    [totalLatency], [autoDemoInterval] and [currentDemoStep] of the
    script, the page, the browser's timer table with the next handle it
    hands out, and the journal. *)

Record State := {
  session : option Session;
  inferenceTime : Js.number;
  predictionCount : nat;
  totalLatency : Js.number;
  autoDemoInterval : option positive;
  currentDemoStep : nat;
  document : Dom.Document;
  timers : list Timer;
  nextHandle : positive;
  journal : list Event
}.

Definition set_session (v : option Session) (st : State) : State :=
  {| session := v; inferenceTime := inferenceTime st;
     predictionCount := predictionCount st; totalLatency := totalLatency st;
     autoDemoInterval := autoDemoInterval st;
     currentDemoStep := currentDemoStep st; document := document st;
     timers := timers st; nextHandle := nextHandle st;
     journal := journal st |}.

Definition set_inferenceTime (v : Js.number) (st : State) : State :=
  {| session := session st; inferenceTime := v;
     predictionCount := predictionCount st; totalLatency := totalLatency st;
     autoDemoInterval := autoDemoInterval st;
     currentDemoStep := currentDemoStep st; document := document st;
     timers := timers st; nextHandle := nextHandle st;
     journal := journal st |}.

Definition set_metrics (count : nat) (total : Js.number) (st : State)
  : State :=
  {| session := session st; inferenceTime := inferenceTime st;
     predictionCount := count; totalLatency := total;
     autoDemoInterval := autoDemoInterval st;
     currentDemoStep := currentDemoStep st; document := document st;
     timers := timers st; nextHandle := nextHandle st;
     journal := journal st |}.

Definition set_autoDemoInterval (v : option positive) (st : State) : State :=
  {| session := session st; inferenceTime := inferenceTime st;
     predictionCount := predictionCount st; totalLatency := totalLatency st;
     autoDemoInterval := v;
     currentDemoStep := currentDemoStep st; document := document st;
     timers := timers st; nextHandle := nextHandle st;
     journal := journal st |}.

Definition set_currentDemoStep (v : nat) (st : State) : State :=
  {| session := session st; inferenceTime := inferenceTime st;
     predictionCount := predictionCount st; totalLatency := totalLatency st;
     autoDemoInterval := autoDemoInterval st;
     currentDemoStep := v; document := document st;
     timers := timers st; nextHandle := nextHandle st;
     journal := journal st |}.

Definition set_document (v : Dom.Document) (st : State) : State :=
  {| session := session st; inferenceTime := inferenceTime st;
     predictionCount := predictionCount st; totalLatency := totalLatency st;
     autoDemoInterval := autoDemoInterval st;
     currentDemoStep := currentDemoStep st; document := v;
     timers := timers st; nextHandle := nextHandle st;
     journal := journal st |}.

Definition set_timers (v : list Timer) (next : positive) (st : State)
  : State :=
  {| session := session st; inferenceTime := inferenceTime st;
     predictionCount := predictionCount st; totalLatency := totalLatency st;
     autoDemoInterval := autoDemoInterval st;
     currentDemoStep := currentDemoStep st; document := document st;
     timers := v; nextHandle := next;
     journal := journal st |}.

Definition record (e : Event) (st : State) : State :=
  {| session := session st; inferenceTime := inferenceTime st;
     predictionCount := predictionCount st; totalLatency := totalLatency st;
     autoDemoInterval := autoDemoInterval st;
     currentDemoStep := currentDemoStep st; document := document st;
     timers := timers st; nextHandle := nextHandle st;
     journal := journal st ++ [e] |}.

(** An assignment to a property of [document.getElementById(id)]. *)
Definition assign (id : string) (f : Dom.Element -> Dom.Element) (st : State)
  : State :=
  set_document (Dom.update id f (document st)) st.

(** [setTimeout] and [setInterval] hand out fresh positive handles;
    [clearInterval] drops the timer of that handle. *)
Definition schedule (cb : Callback) (ms : Z) (again : bool) (st : State)
  : positive * State :=
  let h := nextHandle st in
  (h, set_timers
        (timers st ++
           [{| handle := h; callback := cb; delay := ms; repeats := again |}])
        (Pos.succ h) st).

Definition setTimeout (cb : Callback) (ms : Z) (st : State) : State :=
  snd (schedule cb ms false st).

Definition setInterval (cb : Callback) (ms : Z) (st : State)
  : positive * State :=
  schedule cb ms true st.

Definition clearInterval (h : positive) (st : State) : State :=
  set_timers
    (filter (fun t => negb (Pos.eqb (handle t) h)) (timers st))
    (nextHandle st) st.

(** ** The script *)

Definition dayNames : list string :=
  ["Monday"; "Tuesday"; "Wednesday"; "Thursday"; "Friday"; "Saturday";
   "Sunday"].

Module Preset.

Record t := {
  hour : Js.number;
  day : Js.number;
  light : Js.number;
  temp : Js.number;
  pir : bool;
  phone : bool;
  name : string
}.

Definition empty : t :=
  {| hour := 2; day := 1; light := 15; temp := 20.0;
     pir := false; phone := false; name := "Late Night (Empty)" |}.

Definition morning : t :=
  {| hour := 9; day := 2; light := 550; temp := 23.0;
     pir := true; phone := true; name := "Morning Class (Occupied)" |}.

Definition evening : t :=
  {| hour := 20; day := 3; light := 600; temp := 23.5;
     pir := true; phone := true; name := "Evening Study (Occupied)" |}.

Definition weekend : t :=
  {| hour := 8; day := 5; light := 200; temp := 20.5;
     pir := false; phone := false; name := "Weekend Morning (Empty)" |}.

End Preset.

(** The own properties of the object literal [presets]. *)
Definition presets : list (string * Preset.t) :=
  [("empty", Preset.empty); ("morning", Preset.morning);
   ("evening", Preset.evening); ("weekend", Preset.weekend)].

(** [presets] is an object literal, so a property it does not own is
    looked up in [Object.prototype]. These are the properties found
    there, each with the [name] of its value: eleven functions, and the
    prototype object itself under [__proto__], which has no [name]. All of
    them are truthy and none has any of the six sensor fields. *)
Definition Object_prototype : list (string * option string) :=
  [("constructor", Some "Object");
   ("__defineGetter__", Some "__defineGetter__");
   ("__defineSetter__", Some "__defineSetter__");
   ("hasOwnProperty", Some "hasOwnProperty");
   ("__lookupGetter__", Some "__lookupGetter__");
   ("__lookupSetter__", Some "__lookupSetter__");
   ("isPrototypeOf", Some "isPrototypeOf");
   ("propertyIsEnumerable", Some "propertyIsEnumerable");
   ("toString", Some "toString");
   ("valueOf", Some "valueOf");
   ("__proto__", None);
   ("toLocaleString", Some "toLocaleString")].

Fixpoint assoc {A : Type} (key : string) (l : list (string * A)) : option A :=
  match l with
  | [] => None
  | (k, v) :: l' => if String.eqb key k then Some v else assoc key l'
  end.

(** The value of [presets[presetName]]. *)
Inductive Property :=
| Own (preset : Preset.t)
| Inherited (name : option string)
| Missing.   (* undefined *)

Definition presets_get (presetName : string) : Property :=
  match assoc presetName presets with
  | Some preset => Own preset
  | None =>
      match assoc presetName Object_prototype with
      | Some n => Inherited n
      | None => Missing
      end
  end.

(** [a[v]] for an array of [n] elements and a widget value [v]: the
    index, when the value is one. *)
Definition array_index (v : Js.number) (n : nat) : option nat :=
  find (fun i => Js.strict_eq v (Js.of_Z (Z.of_nat i))) (seq 0 n).

Definition updateSensorDisplays (st : State) : State :=
  let hour := Dom.value (document st "hourInput") in
  let day := Dom.value (document st "dayInput") in
  let light := Dom.value (document st "lightInput") in
  let temp := Dom.value (document st "tempInput") in
  let st := assign "hourValue" (Dom.set_textContent (Num hour)) st in
  let st :=
    assign "dayValue"
      (Dom.set_textContent
         match array_index day (List.length dayNames) with
         | Some i => Lit (nth i dayNames "")
         | None => Undefined
         end) st in
  let st :=
    assign "lightValue" (Dom.set_textContent (Num light +++ Lit " lux")) st in
  assign "tempValue" (Dom.set_textContent (Num temp +++ Lit "°C")) st.

Definition getSensorValues (st : State) : Sensors :=
  {| hour := Dom.value (document st "hourInput");
     day_of_week := Dom.value (document st "dayInput");
     ambient_light := Dom.value (document st "lightInput");
     pir_motion := if Dom.checked (document st "pirInput") then 1.0 else 0.0;
     phone_presence :=
       if Dom.checked (document st "phoneInput") then 1.0 else 0.0;
     temperature := Dom.value (document st "tempInput") |}.

(** [applyPreset] returns at once when [presets[presetName]] is
    [undefined], and only then. Otherwise it writes the six widgets: with
    the values of an own preset; for a value inherited from
    [Object.prototype] every field reads [undefined], which unchecks a
    checkbox and which a widget's [value] keeps as text that [parseFloat]
    reads as [NaN] (a slider would fall back on its default instead). It
    then refreshes the labels and schedules a prediction. *)
Definition applyPreset (presetName : string) (st : State) : State :=
  let write (hour day light temp : Js.number) (pir phone : bool) :=
    let st := assign "hourInput" (Dom.set_value hour) st in
    let st := assign "dayInput" (Dom.set_value day) st in
    let st := assign "lightInput" (Dom.set_value light) st in
    let st := assign "tempInput" (Dom.set_value temp) st in
    let st := assign "pirInput" (Dom.set_checked pir) st in
    let st := assign "phoneInput" (Dom.set_checked phone) st in
    let st := updateSensorDisplays st in
    setTimeout RunPredictionCallback 500 st in
  match presets_get presetName with
  | Missing => st
  | Own preset =>
      write (Js.parseFloat_String (Preset.hour preset))
        (Js.parseFloat_String (Preset.day preset))
        (Js.parseFloat_String (Preset.light preset))
        (Js.parseFloat_String (Preset.temp preset))
        (Preset.pir preset) (Preset.phone preset)
  | Inherited _ => write nan nan nan nan false false
  end.

Definition updatePerformanceMetrics (latency : Js.number) (st : State)
  : State :=
  let st :=
    set_metrics (S (predictionCount st)) (totalLatency st + latency) st in
  let avgLatency :=
    totalLatency st / Js.of_Z (Z.of_nat (predictionCount st)) in
  let st :=
    assign "avgLatency"
      (Dom.set_textContent (Fixed avgLatency 2 +++ Lit " ms")) st in
  let st :=
    assign "totalPredictions"
      (Dom.set_textContent (Int (Z.of_nat (predictionCount st)))) st in
  match session st with
  | Some {| executionProviders := Some (provider :: _) |} =>
      assign "currentProvider" (Dom.set_textContent (Upper provider)) st
  | _ => assign "currentProvider" (Dom.set_textContent (Lit "WASM")) st
  end.

Definition displayEnergySummary (savings : Savings) (st : State) : State :=
  let kwh x := Dom.set_textContent (Fixed x 2 +++ Lit " kWh") in
  let st := assign "lightsSavings" (kwh (lightsKwh savings)) st in
  let st := assign "fanSavings" (kwh (fanKwh savings)) st in
  let st := assign "acSavings" (kwh (acKwh savings)) st in
  let st := assign "totalSavings" (kwh (totalKwh savings)) st in
  let st :=
    assign "totalCost"
      (Dom.set_textContent
         (Lit "$" +++ Fixed (totalCost savings) 2 +++ Lit " saved")) st in
  let st :=
    assign "co2Saved"
      (Dom.set_textContent (Fixed (co2Saved savings) 1 +++ Lit " kg")) st in
  let st :=
    assign "treesEquiv"
      (Dom.set_textContent (Round (treesEquiv savings))) st in
  let p := Campus.projection savings in
  let st :=
    assign "monthlySavings"
      (Dom.set_textContent
         (Fixed (monthlySavings p) 0 +++ Lit " kWh ($"
          +++ Fixed (monthlySavings p * 0.12) 0 +++ Lit ")")) st in
  let st :=
    assign "annualSavings"
      (Dom.set_textContent
         (Fixed (annualSavings p) 0 +++ Lit " kWh ($"
          +++ Fixed (annualSavings p * 0.12) 0 +++ Lit ")")) st in
  assign "annualCO2"
    (Dom.set_textContent (Fixed (annualCO2 p / 1000) 1 +++ Lit " tons CO₂"))
    st.

Definition generateEnergyNudge (prediction : Js.number) (sensors : Sensors)
  (st : State) : State :=
  let isOccupied := Js.strict_eq prediction 1 in
  if isOccupied then
    let st := assign "energyNudgeContainer" (Dom.set_innerHTML NudgeRoomInUse) st in
    assign "energySummaryContainer" (Dom.set_display "none") st
  else
    let potentialSavings := Estimator.calculateEnergySavings sensors in
    let st := record (Estimated sensors potentialSavings) st in
    let st :=
      assign "energyNudgeContainer"
        (Dom.set_innerHTML
           (NudgeOpportunity (Fixed (totalKwh potentialSavings) 2))) st in
    let st := displayEnergySummary potentialSavings st in
    assign "energySummaryContainer" (Dom.set_display "block") st.

(** [probability] is [null] ([None]) or an object whose [data] is given. *)
Definition displayResults (label : Js.number)
  (probability : option (list Js.number)) (latency : Js.number) (st : State)
  : State :=
  let isOccupied := Js.strict_eq label 1 in
  let statusText := if isOccupied then "OCCUPIED" else "EMPTY" in
  let statusClass := if isOccupied then "occupied" else "empty" in
  let statusEmoji := if isOccupied then "🔴" else "✅" in
  let confidence :=
    match probability with
    | Some [p0; p1] => Round ((if isOccupied then p1 else p0) * 100)
    | _ => Int 95
    end in
  let st :=
    assign "resultsContainer"
      (Dom.set_innerHTML
         (PredictionResult statusClass statusEmoji statusText confidence))
      st in
  let st :=
    assign "inferenceTime"
      (Dom.set_textContent (Fixed latency 2 +++ Lit " ms")) st in
  let st := assign "metricsContainer" (Dom.set_display "block") st in
  let st := updatePerformanceMetrics latency st in
  generateEnergyNudge label (getSensorValues st) st.

(** [runPrediction] up to its [await]: the guard on [session], the reading
    of the widgets and the call of [session.run]. It answers the reading
    of [performance.now()] the continuation needs, or nothing when the
    function has returned. *)
Definition runPrediction_call (now : Js.number) (st : State)
  : State * option Js.number :=
  match session st with
  | None => (record (Alert "Model not loaded yet!") st, None)
  | Some _ =>
      let startTime := now in
      let sensors := getSensorValues st in
      let inputArray :=
        Js.Float32Array
          [hour sensors; day_of_week sensors; ambient_light sensors;
           pir_motion sensors; phone_presence sensors; temperature sensors] in
      let inputTensor :=
        {| dtype := "float32"; data := inputArray; dims := [1; 6]%Z |} in
      let feeds := [("float_input", inputTensor)] in
      let fetchOutputs := ["output_label"] in
      (record (SessionRun feeds fetchOutputs) st, Some startTime)
  end.

(** [runPrediction] after its [await]. *)
Definition runPrediction_resume (startTime : Js.number) (results : RunResult)
  (now : Js.number) (st : State) : State :=
  match results with
  | RunResolved output_label =>
      let outputLabel := Js.of_Z output_label in
      let outputProb := None in
      let endTime := now in
      let st := set_inferenceTime (endTime - startTime) st in
      displayResults outputLabel outputProb (inferenceTime st) st
  | RunRejected =>
      record (Alert "Prediction failed! Check console for details.") st
  end.

(** One whole call of [runPrediction], nothing else running during the
    [await]. *)
Definition runPrediction (w : World) (st : State) : State :=
  match runPrediction_call (startTime w) st with
  | (st, Some t0) => runPrediction_resume t0 (response w) (endTime w) st
  | (st, None) => st
  end.

Definition demoScenarios : list string :=
  ["empty"; "morning"; "evening"; "weekend"].

(** [a.indexOf(x)], [-1] when [x] is not an element. *)
Fixpoint indexOf (x : string) (a : list string) : Z :=
  match a with
  | [] => -1
  | y :: a' =>
      if String.eqb x y then 0
      else let i := indexOf x a' in if (i <? 0)%Z then i else (i + 1)%Z
  end.

(** [runDemoScenario] answers nothing when [presets[presetName].name]
    throws, which happens before anything is written. *)
Definition runDemoScenario (presetName : string) (st : State)
  : option State :=
  let stepNumber := (indexOf presetName demoScenarios + 1)%Z in
  let banner (name : Text) :=
    assign "demoScenario"
      (Dom.set_textContent
         (Lit "Scenario " +++ Int stepNumber +++ Lit "/4: " +++ name)) st in
  match presets_get presetName with
  | Missing => None
  | Own preset =>
      Some (applyPreset presetName (banner (Lit (Preset.name preset))))
  | Inherited (Some name) => Some (applyPreset presetName (banner (Lit name)))
  | Inherited None => Some (applyPreset presetName (banner Undefined))
  end.

(** [demoScenarios[i]]; past the end it is [undefined], which as a
    property key and as an argument of [indexOf] behaves as a name that is
    not there. *)
Definition demoScenarios_at (i : nat) : string :=
  nth i demoScenarios "undefined".

(** The arrow function handed to [setInterval]; an exception leaves the
    callback at once. *)
Definition demoStep (st : State) : State :=
  if (currentDemoStep st <? List.length demoScenarios)%nat then
    match runDemoScenario (demoScenarios_at (currentDemoStep st)) st with
    | Some st => set_currentDemoStep (S (currentDemoStep st)) st
    | None => st
    end
  else
    let st := set_currentDemoStep 0 st in
    match runDemoScenario (demoScenarios_at (currentDemoStep st)) st with
    | Some st => set_currentDemoStep (S (currentDemoStep st)) st
    | None => st
    end.

Definition startAutoDemo (st : State) : State :=
  let st := assign "demoBanner" (Dom.set_display "block") st in
  let st := assign "autoDemoBtn" (Dom.set_display "none") st in
  let st := set_currentDemoStep 0 st in
  match runDemoScenario (demoScenarios_at (currentDemoStep st)) st with
  | Some st =>
      let st := set_currentDemoStep (S (currentDemoStep st)) st in
      let (h, st) := setInterval DemoStepCallback 7000 st in
      set_autoDemoInterval (Some h) st
  | None => st
  end.

Definition stopAutoDemo (st : State) : State :=
  let st :=
    match autoDemoInterval st with
    | Some h => set_autoDemoInterval None (clearInterval h st)
    | None => st
    end in
  let st := assign "demoBanner" (Dom.set_display "none") st in
  let st := assign "autoDemoBtn" (Dom.set_display "block") st in
  set_currentDemoStep 0 st.

(** ** The event loop *)

(** The timer of handle [h] comes due: nothing happens when there is no
    such timer; a timeout is spent, an interval stays. *)
Definition fire (h : positive) (w : World) (st : State) : State :=
  match find (fun t => Pos.eqb (handle t) h) (timers st) with
  | None => st
  | Some t =>
      let st := if repeats t then st else clearInterval h st in
      match callback t with
      | RunPredictionCallback => runPrediction w st
      | DemoStepCallback => demoStep st
      end
  end.

(** The page as the script finds it: nothing loaded, nothing counted, no
    timer running. *)
Definition initial : State :=
  {| session := None; inferenceTime := 0; predictionCount := 0;
     totalLatency := 0; autoDemoInterval := None; currentDemoStep := 0;
     document := fun _ => Dom.blank; timers := []; nextHandle := 1%positive;
     journal := [] |}.

(** The outcome of [loadModel]: [session] is the session the engine
    created. *)
Definition loadModel (created : Session) (st : State) : State :=
  set_session (Some created) st.

(** ** Observations

    The vocabulary of the properties below: readings, the elements each
    part of the script writes, and what a journal or a page shows. *)

Local Open Scope list_scope.

Section Readings.

Variables h d pir ph : Js.number.

(** A reading with the given light and temperature, the four other fields
    being any numbers. *)
Definition reading (light temp : Js.number) : Sensors :=
  {| hour := h; day_of_week := d; ambient_light := light;
     pir_motion := pir; phone_presence := ph; temperature := temp |}.

End Readings.

(** [touches ids st st']: every element not named in [ids] is in [st']
    as it was in [st]. *)
Definition touches (ids : list string) (st st' : State) : Prop :=
  forall id, existsb (String.eqb id) ids = false ->
             document st' id = document st id.

(** The elements written by each part of [displayResults], and the six
    widgets. *)
Definition statusFields : list string :=
  ["resultsContainer"; "inferenceTime"; "metricsContainer"].

Definition metricFields : list string :=
  ["avgLatency"; "totalPredictions"; "currentProvider"].

Definition nudgeFields : list string :=
  ["energyNudgeContainer"; "energySummaryContainer"].

Definition summaryFields : list string :=
  ["lightsSavings"; "fanSavings"; "acSavings"; "totalSavings"; "totalCost";
   "co2Saved"; "treesEquiv"; "monthlySavings"; "annualSavings"; "annualCO2"].

Definition sensorInputs : list string :=
  ["hourInput"; "dayInput"; "lightInput"; "tempInput"; "pirInput";
   "phoneInput"].

Definition subset (ids ids' : list string) : bool :=
  forallb (fun id => existsb (String.eqb id) ids') ids.

Definition isSessionRun (e : Event) : bool :=
  match e with SessionRun _ _ => true | _ => false end.

Definition isEstimated (e : Event) : bool :=
  match e with Estimated _ _ => true | _ => false end.

(** The status written in the result card, when there is one. *)
Definition shownStatus (st : State) : option string :=
  match Dom.innerHTML (document st "resultsContainer") with
  | Some (PredictionResult _ _ statusText _) => Some statusText
  | _ => None
  end.

(** The six features in the order the model was trained on, read off the
    widgets. *)
Definition featureVector (st : State) : list Js.number :=
  let widget id := Dom.value (document st id) in
  let toggle id := if Dom.checked (document st id) then 1.0 else 0.0 in
  [widget "hourInput"; widget "dayInput"; widget "lightInput";
   toggle "pirInput"; toggle "phoneInput"; widget "tempInput"].

(** The same six features of a preset. *)
Definition presetVector (p : Preset.t) : list Js.number :=
  [Preset.hour p; Preset.day p; Preset.light p;
   if Preset.pir p then 1.0 else 0.0; if Preset.phone p then 1.0 else 0.0;
   Preset.temp p].

(** The call of the classifier on a float32 tensor of shape [1,6]. *)
Definition inference (features : list Js.number) : Event :=
  SessionRun
    [("float_input",
      {| dtype := "float32"; data := Js.Float32Array features;
         dims := [1; 6]%Z |})]
    ["output_label"].

(** Successive calls of [runPrediction], each run to its end. *)
Definition runPredictions (ws : list World) (st : State) : State :=
  fold_left (fun st w => runPrediction w st) ws st.

Definition resolved (w : World) : bool :=
  match response w with RunResolved _ => true | RunRejected => false end.

(** The latency [runPrediction] measures. *)
Definition latency (w : World) : Js.number := endTime w - startTime w.

(** Latencies added up in the order of the calls. *)
Definition sum (xs : list Js.number) : Js.number :=
  fold_left PrimFloat.add xs 0.

(** A page with the model loaded and nothing else done. *)
Definition loaded : State :=
  loadModel {| executionProviders := Some ["wasm"] |} initial.

(** *** The auto demo *)

(** What reaches the page while the demo plays: a timer comes due, or the
    Predict button is clicked. *)
Inductive Input :=
| TimerDue (h : positive) (w : World)
| PredictClicked (w : World).

Definition react (i : Input) (st : State) : State :=
  match i with
  | TimerDue h w => fire h w st
  | PredictClicked w => runPrediction w st
  end.

Definition reacts (inputs : list Input) (st : State) : State :=
  fold_left (fun st i => react i st) inputs st.

(** How often the timer [h] came due among [inputs]. *)
Definition isDue (h : positive) (i : Input) : bool :=
  match i with
  | TimerDue h' _ => Pos.eqb h' h
  | PredictClicked _ => false
  end.

Definition dueCount (h : positive) (inputs : list Input) : nat :=
  List.length (filter (isDue h) inputs).

(** The preset of the [k]-th scenario, the reading it puts in the widgets
    and the banner that announces it. *)
Definition scenarioPreset (k : nat) : Preset.t :=
  match assoc (demoScenarios_at k) presets with
  | Some preset => preset
  | None => Preset.empty
  end.

Definition presetReading (p : Preset.t) : Sensors :=
  {| hour := Preset.hour p;
     day_of_week := Preset.day p;
     ambient_light := Preset.light p;
     pir_motion := if Preset.pir p then 1.0 else 0.0;
     phone_presence := if Preset.phone p then 1.0 else 0.0;
     temperature := Preset.temp p |}.

Definition banner (k : nat) : Text :=
  Lit "Scenario " +++ Int (Z.of_nat k + 1) +++ Lit "/4: "
  +++ Lit (Preset.name (scenarioPreset k)).

(** The interval the demo runs on. *)
Definition demoTimer (h : positive) : Timer :=
  {| handle := h; callback := DemoStepCallback; delay := 7000;
     repeats := true |}.

Definition timerOf (h : positive) (st : State) : option Timer :=
  find (fun t => Pos.eqb (handle t) h) (timers st).

(** No demo is running: every timer is a pending prediction, and the
    handles in use are below the next one to be handed out. *)
Definition idle (st : State) : Prop :=
  Forall (fun t => callback t = RunPredictionCallback
                   /\ (handle t < nextHandle st)%positive) (timers st).

(** The demo runs on the interval [h] and has made [n] transitions. *)
Definition playing (h : positive) (n : nat) (st : State) : Prop :=
  autoDemoInterval st = Some h
  /\ timerOf h st = Some (demoTimer h)
  /\ Forall (fun t => (handle t < nextHandle st)%positive
                      /\ (handle t <> h ->
                          callback t = RunPredictionCallback)) (timers st)
  /\ currentDemoStep st = S (n mod 4)
  /\ Dom.textContent (document st "demoScenario") = banner (n mod 4)
  /\ getSensorValues st = presetReading (scenarioPreset (n mod 4))
  /\ Dom.display (document st "demoBanner") = "block".

(** The state a scenario leaves: the banner, then the preset. *)
Definition scenarioState (k : nat) (st : State) : State :=
  applyPreset (demoScenarios_at k)
    (assign "demoScenario" (Dom.set_textContent (banner k)) st).

(** The timer [h] coming due, with an answer for a prediction it may start. *)
Definition tick (h : positive) : Input :=
  TimerDue h {| startTime := 0; endTime := 1; response := RunResolved 0 |}.

(** ** Start-up

    The rest of the script: what [init] does before the page reacts to
    anything, and how the listeners it registers route what the user does
    to the functions above. The state of the script is the [State] so
    far, extended with the global [modelInfo], the [ready] class of the
    status badge and the registered listeners. [init] is taken to run to
    its end before the first occurrence: until its listeners are
    registered an occurrence can only change a widget, which is a change
    of the markup the page opens on. *)

(** [s.indexOf(needle) > -1]: does [needle] occur in [s]. *)
Definition occursIn (needle s : string) : bool :=
  match String.index 0 needle s with
  | Some _ => true
  | None => false
  end.

(** The name [detectSystemInfo] gives the browser of user agent [ua]. The
    names looked for are ASCII, so they occur among the bytes of [ua]
    exactly when they occur among its UTF-16 code units. *)
Definition browserName (ua : string) : string :=
  if occursIn "Chrome" ua then "Chrome"
  else if occursIn "Firefox" ua then "Firefox"
  else if occursIn "Safari" ua then "Safari"
  else if occursIn "Edge" ua then "Edge"
  else "Unknown".

(** [detectSystemInfo], given [navigator.userAgent] and
    [navigator.platform]. *)
Definition detectSystemInfo (userAgent platform : string) (st : State)
  : State :=
  let ua := userAgent in
  let st :=
    assign "browserInfo" (Dom.set_textContent (Lit (browserName ua))) st in
  assign "platformInfo" (Dom.set_textContent (Lit platform)) st.

(** What a listener calls. *)
Inductive Handler :=
| CallUpdateSensorDisplays
| CallRunPrediction
| CallApplyPreset (presetName : string)
| CallStartAutoDemo
| CallStopAutoDemo.

(** What a listener is attached to: an element by its id, or the [k]-th
    of the buttons of class [preset-btn]. *)
Inductive Target :=
| ById (id : string)
| PresetButton (k : nat).

Record Listener := {
  target : Target;
  event : string;
  handler : Handler
}.

(** How [fetch('model_info.json')] and [response.json()] end: one of them
    fails, or the document is parsed: to [null], or to a value whose
    [model_size_kb] is given when it is a number (anything else has no
    [toFixed]). *)
Inductive Metadata :=
| MetadataFailed
| MetadataNull
| MetadataParsed (model_size_kb : option Js.number).

Record Page := {
  app : State;
  modelInfo : option Metadata;
  statusReady : bool;     (* modelStatus.classList contains 'ready' *)
  listeners : list Listener
}.

(** What the outside contributes to [init]: the metadata file, the
    session [ort.InferenceSession.create] resolves with (none when it
    rejects), the [data-preset] of each preset button of the page (a
    button without one reads [undefined], which is looked up as that
    name), and the navigator. *)
Record BootWorld := {
  metadata : Metadata;
  created : option Session;
  presetButtons : list string;
  userAgent : string;
  platform : string
}.

Module Boot.

Definition on_app (f : State -> State) (p : Page) : Page :=
  {| app := f (app p); modelInfo := modelInfo p;
     statusReady := statusReady p; listeners := listeners p |}.

Definition updateModelStatus (text : string) (ready : bool) (p : Page)
  : Page :=
  {| app := assign "modelStatus" (Dom.set_textContent (Lit text)) (app p);
     modelInfo := modelInfo p;
     statusReady := ready;
     listeners := listeners p |}.

(** [loadModelInfo] catches whatever fails in it: a failed fetch leaves
    [modelInfo] alone, a document without a numeric [model_size_kb] is
    kept (as [null] when it is [null]) but not displayed. *)
Definition loadModelInfo (m : Metadata) (p : Page) : Page :=
  match m with
  | MetadataFailed => p
  | MetadataNull =>
      {| app := app p; modelInfo := None;
         statusReady := statusReady p; listeners := listeners p |}
  | MetadataParsed size =>
      let p :=
        {| app := app p; modelInfo := Some m;
           statusReady := statusReady p; listeners := listeners p |} in
      match size with
      | Some kb =>
          on_app (assign "modelSize"
                    (Dom.set_textContent (Fixed kb 2 +++ Lit " KB"))) p
      | None => p
      end
  end.

(** [loadModel] answers whether it returned ([true]) or threw. *)
Definition loadModel (creation : option Session) (p : Page) : Page * bool :=
  let p := updateModelStatus "Loading model..." false p in
  match creation with
  | None => (p, false)
  | Some s =>
      let p := on_app (set_session (Some s)) p in
      let provider :=
        match executionProviders s with
        | Some (first :: _) => first
        | _ => "wasm"
        end in
      let p := updateModelStatus "Model Ready ✓" true p in
      (on_app (assign "execProvider" (Dom.set_textContent (Upper provider)))
         p, true)
  end.

Definition setupEventListeners (buttons : list string) (p : Page) : Page :=
  let added :=
    [ {| target := ById "hourInput"; event := "input";
         handler := CallUpdateSensorDisplays |};
      {| target := ById "dayInput"; event := "input";
         handler := CallUpdateSensorDisplays |};
      {| target := ById "lightInput"; event := "input";
         handler := CallUpdateSensorDisplays |};
      {| target := ById "tempInput"; event := "input";
         handler := CallUpdateSensorDisplays |};
      {| target := ById "pirInput"; event := "change";
         handler := CallUpdateSensorDisplays |};
      {| target := ById "phoneInput"; event := "change";
         handler := CallUpdateSensorDisplays |};
      {| target := ById "predictBtn"; event := "click";
         handler := CallRunPrediction |} ]
    ++ map (fun kn =>
              {| target := PresetButton (fst kn); event := "click";
                 handler := CallApplyPreset (snd kn) |})
         (combine (seq 0 (List.length buttons)) buttons)
    ++ [ {| target := ById "autoDemoBtn"; event := "click";
            handler := CallStartAutoDemo |};
         {| target := ById "stopDemoBtn"; event := "click";
            handler := CallStopAutoDemo |} ] in
  {| app := app p; modelInfo := modelInfo p;
     statusReady := statusReady p; listeners := listeners p ++ added |}.

Definition init (w : BootWorld) (p : Page) : Page :=
  let p := loadModelInfo (metadata w) p in
  match loadModel (created w) p with
  | (p, true) =>
      let p := setupEventListeners (presetButtons w) p in
      let p := on_app updateSensorDisplays p in
      let p := on_app (assign "autoDemoBtn" (Dom.set_display "block")) p in
      on_app (detectSystemInfo (userAgent w) (platform w)) p
  | (p, false) => updateModelStatus "Error loading model" false p
  end.

(** The page before [init]: the globals as the script declares them, on
    the markup [d]. *)
Definition opening (d : Dom.Document) : Page :=
  {| app := set_document d initial; modelInfo := None; statusReady := false;
     listeners := [] |}.

End Boot.

(** *** What the user and the browser do to the page *)

Inductive Occurrence :=
| Moved (id : string) (v : Js.number)   (* a slider is moved to [v] *)
| Toggled (id : string) (b : bool)      (* a checkbox is set to [b] *)
| Clicked (t : Target)
| Elapsed (h : positive).               (* the timer [h] comes due *)

Definition call (h : Handler) (w : World) (st : State) : State :=
  match h with
  | CallUpdateSensorDisplays => updateSensorDisplays st
  | CallRunPrediction => runPrediction w st
  | CallApplyPreset presetName => applyPreset presetName st
  | CallStartAutoDemo => startAutoDemo st
  | CallStopAutoDemo => stopAutoDemo st
  end.

Definition Target_eqb (a b : Target) : bool :=
  match a, b with
  | ById x, ById y => String.eqb x y
  | PresetButton j, PresetButton k => Nat.eqb j k
  | _, _ => false
  end.

(** The listeners of [ev] on [t] run in the order they were added. *)
Definition dispatch (t : Target) (ev : string) (w : World) (p : Page)
  : Page :=
  fold_left
    (fun p l =>
       if Target_eqb (target l) t && String.eqb (event l) ev
       then Boot.on_app (call (handler l) w) p else p)
    (listeners p) p.

(** One occurrence; [w] answers the prediction it may start. *)
Definition occur (o : Occurrence) (w : World) (p : Page) : Page :=
  match o with
  | Moved id v =>
      dispatch (ById id) "input" w
        (Boot.on_app (assign id (Dom.set_value v)) p)
  | Toggled id b =>
      dispatch (ById id) "change" w
        (Boot.on_app (assign id (Dom.set_checked b)) p)
  | Clicked t => dispatch t "click" w p
  | Elapsed h => Boot.on_app (fire h w) p
  end.

Definition occurs (os : list (Occurrence * World)) (p : Page) : Page :=
  fold_left (fun p ow => occur (fst ow) (snd ow) p) os p.

(** *** More observations *)

(** The two alerts of [runPrediction]. *)
Definition notLoadedAlert (e : Event) : bool :=
  match e with
  | Alert message => String.eqb message "Model not loaded yet!"
  | _ => false
  end.

Definition failureAlert (e : Event) : bool :=
  match e with
  | Alert message =>
      String.eqb message "Prediction failed! Check console for details."
  | _ => false
  end.

(** The confidence written in the result card, when there is one. *)
Definition shownConfidence (st : State) : option Text :=
  match Dom.innerHTML (document st "resultsContainer") with
  | Some (PredictionResult _ _ _ confidence) => Some confidence
  | _ => None
  end.

(** The pending prediction [applyPreset] schedules on the handle [h]. *)
Definition predictionTimer (h : positive) : Timer :=
  {| handle := h; callback := RunPredictionCallback; delay := 500;
     repeats := false |}.

(** The handles handed out so far are distinct and below the next one. *)
Definition handlesFresh (st : State) : Prop :=
  NoDup (map handle (timers st))
  /\ Forall (fun t => (handle t < nextHandle st)%positive) (timers st).

(** [dayNames[day]] as [updateSensorDisplays] shows it. *)
Definition dayLabel (day : Js.number) : Text :=
  match array_index day (List.length dayNames) with
  | Some i => Lit (nth i dayNames "")
  | None => Undefined
  end.

(** The four labels show what the four sliders hold. *)
Definition labelsAgree (st : State) : Prop :=
  let widget id := Dom.value (document st id) in
  let label id := Dom.textContent (document st id) in
  label "hourValue" = Num (widget "hourInput")
  /\ label "dayValue" = dayLabel (widget "dayInput")
  /\ label "lightValue" = Num (widget "lightInput") +++ Lit " lux"
  /\ label "tempValue" = Num (widget "tempInput") +++ Lit "°C".

(** The elements written by [updateSensorDisplays], by the demo, and by
    [init] and the functions only it calls. *)
Definition labelFields : list string :=
  ["hourValue"; "dayValue"; "lightValue"; "tempValue"].

Definition demoFields : list string :=
  ["demoBanner"; "autoDemoBtn"; "demoScenario"].

Definition startupFields : list string :=
  ["modelStatus"; "modelSize"; "execProvider"; "browserInfo"; "platformInfo"].

(** Every element a listener or a timer may write. *)
Definition liveFields : list string :=
  statusFields ++ metricFields ++ nudgeFields ++ summaryFields
  ++ demoFields ++ sensorInputs ++ labelFields.

(** [st'] has the session, the journal and the counters of [st]. *)
Definition silent (st st' : State) : Prop :=
  session st' = session st /\ journal st' = journal st
  /\ predictionCount st' = predictionCount st
  /\ totalLatency st' = totalLatency st
  /\ inferenceTime st' = inferenceTime st.

(** How many elements of [l] satisfy [f]. *)
Definition count {A : Type} (f : A -> bool) (l : list A) : nat :=
  List.length (filter f l).

(** [needle] occurs in [s]. *)
Definition contains (needle s : string) : Prop :=
  exists before after, s = (before ++ needle ++ after)%string.

(** The four sliders and the two checkboxes among the widgets. *)
Definition sliderInputs : list string :=
  ["hourInput"; "dayInput"; "lightInput"; "tempInput"].

Definition toggleInputs : list string := ["pirInput"; "phoneInput"].

(** The handlers of the listeners [ls] for [ev] on [t], run in order. *)
Definition deliver (t : Target) (ev : string) (w : World)
  (ls : list Listener) (st : State) : State :=
  fold_left
    (fun st l =>
       if Target_eqb (target l) t && String.eqb (event l) ev
       then call (handler l) w st else st)
    ls st.

(** The journal and the counter tell the same story: every call of the
    classifier was counted or ended in the failure alert, the guard of
    [runPrediction] never fired, and there are no more estimates than
    counted predictions. *)
Definition accounted (st : State) : Prop :=
  (predictionCount st + count failureAlert (journal st)
   = count isSessionRun (journal st))%nat
  /\ count notLoadedAlert (journal st) = 0%nat
  /\ (count isEstimated (journal st) <= predictionCount st)%nat.

(** The counter on the page is the counter of the script, once a
    prediction was counted. *)
Definition counterShown (st : State) : Prop :=
  predictionCount st = 0%nat
  \/ Dom.textContent (document st "totalPredictions")
     = Int (Z.of_nat (predictionCount st)).

(** The savings of the last estimate the journal records. *)
Definition lastEstimate (j : list Event) : option Savings :=
  fold_left
    (fun found e =>
       match e with
       | Estimated _ savings => Some savings
       | _ => found
       end) j None.

(** What [displayEnergySummary] writes in the summary field [id]. *)
Definition summaryText (savings : Savings) (id : string) : Text :=
  Dom.textContent (document (displayEnergySummary savings initial) id).

(** The result card, the nudge card and the summary tell of the same
    prediction: an occupied room with the summary hidden, or an empty
    room with the figures of the last estimate. *)
Definition consistent (st : State) : Prop :=
  (shownStatus st = Some "OCCUPIED"
   /\ Dom.innerHTML (document st "energyNudgeContainer") = Some NudgeRoomInUse
   /\ Dom.display (document st "energySummaryContainer") = "none")
  \/ (exists savings,
        lastEstimate (journal st) = Some savings
        /\ shownStatus st = Some "EMPTY"
        /\ Dom.innerHTML (document st "energyNudgeContainer")
           = Some (NudgeOpportunity (Fixed (totalKwh savings) 2))
        /\ Dom.display (document st "energySummaryContainer") = "block"
        /\ forall id, existsb (String.eqb id) summaryFields = true ->
                      Dom.textContent (document st id)
                      = summaryText savings id).

(** The elements the three cards are made of. *)
Definition cardFields : list string :=
  "resultsContainer" :: nudgeFields ++ summaryFields.

(** The timer table is in order: handles are fresh, every timer is a
    pending prediction or a demo interval as the script sets them, and
    the interval the script remembers is on the table. *)
Definition wellTimed (st : State) : Prop :=
  handlesFresh st
  /\ Forall (fun t => t = predictionTimer (handle t)
                      \/ t = demoTimer (handle t)) (timers st)
  /\ (forall h, autoDemoInterval st = Some h ->
                timerOf h st = Some (demoTimer h)).

(** * Properties *)

(** ** Numbers *)

(** [x === 1] holds exactly of the number 1. *)
Lemma strict_eq_1 (x : Js.number) : Js.strict_eq x 1 = true <-> x = 1.
Proof.
  unfold Js.strict_eq. split.
  - intro H. rewrite eqb_spec in H.
    apply Prim2SF_inj.
    change (Prim2SF 1) with (S754_finite false 4503599627370496 (-52)) in *.
    destruct (Prim2SF x) as [s | s | | s m e]; try discriminate;
      try (destruct s; discriminate).
    unfold SFeqb, SFcompare in H.
    destruct s; try discriminate.
    destruct (Z.compare_spec e (-52)); try discriminate.
    subst e.
    destruct (PosDef.Pos.compare_cont Eq m 4503599627370496) eqn:E;
      try discriminate.
    apply Pos.compare_eq in E. subst m. reflexivity.
  - intros ->. reflexivity.
Qed.

Lemma strict_eq_1_false (x : Js.number) :
  Js.strict_eq x 1 = false <-> x <> 1.
Proof.
  rewrite <- strict_eq_1. destruct (Js.strict_eq x 1); intuition congruence.
Qed.

(** ** The energy estimator *)

(** C2. For every reading the estimator returns the three per-device
    savings by the thresholds 300 lux, 24 and 25 degrees over a window of
    2 hours, the cost at 0.12 per kWh, the CO2 at 0.92 lb/kWh times
    0.453592 kg/lb and the trees at 0.0575 kg each; a reading of 400 lux
    and 26 degrees gives 0.02, 0.15, 1.0 and 1.17 kWh, and a reading of
    15 lux and 20.0 degrees gives four zeros. *)
Theorem estimator_formulas (s : Sensors) (h d pir ph : Js.number) :
  let e := Estimator.calculateEnergySavings s in
  let bright := Estimator.calculateEnergySavings (reading h d pir ph 400 26) in
  let dark := Estimator.calculateEnergySavings (reading h d pir ph 15 20.0) in
  (lightsKwh e = (if Js.gt (ambient_light s) 300 then (10 * 2) / 1000 else 0)
   /\ fanKwh e = (if Js.gt (temperature s) 24 then (75 * 2) / 1000 else 0)
   /\ acKwh e = (if Js.gt (temperature s) 25 then (500 * 2) / 1000 else 0)
   /\ totalCost e = totalKwh e * 0.12
   /\ co2Saved e = totalKwh e * 0.92 * 0.453592
   /\ treesEquiv e = co2Saved e / 0.0575
   /\ hoursEmpty e = 2.0)
  /\ (lightsKwh bright = 0.02 /\ fanKwh bright = 0.15
      /\ acKwh bright = 1.0 /\ totalKwh bright = 1.17)
  /\ (lightsKwh dark = 0 /\ fanKwh dark = 0
      /\ acKwh dark = 0 /\ totalKwh dark = 0).
Proof.
  repeat split; vm_compute; reflexivity.
Qed.

(** C3. The total of every estimate is the sum of its three parts. *)
Theorem total_is_sum_of_parts (s : Sensors) :
  let e := Estimator.calculateEnergySavings s in
  totalKwh e = lightsKwh e + fanKwh e + acKwh e.
Proof. reflexivity. Qed.

(** ** The campus projection *)

(** The eight totals an estimate can have. *)
Lemma estimate_cases (s : Sensors) :
  let e := Estimator.calculateEnergySavings s in
  exists l f a : bool,
    totalKwh e =
      (if l then 0.02 else 0) + (if f then 0.15 else 0) + (if a then 1 else 0)
    /\ co2Saved e = totalKwh e * 0.92 * 0.453592.
Proof.
  exists (Js.gt (ambient_light s) 300), (Js.gt (temperature s) 24),
    (Js.gt (temperature s) 25).
  unfold Estimator.calculateEnergySavings. cbn [totalKwh co2Saved].
  split; [| reflexivity].
  destruct (Js.gt (ambient_light s) 300), (Js.gt (temperature s) 24),
    (Js.gt (temperature s) 25); vm_compute; reflexivity.
Qed.

(** C8. The projection of an estimate is the daily saving per room
    [totalKwh * 4 * 0.3], scaled to 100 rooms over 30 and over 365 days,
    and the yearly CO2 [co2SavedKg * 4 * 0.3 * 100 * 365]; of two
    estimates of the estimator, the one with the smaller total has the
    smaller daily, monthly and yearly saving and the smaller yearly CO2,
    and so the smaller of each figure the summary shows (the two costs and
    the tons of CO2). Smaller is meant as [<=] throughout. *)
Theorem projection_formulas_and_monotone (e : Savings) (s1 s2 : Sensors) :
  let p := Campus.projection e in
  let e1 := Estimator.calculateEnergySavings s1 in
  let e2 := Estimator.calculateEnergySavings s2 in
  let p1 := Campus.projection e1 in
  let p2 := Campus.projection e2 in
  (dailySavingsPerRoom p = totalKwh e * 4 * 0.3
   /\ monthlySavings p = dailySavingsPerRoom p * 100 * 30
   /\ annualSavings p = dailySavingsPerRoom p * 100 * 365
   /\ annualCO2 p = co2Saved e * 4 * 0.3 * 100 * 365)
  /\ (Js.le (totalKwh e1) (totalKwh e2) = true ->
      Js.le (dailySavingsPerRoom p1) (dailySavingsPerRoom p2) = true
      /\ Js.le (monthlySavings p1) (monthlySavings p2) = true
      /\ Js.le (annualSavings p1) (annualSavings p2) = true
      /\ Js.le (annualCO2 p1) (annualCO2 p2) = true
      /\ Js.le (monthlySavings p1 * 0.12) (monthlySavings p2 * 0.12) = true
      /\ Js.le (annualSavings p1 * 0.12) (annualSavings p2 * 0.12) = true
      /\ Js.le (annualCO2 p1 / 1000) (annualCO2 p2 / 1000) = true).
Proof.
  cbv zeta. split; [repeat split |].
  destruct (estimate_cases s1) as (l1 & f1 & a1 & T1 & C1).
  destruct (estimate_cases s2) as (l2 & f2 & a2 & T2 & C2).
  unfold Campus.projection.
  cbn [dailySavingsPerRoom monthlySavings annualSavings annualCO2].
  rewrite C1, C2, T1, T2.
  destruct l1, f1, a1, l2, f2, a2; vm_compute; intro H;
    first [ discriminate H | repeat split ].
Qed.

Lemma projection_monotone_witness :
  let e1 := Estimator.calculateEnergySavings (reading 2 1 0 0 15 20.0) in
  let e2 := Estimator.calculateEnergySavings (reading 9 2 1 1 400 26) in
  let p1 := Campus.projection e1 in
  let p2 := Campus.projection e2 in
  Js.le (totalKwh e1) (totalKwh e2) = true
  /\ Js.le (dailySavingsPerRoom p1) (dailySavingsPerRoom p2) = true
  /\ Js.le (monthlySavings p1) (monthlySavings p2) = true
  /\ Js.le (annualSavings p1) (annualSavings p2) = true
  /\ Js.le (annualCO2 p1) (annualCO2 p2) = true
  /\ Js.le (monthlySavings p1 * 0.12) (monthlySavings p2 * 0.12) = true
  /\ Js.le (annualSavings p1 * 0.12) (annualSavings p2 * 0.12) = true
  /\ Js.le (annualCO2 p1 / 1000) (annualCO2 p2 / 1000) = true.
Proof.
  cbv zeta.
  assert (H : Js.le
    (totalKwh (Estimator.calculateEnergySavings (reading 2 1 0 0 15 20.0)))
    (totalKwh (Estimator.calculateEnergySavings (reading 9 2 1 1 400 26)))
    = true) by (vm_compute; reflexivity).
  split; [exact H |].
  exact (proj2 (projection_formulas_and_monotone
                  (Estimator.calculateEnergySavings (reading 2 1 0 0 15 20.0))
                  (reading 2 1 0 0 15 20.0) (reading 9 2 1 1 400 26)) H).
Defined.

(** ** Frames: what each function of the script leaves alone *)

Ltac state :=
  cbn [session inferenceTime predictionCount totalLatency autoDemoInterval
       currentDemoStep document timers nextHandle journal
       set_session set_inferenceTime set_metrics set_autoDemoInterval
       set_currentDemoStep set_document set_timers record assign
       schedule setTimeout setInterval clearInterval fst snd] in *.

Lemma touches_refl ids st : touches ids st st.
Proof. intros id _. reflexivity. Qed.

Lemma touches_trans ids st1 st2 st3 :
  touches ids st1 st2 -> touches ids st2 st3 -> touches ids st1 st3.
Proof. intros H12 H23 id Hid. rewrite H23, H12; auto. Qed.

Lemma touches_assign ids id f st :
  existsb (String.eqb id) ids = true -> touches ids st (assign id f st).
Proof.
  intros Hin id' Hout. state. unfold Dom.update.
  destruct (String.eqb_spec id' id) as [->|]; [congruence | reflexivity].
Qed.

Lemma subset_out ids ids' id :
  subset ids ids' = true ->
  existsb (String.eqb id) ids' = false -> existsb (String.eqb id) ids = false.
Proof.
  unfold subset. induction ids as [|a ids IH]; cbn; [reflexivity |].
  intros Hsub Hout. apply andb_true_iff in Hsub as [Ha Hsub].
  rewrite (IH Hsub Hout), orb_false_r.
  destruct (String.eqb_spec id a) as [->|]; [congruence | reflexivity].
Qed.

Lemma touches_subset ids ids' st st' :
  subset ids ids' = true -> touches ids st st' -> touches ids' st st'.
Proof. intros Hsub H id Hid. apply H. eapply subset_out; eauto. Qed.

(** A chain of assignments writes the elements it names. *)
Ltac touches_steps :=
  repeat first
    [ apply touches_refl
    | eapply touches_trans; [| apply touches_assign; reflexivity ] ];
  try (intros ? _; reflexivity).

Lemma displayEnergySummary_touches savings st :
  touches summaryFields st (displayEnergySummary savings st).
Proof. unfold displayEnergySummary. touches_steps. Qed.

Lemma updatePerformanceMetrics_touches latency st :
  touches metricFields st (updatePerformanceMetrics latency st).
Proof.
  unfold updatePerformanceMetrics.
  change (session (assign _ _ (assign _ _ (set_metrics _ _ st))))
    with (session st).
  destruct (session st) as [[[[|provider l]|]]|]; touches_steps.
Qed.

Lemma generateEnergyNudge_occupied_touches prediction sensors st :
  Js.strict_eq prediction 1 = true ->
  touches nudgeFields st (generateEnergyNudge prediction sensors st).
Proof. unfold generateEnergyNudge. intros ->. touches_steps. Qed.

Lemma generateEnergyNudge_touches prediction sensors st :
  touches (nudgeFields ++ summaryFields) st
    (generateEnergyNudge prediction sensors st).
Proof.
  destruct (Js.strict_eq prediction 1) eqn:E.
  - eapply touches_subset;
      [| apply generateEnergyNudge_occupied_touches, E ]; reflexivity.
  - unfold generateEnergyNudge. rewrite E.
    eapply touches_trans; [| apply touches_assign; reflexivity ].
    eapply touches_trans;
      [| eapply touches_subset;
         [| apply displayEnergySummary_touches ]; reflexivity ].
    touches_steps.
Qed.

Lemma displayResults_touches label probability latency st :
  touches (statusFields ++ metricFields ++ nudgeFields ++ summaryFields) st
    (displayResults label probability latency st).
Proof.
  unfold displayResults.
  eapply touches_trans;
    [| eapply touches_subset;
       [| apply generateEnergyNudge_touches ]; reflexivity ].
  eapply touches_trans;
    [| eapply touches_subset;
       [| apply updatePerformanceMetrics_touches ]; reflexivity ].
  touches_steps.
Qed.

Lemma displayResults_occupied_touches label probability latency st :
  Js.strict_eq label 1 = true ->
  touches (statusFields ++ metricFields ++ nudgeFields) st
    (displayResults label probability latency st).
Proof.
  intro E. unfold displayResults.
  eapply touches_trans;
    [| eapply touches_subset;
       [| apply generateEnergyNudge_occupied_touches, E ]; reflexivity ].
  eapply touches_trans;
    [| eapply touches_subset;
       [| apply updatePerformanceMetrics_touches ]; reflexivity ].
  touches_steps.
Qed.

(** Outside the document, [displayResults] changes the two counters and
    the journal only. *)
Lemma updatePerformanceMetrics_control latency st :
  let st' := updatePerformanceMetrics latency st in
  session st' = session st /\ inferenceTime st' = inferenceTime st
  /\ autoDemoInterval st' = autoDemoInterval st
  /\ currentDemoStep st' = currentDemoStep st
  /\ timers st' = timers st /\ nextHandle st' = nextHandle st
  /\ journal st' = journal st
  /\ predictionCount st' = S (predictionCount st)
  /\ totalLatency st' = totalLatency st + latency.
Proof.
  unfold updatePerformanceMetrics.
  change (session (assign _ _ (assign _ _ (set_metrics _ _ st))))
    with (session st).
  destruct (session st) as [[[[|provider l]|]]|] eqn:E; cbv zeta;
    repeat split; exact E.
Qed.

Lemma generateEnergyNudge_control prediction sensors st :
  let st' := generateEnergyNudge prediction sensors st in
  session st' = session st /\ inferenceTime st' = inferenceTime st
  /\ autoDemoInterval st' = autoDemoInterval st
  /\ currentDemoStep st' = currentDemoStep st
  /\ timers st' = timers st /\ nextHandle st' = nextHandle st
  /\ predictionCount st' = predictionCount st
  /\ totalLatency st' = totalLatency st
  /\ journal st' =
       journal st ++
         (if Js.strict_eq prediction 1 then []
          else [Estimated sensors (Estimator.calculateEnergySavings sensors)]).
Proof.
  unfold generateEnergyNudge.
  destruct (Js.strict_eq prediction 1); cbv zeta;
    repeat split; symmetry; apply app_nil_r.
Qed.

(** Whoever leaves the six widgets alone leaves their reading alone. *)
Lemma getSensorValues_same st st' :
  (forall id, existsb (String.eqb id) sensorInputs = true ->
              document st' id = document st id) ->
  getSensorValues st' = getSensorValues st.
Proof.
  intros H. unfold getSensorValues. rewrite !H by reflexivity. reflexivity.
Qed.

Lemma touches_others ids ids' st st' id :
  touches ids st st' -> existsb (String.eqb id) ids' = true ->
  forallb (fun i => negb (existsb (String.eqb i) ids)) ids' = true ->
  document st' id = document st id.
Proof.
  intros H Hin Hdisj. apply H.
  induction ids' as [|a ids' IH]; cbn in *; [discriminate |].
  apply andb_true_iff in Hdisj as [Ha Hdisj].
  destruct (String.eqb_spec id a) as [->|].
  - now apply negb_true_iff.
  - apply IH; assumption.
Qed.

Lemma displayResults_control label probability latency st :
  let st' := displayResults label probability latency st in
  session st' = session st /\ inferenceTime st' = inferenceTime st
  /\ autoDemoInterval st' = autoDemoInterval st
  /\ currentDemoStep st' = currentDemoStep st
  /\ timers st' = timers st /\ nextHandle st' = nextHandle st
  /\ predictionCount st' = S (predictionCount st)
  /\ totalLatency st' = totalLatency st + latency
  /\ journal st' =
       journal st ++
         (if Js.strict_eq label 1 then []
          else [Estimated (getSensorValues st)
                  (Estimator.calculateEnergySavings (getSensorValues st))]).
Proof.
  unfold displayResults.
  set (st1 := assign "metricsContainer" _ _).
  set (st2 := updatePerformanceMetrics latency st1).
  assert (T1 : touches statusFields st st1) by (unfold st1; touches_steps).
  assert (Hs : getSensorValues st2 = getSensorValues st).
  { apply getSensorValues_same. intros id Hid. unfold st2.
    rewrite (touches_others metricFields sensorInputs st1 _ id
               (updatePerformanceMetrics_touches latency st1) Hid eq_refl).
    exact (touches_others statusFields sensorInputs st st1 id T1 Hid
             eq_refl). }
  destruct (generateEnergyNudge_control label (getSensorValues st2) st2)
    as (G1 & G2 & G3 & G4 & G5 & G6 & G7 & G8 & G9).
  destruct (updatePerformanceMetrics_control latency st1)
    as (U1 & U2 & U3 & U4 & U5 & U6 & U7 & U8 & U9).
  fold st2 in U1, U2, U3, U4, U5, U6, U7, U8, U9.
  cbv zeta.
  rewrite G1, G2, G3, G4, G5, G6, G7, G8, G9, Hs.
  rewrite U1, U2, U3, U4, U5, U6, U7, U8, U9.
  repeat split.
Qed.

(** ** One call of [runPrediction] *)

Lemma runPrediction_not_loaded w st :
  session st = None ->
  runPrediction w st = record (Alert "Model not loaded yet!") st.
Proof.
  intro H. unfold runPrediction, runPrediction_call. rewrite H. reflexivity.
Qed.

Lemma runPrediction_rejected w st s :
  session st = Some s -> response w = RunRejected ->
  runPrediction w st =
    record (Alert "Prediction failed! Check console for details.")
      (record (inference (featureVector st)) st).
Proof.
  intros H R. unfold runPrediction, runPrediction_call. rewrite H.
  unfold runPrediction_resume. rewrite R. reflexivity.
Qed.

Lemma runPrediction_resolved w st s output_label :
  session st = Some s -> response w = RunResolved output_label ->
  runPrediction w st =
    displayResults (Js.of_Z output_label) None (latency w)
      (set_inferenceTime (latency w)
         (record (inference (featureVector st)) st)).
Proof.
  intros H R. unfold runPrediction, runPrediction_call. rewrite H.
  unfold runPrediction_resume. rewrite R. reflexivity.
Qed.

(** The journal of one call with the model loaded: the call of the
    classifier, then the estimate of an answer other than 1 or the alert
    of a failure. *)
Lemma runPrediction_journal w st s :
  session st = Some s ->
  journal (runPrediction w st) =
    journal st ++
      inference (featureVector st) ::
      match response w with
      | RunResolved output_label =>
          if Js.strict_eq (Js.of_Z output_label) 1 then []
          else [Estimated (getSensorValues st)
                  (Estimator.calculateEnergySavings (getSensorValues st))]
      | RunRejected => [Alert "Prediction failed! Check console for details."]
      end.
Proof.
  intro H. destruct (response w) as [output_label|] eqn:R.
  - rewrite (runPrediction_resolved w st s output_label H R).
    set (st1 := set_inferenceTime _ _).
    destruct (displayResults_control (Js.of_Z output_label) None (latency w)
                st1) as (_ & _ & _ & _ & _ & _ & _ & _ & J).
    rewrite J.
    change (journal st1) with (journal st ++ [inference (featureVector st)]).
    change (getSensorValues st1) with (getSensorValues st).
    rewrite <- app_assoc. reflexivity.
  - rewrite (runPrediction_rejected w st s H R).
    change (journal (record ?e (record ?e' st)))
      with ((journal st ++ [e']) ++ [e]).
    rewrite <- app_assoc. reflexivity.
Qed.

Lemma fround_toggle (b : bool) :
  Js.fround (if b then 1.0 else 0.0) = if b then 1.0 else 0.0.
Proof. destruct b; vm_compute; reflexivity. Qed.

(** C1. With the model loaded, every run hands the classifier once, as
    input [float_input] and asking for [output_label] only, a float32
    tensor of shape [1,6] made of the six widget readings in the order
    hour, day of week, ambient light, PIR motion, phone presence,
    temperature: the two toggles as exactly 1.0 or 0.0, the four numeric
    readings as they are read, each held at float32 precision, which
    leaves the values of all four presets as they are. *)
Theorem input_vector_order (st : State) (s : Session) (w : World) :
  session st = Some s ->
  let widget id := Dom.value (document st id) in
  let toggle id := if Dom.checked (document st id) then 1.0 else 0.0 in
  let sensors := getSensorValues st in
  (hour sensors = widget "hourInput"
   /\ day_of_week sensors = widget "dayInput"
   /\ ambient_light sensors = widget "lightInput"
   /\ pir_motion sensors = toggle "pirInput"
   /\ phone_presence sensors = toggle "phoneInput"
   /\ temperature sensors = widget "tempInput")
  /\ (exists rest,
        journal (runPrediction w st) =
          journal st ++
            SessionRun
              [("float_input",
                {| dtype := "float32";
                   data :=
                     [Js.fround (hour sensors);
                      Js.fround (day_of_week sensors);
                      Js.fround (ambient_light sensors);
                      pir_motion sensors;
                      phone_presence sensors;
                      Js.fround (temperature sensors)];
                   dims := [1; 6]%Z |})]
              ["output_label"] :: rest
        /\ existsb isSessionRun rest = false)
  /\ Forall (fun p => Js.Float32Array (presetVector (snd p))
                      = presetVector (snd p)) presets.
Proof.
  intro H. cbv zeta. split; [repeat split | split].
  - rewrite (runPrediction_journal w st s H).
    eexists. split.
    + unfold inference, featureVector, Js.Float32Array. cbn [map].
      rewrite !fround_toggle. reflexivity.
    + destruct (response w) as [output_label|];
        [destruct (Js.strict_eq (Js.of_Z output_label) 1) |]; reflexivity.
  - repeat constructor; vm_compute; reflexivity.
Qed.

Lemma input_vector_order_witness :
  exists rest,
    journal (runPrediction
               {| startTime := 10; endTime := 12.5;
                  response := RunResolved 1 |}
               (applyPreset "morning" loaded)) =
      SessionRun
        [("float_input",
          {| dtype := "float32"; data := [9; 2; 550; 1.0; 1.0; 23.0];
             dims := [1; 6]%Z |})]
        ["output_label"] :: rest.
Proof.
  destruct (input_vector_order (applyPreset "morning" loaded)
              {| executionProviders := Some ["wasm"] |}
              {| startTime := 10; endTime := 12.5;
                 response := RunResolved 1 |} eq_refl)
    as (_ & (rest & J & _) & _).
  exists rest. exact J.
Defined.

(** ** What a displayed result shows *)

Lemma document_assign_same id f st :
  document (assign id f st) id = f (document st id).
Proof. cbn. unfold Dom.update. rewrite String.eqb_refl. reflexivity. Qed.

Lemma document_assign_other id id' f st :
  String.eqb id' id = false -> document (assign id f st) id' = document st id'.
Proof. intro H. cbn. unfold Dom.update. rewrite H. reflexivity. Qed.

Lemma document_out ids st st' id :
  touches ids st st' -> existsb (String.eqb id) ids = false ->
  document st' id = document st id.
Proof. intros H Hid. apply H, Hid. Qed.

Lemma displayResults_status label probability latency st :
  shownStatus (displayResults label probability latency st) =
  Some (if Js.strict_eq label 1 then "OCCUPIED" else "EMPTY").
Proof.
  unfold shownStatus, displayResults.
  rewrite (document_out _ _ _ "resultsContainer"
             (generateEnergyNudge_touches _ _ _) eq_refl).
  rewrite (document_out _ _ _ "resultsContainer"
             (updatePerformanceMetrics_touches _ _) eq_refl).
  rewrite !document_assign_other by reflexivity.
  rewrite document_assign_same.
  destruct (Js.strict_eq label 1); reflexivity.
Qed.

Lemma generateEnergyNudge_shows prediction sensors st :
  let st' := generateEnergyNudge prediction sensors st in
  Dom.innerHTML (document st' "energyNudgeContainer") =
    Some (if Js.strict_eq prediction 1 then NudgeRoomInUse
          else NudgeOpportunity
                 (Fixed (totalKwh (Estimator.calculateEnergySavings sensors))
                    2))
  /\ Dom.display (document st' "energySummaryContainer") =
       (if Js.strict_eq prediction 1 then "none" else "block").
Proof.
  unfold generateEnergyNudge. destruct (Js.strict_eq prediction 1); cbv zeta.
  - rewrite document_assign_other by reflexivity.
    rewrite !document_assign_same. split; reflexivity.
  - rewrite document_assign_other by reflexivity.
    rewrite (document_out _ _ _ "energyNudgeContainer"
               (displayEnergySummary_touches _ _) eq_refl).
    rewrite !document_assign_same. split; reflexivity.
Qed.

Lemma displayResults_shows label probability latency st :
  let st' := displayResults label probability latency st in
  Dom.innerHTML (document st' "energyNudgeContainer") =
    Some (if Js.strict_eq label 1 then NudgeRoomInUse
          else NudgeOpportunity
                 (Fixed (totalKwh (Estimator.calculateEnergySavings
                                     (getSensorValues st))) 2))
  /\ Dom.display (document st' "energySummaryContainer") =
       (if Js.strict_eq label 1 then "none" else "block").
Proof.
  unfold displayResults.
  set (st1 := assign "metricsContainer" _ _).
  set (st2 := updatePerformanceMetrics latency st1).
  assert (T1 : touches statusFields st st1) by (unfold st1; touches_steps).
  assert (Hs : getSensorValues st2 = getSensorValues st).
  { apply getSensorValues_same. intros id Hid. unfold st2.
    rewrite (touches_others metricFields sensorInputs st1 _ id
               (updatePerformanceMetrics_touches latency st1) Hid eq_refl).
    exact (touches_others statusFields sensorInputs st st1 id T1 Hid
             eq_refl). }
  rewrite <- Hs. apply generateEnergyNudge_shows.
Qed.

(** C7. A call made while [session] is still null only raises the alert
    [Model not loaded yet!]: the classifier is not called, no result is
    displayed, and the counters, the page and the timers are as before. *)
Theorem model_not_loaded (st : State) (w : World) :
  session st = None ->
  let st' := runPrediction w st in
  journal st' = journal st ++ [Alert "Model not loaded yet!"]
  /\ filter isSessionRun (journal st') = filter isSessionRun (journal st)
  /\ document st' = document st
  /\ predictionCount st' = predictionCount st
  /\ totalLatency st' = totalLatency st
  /\ inferenceTime st' = inferenceTime st
  /\ timers st' = timers st
  /\ session st' = None.
Proof.
  intro H. cbv zeta. rewrite (runPrediction_not_loaded w st H).
  repeat split; try assumption.
  cbn [journal record]. rewrite filter_app. cbn. apply app_nil_r.
Qed.

Lemma model_not_loaded_witness :
  journal (runPrediction
             {| startTime := 10; endTime := 12.5; response := RunResolved 1 |}
             initial) = [Alert "Model not loaded yet!"]
  /\ predictionCount
       (runPrediction
          {| startTime := 10; endTime := 12.5; response := RunResolved 1 |}
          initial) = 0%nat.
Proof.
  pose proof (model_not_loaded initial
                {| startTime := 10; endTime := 12.5;
                   response := RunResolved 1 |} eq_refl)
    as (J & _ & _ & C & _).
  split; [exact J | exact C].
Defined.

(** C4. When the classifier answers a label that reads as 1, the run
    records the call of the classifier and nothing else: the estimator is
    not called, the card says the room is in use, the savings summary is
    hidden and none of its figures is written. *)
Theorem no_estimate_when_occupied (st : State) (s : Session) (w : World)
  (output_label : Z) :
  session st = Some s ->
  response w = RunResolved output_label ->
  Js.strict_eq (Js.of_Z output_label) 1 = true ->
  let st' := runPrediction w st in
  journal st' = journal st ++ [inference (featureVector st)]
  /\ filter isEstimated (journal st') = filter isEstimated (journal st)
  /\ shownStatus st' = Some "OCCUPIED"
  /\ Dom.innerHTML (document st' "energyNudgeContainer") = Some NudgeRoomInUse
  /\ Dom.display (document st' "energySummaryContainer") = "none"
  /\ (forall id, existsb (String.eqb id) summaryFields = true ->
                 document st' id = document st id).
Proof.
  intros H R L. cbv zeta.
  assert (J : journal (runPrediction w st)
              = journal st ++ [inference (featureVector st)]).
  { rewrite (runPrediction_journal w st s H), R, L. reflexivity. }
  rewrite J, (runPrediction_resolved w st s output_label H R).
  set (st1 := set_inferenceTime _ _).
  destruct (displayResults_shows (Js.of_Z output_label) None (latency w) st1)
    as (N & D).
  rewrite L in N, D. rewrite displayResults_status, L.
  repeat split; try assumption.
  - rewrite filter_app. cbn. apply app_nil_r.
  - intros id Hid.
    exact (touches_others _ summaryFields st1 _ id
             (displayResults_occupied_touches _ None (latency w) st1 L)
             Hid eq_refl).
Qed.

Lemma no_estimate_when_occupied_witness :
  let st' :=
    runPrediction
      {| startTime := 10; endTime := 12.5; response := RunResolved 1 |}
      (applyPreset "morning" loaded) in
  filter isEstimated (journal st') = []
  /\ shownStatus st' = Some "OCCUPIED"
  /\ Dom.display (document st' "energySummaryContainer") = "none".
Proof.
  pose proof (no_estimate_when_occupied (applyPreset "morning" loaded)
                {| executionProviders := Some ["wasm"] |}
                {| startTime := 10; endTime := 12.5;
                   response := RunResolved 1 |} 1 eq_refl eq_refl eq_refl)
    as (_ & E & S & _ & D & _).
  cbv zeta. split; [exact E | split; [exact S | exact D]].
Defined.

(** C9. A displayed result says OCCUPIED exactly when the label is the
    number 1; every other label, 0 as well as 2 or -1, says EMPTY, calls
    the estimator on the widgets' reading and shows the savings summary.
    No label is refused. *)
Theorem occupied_iff_label_is_one (label : Js.number)
  (probability : option (list Js.number)) (latency : Js.number) (st : State) :
  let st' := displayResults label probability latency st in
  let sensors := getSensorValues st in
  (shownStatus st' = Some "OCCUPIED" <-> label = 1)
  /\ (label <> 1 ->
      shownStatus st' = Some "EMPTY"
      /\ journal st' =
           journal st ++
             [Estimated sensors (Estimator.calculateEnergySavings sensors)]
      /\ Dom.display (document st' "energySummaryContainer") = "block")
  /\ (Js.of_Z 1 = 1 /\ Js.of_Z 0 <> 1 /\ Js.of_Z 2 <> 1 /\ Js.of_Z (-1) <> 1).
Proof.
  cbv zeta. rewrite displayResults_status.
  destruct (displayResults_control label probability latency st)
    as (_ & _ & _ & _ & _ & _ & _ & _ & J).
  destruct (displayResults_shows label probability latency st) as (_ & D).
  split; [| split].
  - rewrite <- strict_eq_1.
    destruct (Js.strict_eq label 1); split; intro; congruence.
  - intro N. apply strict_eq_1_false in N. rewrite N in J, D. rewrite N.
    repeat split; assumption.
  - repeat split; try (apply strict_eq_1_false); vm_compute; reflexivity.
Qed.

Lemma occupied_iff_label_is_one_witness :
  shownStatus (displayResults 2 None 2.5 loaded) = Some "EMPTY".
Proof.
  refine (proj1 (proj1 (proj2 (occupied_iff_label_is_one 2 None 2.5 loaded))
                   _)).
  apply strict_eq_1_false. vm_compute. reflexivity.
Defined.

(** ** The running metrics *)

(** The average shown in the page, as a number to two digits. *)
Lemma updatePerformanceMetrics_average latency st :
  let st' := updatePerformanceMetrics latency st in
  Dom.textContent (document st' "avgLatency") =
    Fixed (totalLatency st' / Js.of_Z (Z.of_nat (predictionCount st'))) 2
    +++ Lit " ms".
Proof.
  unfold updatePerformanceMetrics.
  change (session (assign _ _ (assign _ _ (set_metrics _ _ st))))
    with (session st).
  destruct (session st) as [[[[|provider l]|]]|]; reflexivity.
Qed.

Lemma displayResults_average label probability latency st :
  let st' := displayResults label probability latency st in
  Dom.textContent (document st' "avgLatency") =
    Fixed (totalLatency st' / Js.of_Z (Z.of_nat (predictionCount st'))) 2
    +++ Lit " ms".
Proof.
  unfold displayResults.
  set (st1 := assign "metricsContainer" _ _).
  set (st2 := updatePerformanceMetrics latency st1).
  destruct (generateEnergyNudge_control label (getSensorValues st2) st2)
    as (_ & _ & _ & _ & _ & _ & C & T & _).
  cbv zeta. rewrite C, T.
  rewrite (document_out _ _ _ "avgLatency"
             (generateEnergyNudge_touches _ _ _) eq_refl).
  apply updatePerformanceMetrics_average.
Qed.

(** One call with the model loaded: a success counts once and adds its
    latency; a failure changes neither counter nor the page. *)
Lemma runPrediction_metrics w st s :
  session st = Some s ->
  let st' := runPrediction w st in
  session st' = Some s
  /\ predictionCount st' =
       (predictionCount st + if resolved w then 1 else 0)%nat
  /\ totalLatency st' =
       (if resolved w then totalLatency st + latency w else totalLatency st)
  /\ (if resolved w
      then Dom.textContent (document st' "avgLatency") =
             Fixed (totalLatency st' / Js.of_Z (Z.of_nat (predictionCount st')))
               2 +++ Lit " ms"
      else document st' = document st)
  /\ filter isSessionRun (journal st') =
       filter isSessionRun (journal st) ++ [inference (featureVector st)].
Proof.
  intro H. cbv zeta.
  assert (J : filter isSessionRun (journal (runPrediction w st)) =
              filter isSessionRun (journal st)
              ++ [inference (featureVector st)]).
  { rewrite (runPrediction_journal w st s H), filter_app.
    f_equal. cbn [filter inference isSessionRun]. f_equal.
    destruct (response w) as [output_label|];
      [destruct (Js.strict_eq (Js.of_Z output_label) 1) |]; reflexivity. }
  unfold resolved. destruct (response w) as [output_label|] eqn:R.
  - pose proof (displayResults_average (Js.of_Z output_label) None
                  (latency w)
                  (set_inferenceTime (latency w)
                     (record (inference (featureVector st)) st))) as A.
    destruct (displayResults_control (Js.of_Z output_label) None (latency w)
                (set_inferenceTime (latency w)
                   (record (inference (featureVector st)) st)))
      as (S1 & _ & _ & _ & _ & _ & C & T & _).
    rewrite <- (runPrediction_resolved w st s output_label H R) in A, S1, C, T.
    cbv zeta in A.
    repeat split; try assumption.
    + rewrite S1. exact H.
    + rewrite C. change (predictionCount (set_inferenceTime _ (record _ st)))
        with (predictionCount st). lia.
  - rewrite (runPrediction_rejected w st s H R) in *.
    repeat split; try assumption. cbn [predictionCount record]. lia.
Qed.

(** C6. Over any sequence of calls made with the model loaded, the
    counter grows by the number of successful calls and the total by their
    latencies, in order; a failed call changes neither and leaves the
    page as it was; each call asks the classifier exactly once. So the
    average shown after the successful calls is their total over their
    number, and from the counters at zero it is the sum of the latencies
    over N. *)
Theorem metrics_follow_successes (ws : list World) (st : State)
  (s : Session) :
  session st = Some s ->
  let st' := runPredictions ws st in
  let ok := filter resolved ws in
  predictionCount st' = (predictionCount st + List.length ok)%nat
  /\ totalLatency st' =
       fold_left PrimFloat.add (map latency ok) (totalLatency st)
  /\ (ok = [] -> document st' = document st)
  /\ (ok <> [] ->
      Dom.textContent (document st' "avgLatency") =
        Fixed (totalLatency st' / Js.of_Z (Z.of_nat (predictionCount st'))) 2
        +++ Lit " ms")
  /\ (ok <> [] -> predictionCount st = 0%nat -> totalLatency st = 0 ->
      Dom.textContent (document st' "avgLatency") =
        Fixed (sum (map latency ok) / Js.of_Z (Z.of_nat (List.length ok))) 2
        +++ Lit " ms")
  /\ List.length (filter isSessionRun (journal st')) =
       (List.length (filter isSessionRun (journal st)) + List.length ws)%nat.
Proof.
  intro H. cbv zeta.
  assert (Main :
    predictionCount (runPredictions ws st)
      = (predictionCount st + List.length (filter resolved ws))%nat
    /\ totalLatency (runPredictions ws st)
         = fold_left PrimFloat.add (map latency (filter resolved ws))
             (totalLatency st)
    /\ (filter resolved ws = [] ->
        document (runPredictions ws st) = document st)
    /\ (filter resolved ws <> [] ->
        Dom.textContent (document (runPredictions ws st) "avgLatency") =
          Fixed (totalLatency (runPredictions ws st)
                 / Js.of_Z (Z.of_nat (predictionCount (runPredictions ws st))))
            2 +++ Lit " ms")
    /\ List.length (filter isSessionRun (journal (runPredictions ws st))) =
         (List.length (filter isSessionRun (journal st)) + List.length ws)%nat).
  { revert st H. induction ws as [|w ws IH]; intros st H.
    - cbn. repeat split; try lia. intro N. now contradiction N.
    - destruct (runPrediction_metrics w st s H) as (S1 & C1 & T1 & D1 & J1).
      destruct (IH (runPrediction w st) S1) as (C & T & D & A & J).
      change (runPredictions (w :: ws) st)
        with (runPredictions ws (runPrediction w st)).
      cbn [filter]. destruct (resolved w).
      + split; [| split; [| split; [| split]]].
        * rewrite C, C1. cbn [List.length]. lia.
        * rewrite T, T1. reflexivity.
        * discriminate.
        * intros _. destruct (filter resolved ws) as [|w' ok].
          -- rewrite (D eq_refl), C, T. cbn [map fold_left List.length].
             rewrite Nat.add_0_r. exact D1.
          -- apply A. discriminate.
        * rewrite J, J1, length_app. cbn [List.length]. lia.
      + split; [| split; [| split; [| split]]].
        * rewrite C, C1. lia.
        * rewrite T, T1. reflexivity.
        * intro E. rewrite (D E). exact D1.
        * exact A.
        * rewrite J, J1, length_app. cbn [List.length]. lia. }
  destruct Main as (C & T & D & A & J).
  repeat split; try assumption.
  intros N C0 T0. rewrite (A N), C, T, C0, T0. reflexivity.
Qed.

Lemma metrics_follow_successes_witness :
  let ws :=
    [{| startTime := 10; endTime := 12.5; response := RunResolved 0 |};
     {| startTime := 20; endTime := 21; response := RunRejected |};
     {| startTime := 30; endTime := 33.25; response := RunResolved 1 |}] in
  let st' := runPredictions ws loaded in
  predictionCount st' = 2%nat
  /\ totalLatency st' = 5.75
  /\ Dom.textContent (document st' "avgLatency")
     = Fixed 2.875 2 +++ Lit " ms".
Proof.
  cbv zeta.
  pose proof (metrics_follow_successes
    [{| startTime := 10; endTime := 12.5; response := RunResolved 0 |};
     {| startTime := 20; endTime := 21; response := RunRejected |};
     {| startTime := 30; endTime := 33.25; response := RunResolved 1 |}]
    loaded {| executionProviders := Some ["wasm"] |} eq_refl)
    as (C & T & _ & _ & A & _).
  split; [exact C | split; [exact T |]].
  rewrite A; [vm_compute; reflexivity | discriminate | reflexivity
             | reflexivity].
Defined.

(** ** The preset buttons *)

Lemma applyPreset_missing presetName st :
  presets_get presetName = Missing -> applyPreset presetName st = st.
Proof. intro H. unfold applyPreset. rewrite H. reflexivity. Qed.

Lemma assoc_none {A : Type} key (l : list (string * A)) :
  ~ In key (map fst l) -> assoc key l = None.
Proof.
  induction l as [|[k v] l IH]; cbn; [reflexivity |].
  intro N. destruct (String.eqb_spec key k) as [->|]; [tauto |].
  apply IH. tauto.
Qed.

(** A name that is neither a preset nor a property of [Object.prototype]
    changes nothing. *)
Lemma applyPreset_unknown presetName st :
  ~ In presetName (map fst presets) ->
  ~ In presetName (map fst Object_prototype) ->
  applyPreset presetName st = st.
Proof.
  intros N1 N2. apply applyPreset_missing. unfold presets_get.
  rewrite (assoc_none _ _ N1), (assoc_none _ _ N2). reflexivity.
Qed.

Lemma applyPreset_unknown_witness : applyPreset "night" loaded = loaded.
Proof.
  apply applyPreset_unknown; cbn; intuition discriminate.
Defined.

(** C10, as the script behaves on a name inherited from
    [Object.prototype]: [constructor] is none of the four presets, yet
    [presets["constructor"]] is truthy and [applyPreset] does not return
    early; it goes on to write the widgets, which unchecks both toggles,
    and schedules a prediction 500 ms later. *)
Theorem inherited_name_is_applied (st : State) :
  let st' := applyPreset "constructor" st in
  ~ In "constructor" (map fst presets)
  /\ timers st' =
       timers st ++
         [{| handle := nextHandle st; callback := RunPredictionCallback;
             delay := 500; repeats := false |}]
  /\ Dom.checked (document st' "pirInput") = false
  /\ Dom.checked (document st' "phoneInput") = false
  /\ st' <> st.
Proof.
  cbv zeta.
  assert (T : timers (applyPreset "constructor" st) =
              timers st ++
                [{| handle := nextHandle st;
                    callback := RunPredictionCallback;
                    delay := 500; repeats := false |}]) by reflexivity.
  repeat split; try reflexivity.
  - cbn. intuition discriminate.
  - intro E. rewrite E in T.
    apply (f_equal (@List.length Timer)) in T.
    rewrite length_app in T. cbn in T. lia.
Qed.

(** ** The auto demo *)

Lemma find_app {A : Type} (f : A -> bool) (l l' : list A) :
  find f (l ++ l') =
  match find f l with Some x => Some x | None => find f l' end.
Proof.
  induction l as [|a l IH]; cbn; [reflexivity |].
  destruct (f a); [reflexivity | exact IH].
Qed.

Lemma find_filter {A : Type} (f g : A -> bool) (l : list A) :
  (forall x, f x = true -> g x = true) ->
  find f (filter g l) = find f l.
Proof.
  intro H. induction l as [|a l IH]; cbn; [reflexivity |].
  destruct (g a) eqn:G; cbn.
  - destruct (f a); [reflexivity | exact IH].
  - destruct (f a) eqn:F; [| exact IH].
    rewrite (H a F) in G. discriminate.
Qed.

Lemma find_none_below (h : positive) (l : list Timer) (P : Timer -> Prop) :
  Forall (fun t => P t /\ (handle t < h)%positive) l ->
  forall h', (h <= h')%positive ->
  find (fun t => Pos.eqb (handle t) h') l = None.
Proof.
  intros F h' Hle. induction F as [|t l [_ Ht] _ IH]; cbn; [reflexivity |].
  destruct (Pos.eqb_spec (handle t) h'); [lia | exact IH].
Qed.

(** A run leaves the demo's variables, the timers, the six widgets and
    the banner alone. *)
Lemma runPrediction_control w st :
  let st' := runPrediction w st in
  session st' = session st
  /\ autoDemoInterval st' = autoDemoInterval st
  /\ currentDemoStep st' = currentDemoStep st
  /\ timers st' = timers st /\ nextHandle st' = nextHandle st.
Proof.
  cbv zeta. destruct (session st) as [s|] eqn:H.
  - destruct (response w) as [output_label|] eqn:R.
    + rewrite (runPrediction_resolved w st s output_label H R).
      destruct (displayResults_control (Js.of_Z output_label) None (latency w)
                  (set_inferenceTime (latency w)
                     (record (inference (featureVector st)) st)))
        as (C1 & _ & C3 & C4 & C5 & C6 & _).
      rewrite C1, C3, C4, C5, C6. repeat split. exact H.
    + rewrite (runPrediction_rejected w st s H R). repeat split. exact H.
  - rewrite (runPrediction_not_loaded w st H). repeat split. exact H.
Qed.

Lemma runPrediction_touches w st :
  touches (statusFields ++ metricFields ++ nudgeFields ++ summaryFields) st
    (runPrediction w st).
Proof.
  destruct (session st) as [s|] eqn:H.
  - destruct (response w) as [output_label|] eqn:R.
    + rewrite (runPrediction_resolved w st s output_label H R).
      eapply touches_trans; [| apply displayResults_touches].
      intros id _. reflexivity.
    + rewrite (runPrediction_rejected w st s H R). intros id _. reflexivity.
  - rewrite (runPrediction_not_loaded w st H). intros id _. reflexivity.
Qed.

Lemma playing_runPrediction h n w st :
  playing h n st -> playing h n (runPrediction w st).
Proof.
  intros (A & T & F & C & B & R & D).
  destruct (runPrediction_control w st) as (_ & A' & C' & T' & N').
  pose proof (runPrediction_touches w st) as Tch.
  unfold playing, timerOf. rewrite A', C', T', N'.
  rewrite (document_out _ _ _ "demoScenario" Tch eq_refl).
  rewrite (document_out _ _ _ "demoBanner" Tch eq_refl).
  repeat split; try assumption.
  rewrite <- R. apply getSensorValues_same. intros id Hid.
  exact (touches_others _ sensorInputs st _ id Tch Hid eq_refl).
Qed.

Lemma playing_clearInterval h n h' st :
  h' <> h -> playing h n st -> playing h n (clearInterval h' st).
Proof.
  intros Hne (A & T & F & C & B & R & D).
  unfold playing, timerOf in *. cbn [clearInterval set_timers timers
    autoDemoInterval nextHandle currentDemoStep].
  repeat split; try assumption.
  - rewrite find_filter; [exact T |].
    intros t Ht. apply Pos.eqb_eq in Ht. apply negb_true_iff.
    apply Pos.eqb_neq. congruence.
  - apply Forall_forall. intros t Ht. apply filter_In in Ht as [Ht _].
    rewrite Forall_forall in F. exact (F t Ht).
Qed.

Lemma runDemoScenario_at k st :
  (k < 4)%nat ->
  runDemoScenario (demoScenarios_at k) st = Some (scenarioState k st).
Proof.
  intro Hk. destruct k as [|[|[|[|k]]]]; try lia; reflexivity.
Qed.

Lemma scenarioState_spec k st :
  (k < 4)%nat ->
  let st' := scenarioState k st in
  autoDemoInterval st' = autoDemoInterval st
  /\ currentDemoStep st' = currentDemoStep st
  /\ timers st' =
       timers st ++
         [{| handle := nextHandle st; callback := RunPredictionCallback;
             delay := 500; repeats := false |}]
  /\ nextHandle st' = Pos.succ (nextHandle st)
  /\ Dom.textContent (document st' "demoScenario") = banner k
  /\ getSensorValues st' = presetReading (scenarioPreset k)
  /\ document st' "demoBanner" = document st "demoBanner".
Proof.
  intro Hk. destruct k as [|[|[|[|k]]]]; try lia;
    cbv zeta; repeat split; vm_compute; reflexivity.
Qed.

(** A scenario adds one pending prediction to the timers. *)
Lemma playing_scenario h n k st :
  (k < 4)%nat -> k = (S n) mod 4 ->
  autoDemoInterval st = Some h ->
  timerOf h st = Some (demoTimer h) ->
  Forall (fun t => (handle t < nextHandle st)%positive
                   /\ (handle t <> h -> callback t = RunPredictionCallback))
    (timers st) ->
  Dom.display (document st "demoBanner") = "block" ->
  playing h (S n) (set_currentDemoStep (S k) (scenarioState k st)).
Proof.
  intros Hk Hmod A T F D.
  destruct (scenarioState_spec k st Hk) as (A' & _ & T' & N' & B' & R' & D').
  unfold playing, timerOf.
  change (autoDemoInterval (set_currentDemoStep ?c ?x))
    with (autoDemoInterval x).
  change (timers (set_currentDemoStep ?c ?x)) with (timers x).
  change (nextHandle (set_currentDemoStep ?c ?x)) with (nextHandle x).
  change (currentDemoStep (set_currentDemoStep ?c ?x)) with c.
  change (document (set_currentDemoStep ?c ?x)) with (document x).
  change (getSensorValues (set_currentDemoStep ?c ?x))
    with (getSensorValues x).
  rewrite A', T', N', B', R', D', <- Hmod, find_app.
  unfold timerOf in T. rewrite T.
  split; [exact A | split; [reflexivity | split; [| split; [reflexivity |
    split; [reflexivity | split; [reflexivity | exact D]]]]]].
  apply Forall_app. split.
  - apply Forall_forall. intros t Ht. rewrite Forall_forall in F.
    destruct (F t Ht) as [Hlt Hcb]. split; [lia | exact Hcb].
  - constructor; [| constructor]. cbn [handle callback].
    split; [lia | reflexivity].
Qed.

Lemma next_mod n k : n mod 4 = k -> (S n) mod 4 = (S k) mod 4.
Proof.
  intros <-. change (S n) with (1 + n)%nat.
  change (S (n mod 4)) with (1 + n mod 4)%nat.
  rewrite Nat.Div0.add_mod_idemp_r. reflexivity.
Qed.

Lemma playing_demoStep h n st :
  playing h n st -> playing h (S n) (demoStep st).
Proof.
  intros (A & T & F & C & B & R & D).
  assert (Hk : (n mod 4 < 4)%nat) by (apply Nat.mod_upper_bound; lia).
  unfold demoStep. rewrite C.
  destruct (n mod 4) as [|[|[|[|k]]]] eqn:E; try lia.
  - change (1 <? List.length demoScenarios)%nat with true. cbv iota.
    rewrite (runDemoScenario_at 1 st) by lia.
    change (currentDemoStep (scenarioState 1 st)) with (currentDemoStep st).
    rewrite C.
    apply (playing_scenario h n 1 st);
      [lia | symmetry; exact (next_mod n 0 E) | exact A | exact T | exact F
      | exact D].
  - change (2 <? List.length demoScenarios)%nat with true. cbv iota.
    rewrite (runDemoScenario_at 2 st) by lia.
    change (currentDemoStep (scenarioState 2 st)) with (currentDemoStep st).
    rewrite C.
    apply (playing_scenario h n 2 st);
      [lia | symmetry; exact (next_mod n 1 E) | exact A | exact T | exact F
      | exact D].
  - change (3 <? List.length demoScenarios)%nat with true. cbv iota.
    rewrite (runDemoScenario_at 3 st) by lia.
    change (currentDemoStep (scenarioState 3 st)) with (currentDemoStep st).
    rewrite C.
    apply (playing_scenario h n 3 st);
      [lia | symmetry; exact (next_mod n 2 E) | exact A | exact T | exact F
      | exact D].
  - change (4 <? List.length demoScenarios)%nat with false. cbv iota zeta.
    change (currentDemoStep (set_currentDemoStep 0 st)) with 0%nat.
    rewrite (runDemoScenario_at 0 (set_currentDemoStep 0 st)) by lia.
    change (currentDemoStep (scenarioState 0 (set_currentDemoStep 0 st)))
      with 0%nat.
    apply (playing_scenario h n 0 (set_currentDemoStep 0 st));
      [lia | symmetry; exact (next_mod n 3 E) | exact A | exact T | exact F
      | exact D].
Qed.

Lemma find_handle h l t :
  find (fun t => Pos.eqb (handle t) h) l = Some t ->
  In t l /\ handle t = h.
Proof.
  intro H. apply find_some in H as [Hin Heq].
  apply Pos.eqb_eq in Heq. split; assumption.
Qed.

(** A timer coming due: the demo's interval makes a transition, any other
    timer is a pending prediction. *)
Lemma playing_fire h n h' w st :
  playing h n st ->
  playing h (n + if Pos.eqb h' h then 1 else 0) (fire h' w st).
Proof.
  intro P. pose proof P as (A & T & F & C & B & R & D).
  unfold fire. destruct (Pos.eqb_spec h' h) as [->|Hne].
  - unfold timerOf in T. rewrite T. cbn [repeats callback demoTimer].
    rewrite Nat.add_1_r. apply playing_demoStep, P.
  - rewrite Nat.add_0_r.
    destruct (find (fun t => Pos.eqb (handle t) h') (timers st))
      as [t|] eqn:E; [| exact P].
    apply find_handle in E as [Hin Hh].
    rewrite Forall_forall in F. destruct (F t Hin) as [_ Hcb].
    rewrite Hcb by congruence.
    apply playing_runPrediction.
    destruct (repeats t); [exact P |].
    apply playing_clearInterval; assumption.
Qed.

Lemma playing_react h n i st :
  playing h n st ->
  playing h (n + if isDue h i then 1 else 0) (react i st).
Proof.
  intro P. destruct i as [h' w | w]; cbn [react isDue].
  - apply playing_fire, P.
  - rewrite Nat.add_0_r. apply playing_runPrediction, P.
Qed.

Lemma playing_reacts h inputs : forall n st,
  playing h n st ->
  playing h (n + dueCount h inputs) (reacts inputs st).
Proof.
  unfold dueCount.
  induction inputs as [|i inputs IH]; intros n st P.
  - cbn. rewrite Nat.add_0_r. exact P.
  - change (reacts (i :: inputs) st) with (reacts inputs (react i st)).
    pose proof (IH _ _ (playing_react h n i st P)) as P'.
    cbn [filter]. destruct (isDue h i); cbn [List.length].
    + replace (n + S (List.length (filter (isDue h) inputs)))%nat
        with (n + 1 + List.length (filter (isDue h) inputs))%nat by lia.
      exact P'.
    + rewrite Nat.add_0_r in P'. exact P'.
Qed.

(** Starting from an idle page plays the first scenario at once and
    leaves the interval running. *)
Lemma startAutoDemo_first st :
  let st' := startAutoDemo st in
  autoDemoInterval st' = Some (Pos.succ (nextHandle st))
  /\ currentDemoStep st' = 1%nat
  /\ timers st' =
       timers st ++
         [{| handle := nextHandle st; callback := RunPredictionCallback;
             delay := 500; repeats := false |};
          demoTimer (Pos.succ (nextHandle st))]
  /\ nextHandle st' = Pos.succ (Pos.succ (nextHandle st))
  /\ Dom.textContent (document st' "demoScenario") = banner 0
  /\ getSensorValues st' = presetReading (scenarioPreset 0)
  /\ Dom.display (document st' "demoBanner") = "block"
  /\ Dom.display (document st' "autoDemoBtn") = "none".
Proof.
  cbv zeta.
  split; [reflexivity | split; [reflexivity | split; [| split; [reflexivity |
    split; [| split; [| split]]]]]]; try (vm_compute; reflexivity).
  change (timers (startAutoDemo st))
    with ((timers st ++
             [{| handle := nextHandle st; callback := RunPredictionCallback;
                 delay := 500; repeats := false |}])
          ++ [demoTimer (Pos.succ (nextHandle st))]).
  rewrite <- app_assoc. reflexivity.
Qed.

Lemma playing_start st :
  idle st -> playing (Pos.succ (nextHandle st)) 0 (startAutoDemo st).
Proof.
  intro I.
  destruct (startAutoDemo_first st) as (A & C & T & N & B & R & D & _).
  unfold playing, timerOf. rewrite A, C, T, N, B, R, D, find_app.
  rewrite (find_none_below (nextHandle st) (timers st)
             (fun t => callback t = RunPredictionCallback) I) by lia.
  cbn [find handle demoTimer].
  destruct (Pos.eqb_spec (nextHandle st) (Pos.succ (nextHandle st)));
    [lia |].
  rewrite Pos.eqb_refl.
  repeat split.
  apply Forall_app. split.
  - apply Forall_forall. intros t Ht. unfold idle in I.
    rewrite Forall_forall in I. destruct (I t Ht) as [Hcb Hlt].
    split; [lia | intros _; exact Hcb].
  - constructor; [| constructor; [| constructor]];
      cbn [demoTimer handle callback].
    + split; [lia | reflexivity].
    + split; [lia | intro Hne; now contradiction Hne].
Qed.

(** Stopping cancels the interval and leaves an idle page with the step
    back at 0. *)
Lemma stopAutoDemo_playing h n st :
  playing h n st ->
  let st' := stopAutoDemo st in
  autoDemoInterval st' = None
  /\ currentDemoStep st' = 0%nat
  /\ timerOf h st' = None
  /\ timers st' = filter (fun t => negb (Pos.eqb (handle t) h)) (timers st)
  /\ idle st'
  /\ Dom.display (document st' "demoBanner") = "none"
  /\ Dom.display (document st' "autoDemoBtn") = "block".
Proof.
  intros (A & T & F & C & B & R & D). cbv zeta.
  unfold stopAutoDemo. rewrite A.
  assert (Tm : timers
            (set_currentDemoStep 0
               (assign "autoDemoBtn" (Dom.set_display "block")
                  (assign "demoBanner" (Dom.set_display "none")
                     (set_autoDemoInterval None (clearInterval h st)))))
          = filter (fun t => negb (Pos.eqb (handle t) h)) (timers st))
    by reflexivity.
  unfold timerOf, idle. rewrite Tm.
  split; [reflexivity | split; [reflexivity | split; [| split; [reflexivity |
    split; [| split; reflexivity]]]]].
  - destruct (find _ (filter _ (timers st))) as [t|] eqn:E; [| reflexivity].
    apply find_some in E as [Hin Hh]. apply filter_In in Hin as [_ Hn].
    rewrite Hh in Hn. discriminate.
  - apply Forall_forall. intros t Ht. apply filter_In in Ht as [Hin Hn].
    rewrite Forall_forall in F. destruct (F t Hin) as [Hlt Hcb].
    apply negb_true_iff, Pos.eqb_neq in Hn.
    split; [exact (Hcb Hn) | exact Hlt].
Qed.

Lemma fire_cancelled h w st : timerOf h st = None -> fire h w st = st.
Proof. unfold timerOf, fire. intros ->. reflexivity. Qed.

(** C5. Started on an idle page, the player shows the preset [empty]
    at once and sets an interval of 7000 ms. Whatever else comes due or
    is clicked meanwhile, after the interval has come due [n] times the
    page shows the scenario of index [n mod 4] in the order empty,
    morning, evening, weekend, the interval is still set, and its next
    turn shows the scenario of index [(n mod 4 + 1) mod 4]. Stopping
    clears the interval, so that it never comes due again, and puts the
    step back to 0 on an idle page; starting again shows [empty]. *)
Theorem demo_cycles_until_stopped (st : State) (inputs : list Input) :
  idle st ->
  let h := Pos.succ (nextHandle st) in
  let st0 := startAutoDemo st in
  let n := dueCount h inputs in
  let stn := reacts inputs st0 in
  let stopped := stopAutoDemo stn in
  let again := startAutoDemo stopped in
  (map scenarioPreset [0; 1; 2; 3]%nat
   = [Preset.empty; Preset.morning; Preset.evening; Preset.weekend]
   /\ map demoScenarios_at [0; 1; 2; 3]%nat
      = ["empty"; "morning"; "evening"; "weekend"])
  /\ (autoDemoInterval st0 = Some h
      /\ timerOf h st0 = Some (demoTimer h)
      /\ delay (demoTimer h) = 7000%Z /\ repeats (demoTimer h) = true
      /\ Dom.textContent (document st0 "demoScenario") = banner 0
      /\ getSensorValues st0 = presetReading Preset.empty)
  /\ (autoDemoInterval stn = Some h
      /\ timerOf h stn = Some (demoTimer h)
      /\ currentDemoStep stn = S (n mod 4)
      /\ Dom.textContent (document stn "demoScenario") = banner (n mod 4)
      /\ getSensorValues stn = presetReading (scenarioPreset (n mod 4)))
  /\ (forall w,
        Dom.textContent (document (fire h w stn) "demoScenario")
        = banner ((n mod 4 + 1) mod 4)
        /\ getSensorValues (fire h w stn)
           = presetReading (scenarioPreset ((n mod 4 + 1) mod 4)))
  /\ (autoDemoInterval stopped = None
      /\ timerOf h stopped = None
      /\ (forall w, fire h w stopped = stopped)
      /\ currentDemoStep stopped = 0%nat
      /\ idle stopped)
  /\ (Dom.textContent (document again "demoScenario") = banner 0
      /\ getSensorValues again = presetReading Preset.empty
      /\ timerOf (Pos.succ (nextHandle stopped)) again
         = Some (demoTimer (Pos.succ (nextHandle stopped)))).
Proof.
  intro I. cbv zeta.
  pose proof (playing_start st I) as P0.
  pose proof (playing_reacts _ inputs 0 _ P0) as Pn.
  rewrite Nat.add_0_l in Pn.
  destruct (stopAutoDemo_playing _ _ _ Pn)
    as (SA & SC & ST & _ & SI & _ & _).
  pose proof (playing_start _ SI) as PA.
  split; [split; reflexivity |].
  split.
  { destruct P0 as (A & T & _ & _ & B & R & _).
    repeat split; assumption. }
  split.
  { destruct Pn as (A & T & _ & C & B & R & _).
    repeat split; assumption. }
  split.
  { intro w.
    pose proof (playing_fire _ _ (Pos.succ (nextHandle st)) w _ Pn) as Pw.
    rewrite Pos.eqb_refl in Pw.
    destruct Pw as (_ & _ & _ & _ & B & R & _).
    rewrite Nat.Div0.add_mod_idemp_l. split; assumption. }
  split.
  { repeat split; try assumption.
    intro w. apply fire_cancelled, ST. }
  destruct PA as (_ & T & _ & _ & B & R & _).
  repeat split; assumption.
Qed.

Lemma demo_cycles_until_stopped_witness :
  let played := reacts [tick 2; tick 1; tick 2; tick 2; tick 2; tick 2]
                  (startAutoDemo loaded) in
  Dom.textContent (document played "demoScenario")
  = Lit "Scenario " +++ Int 2 +++ Lit "/4: "
    +++ Lit "Morning Class (Occupied)"
  /\ autoDemoInterval (stopAutoDemo played) = None.
Proof.
  cbv zeta.
  destruct (demo_cycles_until_stopped loaded
              [tick 2; tick 1; tick 2; tick 2; tick 2; tick 2]
              (Forall_nil _))
    as (_ & _ & (_ & _ & _ & B & _) & _ & (A & _) & _).
  split; [exact B | exact A].
Defined.

(** * Further properties of the script *)

(** ** The range of the estimator *)

Lemma gt_25_gt_24 (t : Js.number) :
  Js.gt t 25 = true -> Js.gt t 24 = true.
Proof.
  unfold Js.gt. rewrite !ltb_spec.
  change (Prim2SF 25) with (S754_finite false 7036874417766400 (-48)).
  change (Prim2SF 24) with (S754_finite false 6755399441055744 (-48)).
  destruct (Prim2SF t) as [s | s | | s m e]; try (intro; assumption).
  unfold SFltb, SFcompare.
  destruct s; [intro; assumption |].
  destruct (Z.compare (-48) e); try (intro; assumption).
  change (PosDef.Pos.compare_cont Eq 7036874417766400 m)
    with (Pos.compare 7036874417766400 m).
  change (PosDef.Pos.compare_cont Eq 6755399441055744 m)
    with (Pos.compare 6755399441055744 m).
  destruct (Pos.compare 7036874417766400 m) eqn:E1;
    intro H; try discriminate H.
  assert (L1 : (7036874417766400 < m)%positive)
    by (apply Pos.compare_lt_iff; exact E1).
  destruct (Pos.compare 6755399441055744 m) eqn:E2; [| reflexivity |].
  - apply Pos.compare_eq in E2. subst m. vm_compute in L1. discriminate L1.
  - assert (L2 : (m < 6755399441055744)%positive)
      by (apply Pos.compare_gt_iff; exact E2).
    pose proof (Pos.lt_trans _ _ _ L1 L2) as L.
    vm_compute in L. discriminate L.
Qed.

(** X2. Whatever the reading, unreadable widgets included, the estimate
    is one of six: nothing, lights, fan, lights and fan, fan and AC, or
    all three. AC savings never come without fan savings, the total is
    zero exactly when the light is not above 300 lux and the temperature
    not above 24 degrees, and total, cost, CO2 and trees stay between 0
    and their values at 1.17 kWh. *)
Theorem estimate_range (s : Sensors) :
  let e := Estimator.calculateEnergySavings s in
  (totalKwh e = 0 \/ totalKwh e = 0.02 \/ totalKwh e = 0.15
   \/ totalKwh e = 0.02 + 0.15 \/ totalKwh e = 1.15 \/ totalKwh e = 1.17)
  /\ (acKwh e = 1 <-> Js.gt (temperature s) 25 = true)
  /\ (Js.gt (temperature s) 25 = true -> fanKwh e = 0.15)
  /\ (totalKwh e = 0 <->
      Js.gt (ambient_light s) 300 = false /\ Js.gt (temperature s) 24 = false)
  /\ (Js.le 0 (totalKwh e) && Js.le (totalKwh e) 1.17 = true)%bool
  /\ (Js.le 0 (totalCost e) && Js.le (totalCost e) (1.17 * 0.12) = true)%bool
  /\ (Js.le 0 (co2Saved e)
      && Js.le (co2Saved e) (1.17 * 0.92 * 0.453592) = true)%bool
  /\ (Js.le 0 (treesEquiv e)
      && Js.le (treesEquiv e) (1.17 * 0.92 * 0.453592 / 0.0575) = true)%bool.
Proof.
  cbv zeta. unfold Estimator.calculateEnergySavings.
  cbn [totalKwh acKwh fanKwh totalCost co2Saved treesEquiv].
  pose proof (gt_25_gt_24 (temperature s)) as G.
  destruct (Js.gt (ambient_light s) 300), (Js.gt (temperature s) 25),
    (Js.gt (temperature s) 24);
    try (specialize (G eq_refl); discriminate G); clear G;
    (split; [vm_compute; tauto |]);
    (split; [split; [vm_compute; intro H | intro H]; first
               [ reflexivity | discriminate H
               | apply (f_equal Prim2SF) in H; vm_compute in H;
                 discriminate H ] |]);
    (split; [intro H; first [reflexivity | discriminate H] |]);
    (split; [split; [vm_compute; intro H; first
                       [ split; reflexivity
                       | apply (f_equal Prim2SF) in H; vm_compute in H;
                         discriminate H ]
                    | intros [H1 H2]; first
                        [ discriminate H1 | discriminate H2
                        | vm_compute; reflexivity ] ] |]);
    repeat split; vm_compute; reflexivity.
Qed.

(** ** What a prediction shows and reads *)

Lemma displayResults_confidence label latency st :
  shownConfidence (displayResults label None latency st) = Some (Int 95).
Proof.
  unfold shownConfidence, displayResults.
  rewrite (document_out _ _ _ "resultsContainer"
             (generateEnergyNudge_touches _ _ _) eq_refl).
  rewrite (document_out _ _ _ "resultsContainer"
             (updatePerformanceMetrics_touches _ _) eq_refl).
  rewrite !document_assign_other by reflexivity.
  rewrite document_assign_same. reflexivity.
Qed.

(** X3. Whatever the classifier answers, the result card of a successful
    run shows a confidence of 95 and the latency of that run: the script
    never asks the classifier for its probabilities. *)
Theorem confidence_is_always_95 (st : State) (s : Session) (w : World)
  (output_label : Z) :
  session st = Some s ->
  response w = RunResolved output_label ->
  let st' := runPrediction w st in
  shownConfidence st' = Some (Int 95)
  /\ Dom.textContent (document st' "inferenceTime")
     = Fixed (endTime w - startTime w) 2 +++ Lit " ms"
  /\ inferenceTime st' = endTime w - startTime w
  /\ Dom.display (document st' "metricsContainer") = "block".
Proof.
  intros H R. cbv zeta.
  rewrite (runPrediction_resolved w st s output_label H R).
  set (st1 := set_inferenceTime _ _).
  pose proof (displayResults_touches (Js.of_Z output_label) None (latency w)
                st1) as T.
  destruct (displayResults_control (Js.of_Z output_label) None (latency w) st1)
    as (_ & I & _).
  split; [apply displayResults_confidence |].
  split; [| split; [exact I |]].
  - unfold displayResults.
    rewrite (document_out _ _ _ "inferenceTime"
               (generateEnergyNudge_touches _ _ _) eq_refl).
    rewrite (document_out _ _ _ "inferenceTime"
               (updatePerformanceMetrics_touches _ _) eq_refl).
    rewrite document_assign_other by reflexivity.
    rewrite document_assign_same. reflexivity.
  - unfold displayResults.
    rewrite (document_out _ _ _ "metricsContainer"
               (generateEnergyNudge_touches _ _ _) eq_refl).
    rewrite (document_out _ _ _ "metricsContainer"
               (updatePerformanceMetrics_touches _ _) eq_refl).
    rewrite document_assign_same. reflexivity.
Qed.

Lemma confidence_is_always_95_witness :
  shownConfidence
    (runPrediction
       {| startTime := 10; endTime := 12.5; response := RunResolved 0 |}
       loaded) = Some (Int 95).
Proof.
  exact (proj1 (confidence_is_always_95 loaded
                  {| executionProviders := Some ["wasm"] |}
                  {| startTime := 10; endTime := 12.5;
                     response := RunResolved 0 |} 0 eq_refl eq_refl)).
Defined.

(** The four presets, by name. *)
Lemma own_preset presetName preset :
  assoc presetName presets = Some preset ->
  (presetName = "empty" /\ preset = Preset.empty)
  \/ (presetName = "morning" /\ preset = Preset.morning)
  \/ (presetName = "evening" /\ preset = Preset.evening)
  \/ (presetName = "weekend" /\ preset = Preset.weekend).
Proof.
  unfold presets. cbn [assoc].
  destruct (String.eqb_spec presetName "empty");
    [intros [= <-]; tauto |].
  destruct (String.eqb_spec presetName "morning");
    [intros [= <-]; tauto |].
  destruct (String.eqb_spec presetName "evening");
    [intros [= <-]; tauto |].
  destruct (String.eqb_spec presetName "weekend");
    [intros [= <-]; tauto | discriminate].
Qed.

(** An own preset is read back from the widgets as it was written, its
    labels show it, and one prediction is scheduled; nothing else moves. *)
Lemma applyPreset_own presetName preset st :
  assoc presetName presets = Some preset ->
  let st' := applyPreset presetName st in
  getSensorValues st' = presetReading preset
  /\ featureVector st' = presetVector preset
  /\ timers st' = timers st ++ [predictionTimer (nextHandle st)]
  /\ nextHandle st' = Pos.succ (nextHandle st)
  /\ session st' = session st /\ journal st' = journal st
  /\ predictionCount st' = predictionCount st
  /\ totalLatency st' = totalLatency st
  /\ autoDemoInterval st' = autoDemoInterval st
  /\ currentDemoStep st' = currentDemoStep st
  /\ Dom.textContent (document st' "hourValue") = Num (Preset.hour preset)
  /\ (exists i, Js.of_Z (Z.of_nat i) = Preset.day preset
                /\ Dom.textContent (document st' "dayValue")
                   = Lit (nth i dayNames ""))
  /\ Dom.textContent (document st' "lightValue")
     = Num (Preset.light preset) +++ Lit " lux"
  /\ Dom.textContent (document st' "tempValue")
     = Num (Preset.temp preset) +++ Lit "°C".
Proof.
  intro H. cbv zeta.
  destruct (own_preset _ _ H) as [[-> ->] | [[-> ->] | [[-> ->] | [-> ->]]]];
    (repeat split; try (vm_compute; reflexivity)).
  - exists 1%nat. split; vm_compute; reflexivity.
  - exists 2%nat. split; vm_compute; reflexivity.
  - exists 3%nat. split; vm_compute; reflexivity.
  - exists 5%nat. split; vm_compute; reflexivity.
Qed.

Lemma Float32Array_preset presetName preset :
  assoc presetName presets = Some preset ->
  Js.Float32Array (presetVector preset) = presetVector preset.
Proof.
  intro H.
  destruct (own_preset _ _ H) as [[-> ->] | [[-> ->] | [[-> ->] | [-> ->]]]];
    vm_compute; reflexivity.
Qed.

Lemma timerOf_eq h st :
  timerOf h st = find (fun t => Pos.eqb (handle t) h) (timers st).
Proof. reflexivity. Qed.

Lemma timerOf_fresh h st :
  handlesFresh st -> (nextHandle st <= h)%positive -> timerOf h st = None.
Proof.
  intros [_ F] Hle. rewrite !timerOf_eq.
  apply (find_none_below (nextHandle st) (timers st) (fun _ => True));
    [| exact Hle].
  apply Forall_forall. intros t Ht. rewrite Forall_forall in F.
  split; [exact I | exact (F t Ht)].
Qed.

Lemma clearInterval_keeps h st :
  session (clearInterval h st) = session st
  /\ journal (clearInterval h st) = journal st
  /\ featureVector (clearInterval h st) = featureVector st.
Proof. repeat split. Qed.

(** A pending prediction coming due is spent and runs the prediction. *)
Lemma fire_prediction h w st :
  timerOf h st = Some (predictionTimer h) ->
  fire h w st = runPrediction w (clearInterval h st).
Proof. unfold fire. rewrite timerOf_eq. intros ->. reflexivity. Qed.

(** X4. A preset button does what it says: the widgets read back the
    preset, and when the prediction it schedules 500 ms later comes due
    on a loaded page, the classifier is called once with exactly the six
    numbers of the preset. *)
Theorem preset_reaches_classifier (presetName : string) (preset : Preset.t)
  (st : State) (s : Session) (w : World) :
  assoc presetName presets = Some preset ->
  session st = Some s ->
  handlesFresh st ->
  let st1 := applyPreset presetName st in
  let st2 := fire (nextHandle st) w st1 in
  getSensorValues st1 = presetReading preset
  /\ timerOf (nextHandle st) st1 = Some (predictionTimer (nextHandle st))
  /\ delay (predictionTimer (nextHandle st)) = 500%Z
  /\ filter isSessionRun (journal st1) = filter isSessionRun (journal st)
  /\ filter isSessionRun (journal st2)
     = filter isSessionRun (journal st)
       ++ [SessionRun
             [("float_input",
               {| dtype := "float32"; data := presetVector preset;
                  dims := [1; 6]%Z |})]
             ["output_label"]]
  /\ timerOf (nextHandle st) st2 = None.
Proof.
  intros H L Fr. cbv zeta.
  destruct (applyPreset_own presetName preset st H)
    as (R & V & T & N & S1 & J & _).
  assert (Tm : timerOf (nextHandle st) (applyPreset presetName st)
               = Some (predictionTimer (nextHandle st))).
  { rewrite !timerOf_eq. rewrite T, find_app.
    pose proof (timerOf_fresh (nextHandle st) st Fr (Pos.le_refl _)) as E.
    rewrite timerOf_eq in E. rewrite E. cbn [find predictionTimer handle].
    rewrite Pos.eqb_refl. reflexivity. }
  rewrite (fire_prediction _ w _ Tm).
  destruct (clearInterval_keeps (nextHandle st) (applyPreset presetName st))
    as (CS & CJ & CV).
  assert (L1 : session (clearInterval (nextHandle st)
                          (applyPreset presetName st)) = Some s)
    by (rewrite CS, S1; exact L).
  destruct (runPrediction_metrics w _ s L1) as (_ & _ & _ & _ & JR).
  destruct (runPrediction_control w
              (clearInterval (nextHandle st) (applyPreset presetName st)))
    as (_ & _ & _ & TR & _).
  split; [exact R | split; [exact Tm | split; [reflexivity | split]]].
  - rewrite J. reflexivity.
  - split.
    + rewrite JR, CJ, CV, J, V. unfold inference.
      rewrite (Float32Array_preset _ _ H). reflexivity.
    + rewrite !timerOf_eq. rewrite TR.
      cbn [clearInterval set_timers timers].
      destruct (find _ (filter _ _)) as [t|] eqn:E; [| reflexivity].
      apply find_some in E as [Hin Hh]. apply filter_In in Hin as [_ Hn].
      rewrite Hh in Hn. discriminate.
Qed.

Lemma preset_reaches_classifier_witness :
  let st2 :=
    fire 1
      {| startTime := 10; endTime := 12.5; response := RunResolved 1 |}
      (applyPreset "evening" loaded) in
  filter isSessionRun (journal st2)
  = [SessionRun
       [("float_input",
         {| dtype := "float32"; data := [20; 3; 600; 1.0; 1.0; 23.5];
            dims := [1; 6]%Z |})]
       ["output_label"]].
Proof.
  assert (Fr : handlesFresh loaded) by (split; constructor).
  destruct (preset_reaches_classifier "evening" Preset.evening loaded
              {| executionProviders := Some ["wasm"] |}
              {| startTime := 10; endTime := 12.5;
                 response := RunResolved 1 |} eq_refl eq_refl Fr)
    as (_ & _ & _ & _ & J & _).
  exact J.
Defined.

(** X5. The estimate is made from the widgets as they are when the answer
    arrives, not as they were sent: if a preset is applied while the
    classifier is working on another reading and the answer is not 1, the
    journal holds the call with the old reading and the estimate of the
    new preset. *)
Theorem estimate_reads_widgets_on_arrival (presetName : string)
  (preset : Preset.t) (st : State) (s : Session)
  (sent arrived : Js.number) (output_label : Z) :
  session st = Some s ->
  assoc presetName presets = Some preset ->
  Js.strict_eq (Js.of_Z output_label) 1 = false ->
  let called := runPrediction_call sent st in
  let meanwhile := applyPreset presetName (fst called) in
  let st' :=
    runPrediction_resume sent (RunResolved output_label) arrived meanwhile in
  snd called = Some sent
  /\ journal st' =
       journal st ++
         [inference (featureVector st);
          Estimated (presetReading preset)
            (Estimator.calculateEnergySavings (presetReading preset))]
  /\ Dom.innerHTML (document st' "energyNudgeContainer")
     = Some (NudgeOpportunity
               (Fixed (totalKwh (Estimator.calculateEnergySavings
                                   (presetReading preset))) 2)).
Proof.
  intros L H N. cbv zeta.
  unfold runPrediction_call. rewrite L. cbn [fst snd].
  split; [reflexivity |].
  set (st1 := record _ st).
  destruct (applyPreset_own presetName preset st1 H)
    as (R & _ & _ & _ & _ & J & _).
  unfold runPrediction_resume.
  set (st2 := set_inferenceTime _ _).
  destruct (displayResults_control (Js.of_Z output_label) None
              (inferenceTime st2) st2) as (_ & _ & _ & _ & _ & _ & _ & _ & JD).
  destruct (displayResults_shows (Js.of_Z output_label) None
              (inferenceTime st2) st2) as (Nd & _).
  rewrite N in JD, Nd.
  change (getSensorValues st2)
    with (getSensorValues (applyPreset presetName st1)) in JD, Nd.
  change (journal st2) with (journal (applyPreset presetName st1)) in JD.
  rewrite R in JD, Nd. rewrite J in JD.
  split; [| exact Nd].
  rewrite JD. unfold st1. cbn [journal record].
  rewrite <- app_assoc. reflexivity.
Qed.

Lemma estimate_reads_widgets_on_arrival_witness :
  journal
    (runPrediction_resume 10 (RunResolved 0) 12.5
       (applyPreset "evening" (fst (runPrediction_call 10 loaded))))
  = [inference [0; 0; 0; 0; 0; 0];
     Estimated (presetReading Preset.evening)
       (Estimator.calculateEnergySavings (presetReading Preset.evening))].
Proof.
  destruct (estimate_reads_widgets_on_arrival "evening" Preset.evening loaded
              {| executionProviders := Some ["wasm"] |} 10 12.5 0
              eq_refl eq_refl eq_refl) as (_ & J & _).
  exact J.
Defined.

(** X6. A scheduled prediction runs once: when its timer has come due the
    timer is gone, the other timers are as they were, and the same handle
    coming due again changes nothing. *)
Theorem scheduled_prediction_runs_once (h : positive) (w w' : World)
  (st : State) :
  timerOf h st = Some (predictionTimer h) ->
  let st' := fire h w st in
  timerOf h st' = None
  /\ timers st' = filter (fun t => negb (Pos.eqb (handle t) h)) (timers st)
  /\ fire h w' st' = st'.
Proof.
  intro T. cbv zeta. rewrite (fire_prediction h w st T).
  destruct (runPrediction_control w (clearInterval h st))
    as (_ & _ & _ & TR & _).
  assert (E : timerOf h (runPrediction w (clearInterval h st)) = None).
  { rewrite !timerOf_eq. rewrite TR. cbn [clearInterval set_timers timers].
    destruct (find _ (filter _ _)) as [t|] eqn:E; [| reflexivity].
    apply find_some in E as [Hin Hh]. apply filter_In in Hin as [_ Hn].
    rewrite Hh in Hn. discriminate. }
  split; [exact E | split; [rewrite TR; reflexivity |]].
  apply fire_cancelled, E.
Qed.

Lemma scheduled_prediction_runs_once_witness :
  let w := {| startTime := 10; endTime := 12.5; response := RunResolved 1 |} in
  fire 1 w (fire 1 w (applyPreset "evening" loaded))
  = fire 1 w (applyPreset "evening" loaded).
Proof.
  cbv zeta.
  refine (proj2 (proj2 (scheduled_prediction_runs_once 1
    {| startTime := 10; endTime := 12.5; response := RunResolved 1 |}
    {| startTime := 10; endTime := 12.5; response := RunResolved 1 |}
    (applyPreset "evening" loaded) _))).
  reflexivity.
Defined.

(** ** Stopping and starting the demo *)

Lemma stopAutoDemo_some h st :
  autoDemoInterval st = Some h ->
  let st' := stopAutoDemo st in
  autoDemoInterval st' = None
  /\ currentDemoStep st' = 0%nat
  /\ timers st' = filter (fun t => negb (Pos.eqb (handle t) h)) (timers st)
  /\ nextHandle st' = nextHandle st
  /\ session st' = session st /\ journal st' = journal st
  /\ getSensorValues st' = getSensorValues st
  /\ Dom.display (document st' "demoBanner") = "none"
  /\ Dom.display (document st' "autoDemoBtn") = "block".
Proof.
  intro A. cbv zeta. unfold stopAutoDemo. rewrite A. repeat split.
Qed.

Lemma featureVector_reading st preset :
  getSensorValues st = presetReading preset ->
  featureVector st = presetVector preset.
Proof.
  intro R.
  change (featureVector st)
    with [hour (getSensorValues st); day_of_week (getSensorValues st);
          ambient_light (getSensorValues st); pir_motion (getSensorValues st);
          phone_presence (getSensorValues st);
          temperature (getSensorValues st)].
  rewrite R. reflexivity.
Qed.

Lemma timerOf_filter_other h h' (l : list Timer) :
  h' <> h ->
  find (fun t => Pos.eqb (handle t) h)
    (filter (fun t => negb (Pos.eqb (handle t) h')) l)
  = find (fun t => Pos.eqb (handle t) h) l.
Proof.
  intro Hne. apply find_filter. intros t Ht.
  apply Pos.eqb_eq in Ht. apply negb_true_iff, Pos.eqb_neq. congruence.
Qed.

Lemma find_idle h st :
  idle st -> (nextHandle st <= h)%positive ->
  find (fun t => Pos.eqb (handle t) h) (timers st) = None.
Proof.
  intros I Hle.
  exact (find_none_below (nextHandle st) (timers st)
           (fun t => callback t = RunPredictionCallback) I h Hle).
Qed.

(** X7. Stopping the demo cancels the interval only. Stopped right after
    it started, the prediction the first scenario scheduled is still
    pending, the widgets keep the preset [empty], and when that timer
    comes due on a loaded page the classifier is still called on it. *)
Theorem stop_keeps_pending_prediction (st : State) (s : Session)
  (w : World) :
  idle st ->
  session st = Some s ->
  let pending := nextHandle st in
  let stopped := stopAutoDemo (startAutoDemo st) in
  timerOf (Pos.succ pending) stopped = None
  /\ timerOf pending stopped = Some (predictionTimer pending)
  /\ Dom.display (document stopped "demoBanner") = "none"
  /\ getSensorValues stopped = presetReading Preset.empty
  /\ filter isSessionRun (journal (fire pending w stopped))
     = filter isSessionRun (journal st)
       ++ [inference (presetVector Preset.empty)].
Proof.
  intros I L. cbv zeta.
  pose proof (playing_start st I) as P0.
  destruct (stopAutoDemo_playing _ _ _ P0) as (_ & _ & T0 & Tm & _ & D & _).
  destruct (startAutoDemo_first st) as (A & _ & T & _ & _ & R & _).
  destruct (stopAutoDemo_some _ _ A)
    as (_ & _ & _ & _ & S1 & J1 & R1 & _).
  assert (Tp : timerOf (nextHandle st) (stopAutoDemo (startAutoDemo st))
               = Some (predictionTimer (nextHandle st))).
  { rewrite !timerOf_eq. rewrite Tm, timerOf_filter_other by lia.
    rewrite T, find_app, (find_idle _ _ I (Pos.le_refl _)).
    cbn [find predictionTimer handle]. rewrite Pos.eqb_refl. reflexivity. }
  split; [exact T0 | split; [exact Tp | split; [exact D | split]]].
  - rewrite R1. exact R.
  - rewrite (fire_prediction _ w _ Tp).
    destruct (clearInterval_keeps (nextHandle st)
                (stopAutoDemo (startAutoDemo st))) as (CS & CJ & CV).
    assert (L1 : session (clearInterval (nextHandle st)
                            (stopAutoDemo (startAutoDemo st))) = Some s)
      by (rewrite CS, S1; exact L).
    destruct (runPrediction_metrics w _ s L1) as (_ & _ & _ & _ & JR).
    rewrite JR, CJ, CV, J1.
    rewrite (featureVector_reading _ Preset.empty) by (rewrite R1; exact R).
    reflexivity.
Qed.

Lemma stop_keeps_pending_prediction_witness :
  let w := {| startTime := 10; endTime := 12.5; response := RunResolved 0 |} in
  filter isSessionRun
    (journal (fire 1 w (stopAutoDemo (startAutoDemo loaded))))
  = [inference (presetVector Preset.empty)].
Proof.
  cbv zeta.
  destruct (stop_keeps_pending_prediction loaded
              {| executionProviders := Some ["wasm"] |}
              {| startTime := 10; endTime := 12.5;
                 response := RunResolved 0 |} (Forall_nil _) eq_refl)
    as (_ & _ & _ & _ & J).
  exact J.
Defined.

Lemma set_currentDemoStep_keeps c st :
  document (set_currentDemoStep c st) = document st
  /\ timers (set_currentDemoStep c st) = timers st.
Proof. split; reflexivity. Qed.

Lemma demoStep_from_zero st :
  currentDemoStep st = 0%nat ->
  demoStep st = set_currentDemoStep 1 (scenarioState 0 st).
Proof.
  intro C. unfold demoStep. rewrite C.
  change (0 <? List.length demoScenarios)%nat with true. cbv iota.
  rewrite (runDemoScenario_at 0 st) by lia.
  change (currentDemoStep (scenarioState 0 st)) with (currentDemoStep st).
  rewrite C. reflexivity.
Qed.

Lemma twice_timers st :
  idle st ->
  let twice := startAutoDemo (startAutoDemo st) in
  let first := Pos.succ (nextHandle st) in
  let second := Pos.succ (Pos.succ first) in
  autoDemoInterval twice = Some second
  /\ timerOf first twice = Some (demoTimer first)
  /\ timerOf second twice = Some (demoTimer second).
Proof.
  intro I. cbv zeta.
  destruct (startAutoDemo_first st) as (A1 & _ & T1 & N1 & _).
  destruct (startAutoDemo_first (startAutoDemo st))
    as (A2 & _ & T2 & N2 & _).
  rewrite !timerOf_eq. rewrite A2, T2, T1, N1, !find_app.
  rewrite !(find_idle _ _ I) by lia.
  cbn [find predictionTimer demoTimer handle].
  repeat match goal with
         | |- context [Pos.eqb ?a ?b] =>
             lazymatch a with
             | b => rewrite (Pos.eqb_refl a)
             | _ => destruct (Pos.eqb_spec a b); [lia |]
             end
         end.
  repeat split.
Qed.

Lemma timerOf_cleared h l :
  find (fun t => Pos.eqb (handle t) h)
    (filter (fun t => negb (Pos.eqb (handle t) h)) l) = None.
Proof.
  destruct (find _ (filter _ _)) as [t|] eqn:E; [| reflexivity].
  apply find_some in E as [Hin Hh]. apply filter_In in Hin as [_ Hn].
  rewrite Hh in Hn. discriminate.
Qed.

(** A forgotten interval coming due on a stopped page starts over with
    the first scenario. *)
Lemma fire_forgotten h w st :
  timerOf h st = Some (demoTimer h) ->
  currentDemoStep st = 0%nat ->
  let later := fire h w st in
  Dom.textContent (document later "demoScenario") = banner 0
  /\ Dom.display (document later "demoBanner")
     = Dom.display (document st "demoBanner")
  /\ List.length (timers later) = S (List.length (timers st))
  /\ timerOf h later = Some (demoTimer h).
Proof.
  intros G C. cbv zeta. rewrite !timerOf_eq in G |- *.
  assert (Fi : fire h w st = set_currentDemoStep 1 (scenarioState 0 st)).
  { unfold fire. rewrite G.
    cbn [demoTimer repeats callback]. apply demoStep_from_zero, C. }
  rewrite Fi.
  destruct (scenarioState_spec 0 st) as (_ & _ & T & _ & B & _ & Db);
    [lia |].
  destruct (set_currentDemoStep_keeps 1 (scenarioState 0 st)) as (Kd & Kt).
  rewrite Kd, Kt, B, Db, T, length_app, find_app, G.
  split; [reflexivity | split; [reflexivity | split; [| reflexivity]]].
  cbn [List.length]. lia.
Qed.

Lemma twice_stopped st :
  idle st ->
  let stopped := stopAutoDemo (startAutoDemo (startAutoDemo st)) in
  let first := Pos.succ (nextHandle st) in
  let second := Pos.succ (Pos.succ first) in
  autoDemoInterval stopped = None
  /\ timerOf second stopped = None
  /\ timerOf first stopped = Some (demoTimer first)
  /\ currentDemoStep stopped = 0%nat
  /\ Dom.display (document stopped "demoBanner") = "none".
Proof.
  intro I. cbv zeta.
  destruct (twice_timers st I) as (A2 & F1 & _).
  destruct (stopAutoDemo_some _ _ A2)
    as (SA & SC & ST & _ & _ & _ & _ & SD & _).
  rewrite timerOf_eq in F1.
  rewrite (timerOf_eq (Pos.succ (Pos.succ (Pos.succ (nextHandle st))))).
  rewrite (timerOf_eq (Pos.succ (nextHandle st))).
  rewrite ST, timerOf_cleared.
  rewrite timerOf_filter_other by lia.
  exact (conj SA (conj eq_refl (conj F1 (conj SC SD)))).
Qed.

(** X8. Starting the demo a second time without stopping it in between
    leaves the first interval running beside the second; stopping then
    cancels the second only, and the first goes on applying presets and
    scheduling predictions under a hidden banner. *)
Theorem second_start_leaks_interval (st : State) (w : World) :
  idle st ->
  let first := Pos.succ (nextHandle st) in
  let second := Pos.succ (Pos.succ first) in
  let twice := startAutoDemo (startAutoDemo st) in
  let stopped := stopAutoDemo twice in
  let later := fire first w stopped in
  (autoDemoInterval twice = Some second
   /\ timerOf first twice = Some (demoTimer first)
   /\ timerOf second twice = Some (demoTimer second))
  /\ (autoDemoInterval stopped = None
      /\ timerOf second stopped = None
      /\ timerOf first stopped = Some (demoTimer first))
  /\ (Dom.textContent (document later "demoScenario") = banner 0
      /\ Dom.display (document later "demoBanner") = "none"
      /\ List.length (timers later) = S (List.length (timers stopped))
      /\ timerOf first later = Some (demoTimer first)).
Proof.
  intro I.
  destruct (twice_timers st I) as (A2 & F1 & F2).
  destruct (twice_stopped st I) as (SA & G2 & G1 & SC & SD).
  destruct (fire_forgotten _ w _ G1 SC) as (B & D & Ln & Tf).
  rewrite SD in D.
  exact (conj (conj A2 (conj F1 F2))
           (conj (conj SA (conj G2 G1)) (conj B (conj D (conj Ln Tf))))).
Qed.

Lemma second_start_leaks_interval_witness :
  let stopped := stopAutoDemo (startAutoDemo (startAutoDemo loaded)) in
  autoDemoInterval stopped = None
  /\ timerOf 2 stopped = Some (demoTimer 2).
Proof.
  cbv zeta.
  destruct (second_start_leaks_interval loaded
              {| startTime := 10; endTime := 12.5;
                 response := RunResolved 0 |} (Forall_nil _))
    as (_ & (A & _ & T) & _).
  split; [exact A | exact T].
Defined.

(** ** What the handlers leave alone *)

Lemma silent_refl st : silent st st.
Proof. repeat split. Qed.

Lemma silent_trans st1 st2 st3 :
  silent st1 st2 -> silent st2 st3 -> silent st1 st3.
Proof.
  intros (A & B & C & D & E) (A' & B' & C' & D' & E').
  repeat split; congruence.
Qed.

Lemma silent_assign id f st : silent st (assign id f st).
Proof. repeat split. Qed.

Lemma silent_updateSensorDisplays st : silent st (updateSensorDisplays st).
Proof. repeat split. Qed.

Lemma silent_applyPreset presetName st : silent st (applyPreset presetName st).
Proof.
  unfold applyPreset. destruct (presets_get presetName); repeat split.
Qed.

Lemma silent_runDemoScenario presetName st st' :
  runDemoScenario presetName st = Some st' -> silent st st'.
Proof.
  unfold runDemoScenario.
  destruct (presets_get presetName) as [preset | [name |] |];
    intros [= <-];
    (eapply silent_trans; [| apply silent_applyPreset]); apply silent_assign.
Qed.

Lemma silent_set_currentDemoStep c st : silent st (set_currentDemoStep c st).
Proof. repeat split. Qed.

Lemma silent_demoStep st : silent st (demoStep st).
Proof.
  unfold demoStep.
  destruct (currentDemoStep st <? List.length demoScenarios)%nat.
  - destruct (runDemoScenario _ st) as [st' |] eqn:R; [| apply silent_refl].
    eapply silent_trans; [apply (silent_runDemoScenario _ _ _ R) |].
    apply silent_set_currentDemoStep.
  - destruct (runDemoScenario _ (set_currentDemoStep 0 st)) as [st' |] eqn:R;
      [| apply silent_set_currentDemoStep].
    eapply silent_trans; [apply silent_set_currentDemoStep |].
    eapply silent_trans; [apply (silent_runDemoScenario _ _ _ R) |].
    apply silent_set_currentDemoStep.
Qed.

Lemma silent_startAutoDemo st : silent st (startAutoDemo st).
Proof.
  unfold startAutoDemo.
  match goal with
  | |- context [runDemoScenario ?n ?s] =>
      destruct (runDemoScenario n s) as [st' |] eqn:R
  end.
  - eapply silent_trans; [| repeat split].
    eapply silent_trans; [| apply (silent_runDemoScenario _ _ _ R)].
    repeat split.
  - repeat split.
Qed.

Lemma silent_clearInterval h st : silent st (clearInterval h st).
Proof. repeat split. Qed.

Lemma silent_stopAutoDemo st : silent st (stopAutoDemo st).
Proof.
  unfold stopAutoDemo. destruct (autoDemoInterval st); repeat split.
Qed.

Lemma updateSensorDisplays_touches st :
  touches labelFields st (updateSensorDisplays st).
Proof. unfold updateSensorDisplays. touches_steps. Qed.

Lemma touches_same ids st st' :
  document st' = document st -> touches ids st st'.
Proof. intros E id _. now rewrite E. Qed.

Lemma touches_setTimeout ids cb ms st st' :
  touches ids st st' -> touches ids st (setTimeout cb ms st').
Proof. intros T id H. exact (T id H). Qed.

Lemma touches_set_currentDemoStep ids c st st' :
  touches ids st st' -> touches ids st (set_currentDemoStep c st').
Proof. intros T id H. exact (T id H). Qed.

Lemma applyPreset_touches presetName st :
  touches (sensorInputs ++ labelFields) st (applyPreset presetName st).
Proof.
  unfold applyPreset.
  destruct (presets_get presetName); [| | apply touches_refl];
    apply touches_setTimeout;
    (eapply touches_trans;
     [| eapply touches_subset; [| apply updateSensorDisplays_touches];
        reflexivity]);
    touches_steps.
Qed.

Lemma runDemoScenario_touches presetName st st' :
  runDemoScenario presetName st = Some st' ->
  touches (demoFields ++ sensorInputs ++ labelFields) st st'.
Proof.
  unfold runDemoScenario.
  destruct (presets_get presetName) as [preset | [name |] |];
    intros [= <-];
    (eapply touches_trans;
     [| eapply touches_subset; [| apply applyPreset_touches]; reflexivity]);
    apply touches_assign; reflexivity.
Qed.

Lemma demoStep_touches st :
  touches (demoFields ++ sensorInputs ++ labelFields) st (demoStep st).
Proof.
  unfold demoStep.
  destruct (currentDemoStep st <? List.length demoScenarios)%nat.
  - destruct (runDemoScenario _ st) as [st' |] eqn:R; [| apply touches_refl].
    apply touches_set_currentDemoStep.
    exact (runDemoScenario_touches _ _ _ R).
  - destruct (runDemoScenario _ (set_currentDemoStep 0 st)) as [st' |] eqn:R.
    + apply touches_set_currentDemoStep.
      eapply touches_trans; [| exact (runDemoScenario_touches _ _ _ R)].
      apply touches_set_currentDemoStep, touches_refl.
    + apply touches_set_currentDemoStep, touches_refl.
Qed.

Lemma startAutoDemo_touches st :
  touches (demoFields ++ sensorInputs ++ labelFields) st (startAutoDemo st).
Proof.
  unfold startAutoDemo.
  match goal with
  | |- context [runDemoScenario ?n ?s] =>
      destruct (runDemoScenario n s) as [st' |] eqn:R
  end.
  - intros id H. cbn [setInterval schedule].
    change (document st' id = document st id).
    rewrite (runDemoScenario_touches _ _ _ R id H).
    change (document (assign "autoDemoBtn" (Dom.set_display "none")
                        (assign "demoBanner" (Dom.set_display "block") st)) id
            = document st id).
    revert id H. touches_steps.
  - apply touches_set_currentDemoStep. touches_steps.
Qed.

Lemma stopAutoDemo_touches st : touches demoFields st (stopAutoDemo st).
Proof.
  unfold stopAutoDemo.
  apply touches_set_currentDemoStep.
  eapply touches_trans; [| apply touches_assign; reflexivity].
  eapply touches_trans; [| apply touches_assign; reflexivity].
  intros id _. destruct (autoDemoInterval st); reflexivity.
Qed.

Lemma call_touches h w st : touches liveFields st (call h w st).
Proof.
  destruct h; cbn [call].
  - eapply touches_subset; [| apply updateSensorDisplays_touches]; reflexivity.
  - eapply touches_subset; [| apply runPrediction_touches]; reflexivity.
  - eapply touches_subset; [| apply applyPreset_touches]; reflexivity.
  - eapply touches_subset; [| apply startAutoDemo_touches]; reflexivity.
  - eapply touches_subset; [| apply stopAutoDemo_touches]; reflexivity.
Qed.

Lemma fire_touches h w st : touches liveFields st (fire h w st).
Proof.
  unfold fire.
  destruct (find _ (timers st)) as [t |]; [| apply touches_refl].
  assert (T : touches liveFields st
                (if repeats t then st else clearInterval h st))
    by (intros id _; destruct (repeats t); reflexivity).
  eapply touches_trans; [exact T |].
  destruct (callback t).
  - eapply touches_subset; [| apply runPrediction_touches]; reflexivity.
  - eapply touches_subset; [| apply demoStep_touches]; reflexivity.
Qed.

(** ** Listeners and occurrences *)

Lemma dispatch_fold t ev w ls : forall p,
  let step p l :=
    if Target_eqb (target l) t && String.eqb (event l) ev
    then Boot.on_app (call (handler l) w) p else p in
  app (fold_left step ls p) = deliver t ev w ls (app p)
  /\ listeners (fold_left step ls p) = listeners p
  /\ modelInfo (fold_left step ls p) = modelInfo p
  /\ statusReady (fold_left step ls p) = statusReady p.
Proof.
  cbv zeta. induction ls as [| l ls IH]; intro p; [repeat split |].
  cbn [fold_left]. unfold deliver. cbn [fold_left]. fold (deliver t ev w).
  destruct (Target_eqb (target l) t && String.eqb (event l) ev);
    destruct (IH (Boot.on_app (call (handler l) w) p)) as (A & B & C & D);
    destruct (IH p) as (A' & B' & C' & D'); repeat split; assumption.
Qed.

Lemma dispatch_app t ev w p :
  app (dispatch t ev w p) = deliver t ev w (listeners p) (app p).
Proof. exact (proj1 (dispatch_fold t ev w (listeners p) p)). Qed.

Lemma dispatch_listeners t ev w p :
  listeners (dispatch t ev w p) = listeners p.
Proof. exact (proj1 (proj2 (dispatch_fold t ev w (listeners p) p))). Qed.

Lemma dispatch_badge t ev w p :
  statusReady (dispatch t ev w p) = statusReady p
  /\ modelInfo (dispatch t ev w p) = modelInfo p.
Proof.
  destruct (dispatch_fold t ev w (listeners p) p) as (_ & _ & A & B).
  split; assumption.
Qed.

Lemma occur_listeners o w p : listeners (occur o w p) = listeners p.
Proof.
  destruct o; cbn [occur]; try rewrite dispatch_listeners; reflexivity.
Qed.

Lemma occur_badge o w p :
  statusReady (occur o w p) = statusReady p
  /\ modelInfo (occur o w p) = modelInfo p.
Proof.
  destruct o as [id v | id b | t | h]; cbn [occur];
    try (match goal with
         | |- context [dispatch ?t ?ev ?w ?q] =>
             destruct (dispatch_badge t ev w q) as [-> ->]
         end); split; reflexivity.
Qed.

Lemma occurs_ind (I : Page -> Prop) :
  (forall o w p, I p -> I (occur o w p)) ->
  forall os p, I p -> I (occurs os p).
Proof.
  intros Step os. unfold occurs.
  induction os as [| [o w] os IH]; intros p H; [exact H |].
  cbn [fold_left fst snd]. apply IH, Step, H.
Qed.

Lemma occurs_listeners os p : listeners (occurs os p) = listeners p.
Proof.
  apply (occurs_ind (fun q => listeners q = listeners p)); [| reflexivity].
  intros o w q H. now rewrite occur_listeners.
Qed.

Lemma occurs_badge os p :
  statusReady (occurs os p) = statusReady p
  /\ modelInfo (occurs os p) = modelInfo p.
Proof.
  apply (occurs_ind (fun q => statusReady q = statusReady p
                              /\ modelInfo q = modelInfo p));
    [| split; reflexivity].
  intros o w q [A B]. destruct (occur_badge o w q) as [A' B'].
  split; congruence.
Qed.

Lemma deliver_invariant (J : State -> Prop) t ev w :
  (forall h st, J st -> J (call h w st)) ->
  forall ls st, J st -> J (deliver t ev w ls st).
Proof.
  intros Step ls. unfold deliver.
  induction ls as [| l ls IH]; intros st H; [exact H |].
  cbn [fold_left]. apply IH.
  destruct (Target_eqb (target l) t && String.eqb (event l) ev);
    [apply Step |]; exact H.
Qed.

(** A property of the state that a change of a widget, a handler and a
    timer keep holds whatever occurs. *)
Lemma occur_invariant (J : State -> Prop) :
  (forall id v st, J st -> J (assign id (Dom.set_value v) st)) ->
  (forall id b st, J st -> J (assign id (Dom.set_checked b) st)) ->
  (forall h w st, J st -> J (call h w st)) ->
  (forall h w st, J st -> J (fire h w st)) ->
  forall o w p, J (app p) -> J (app (occur o w p)).
Proof.
  intros V C H F o w p I.
  destruct o as [id v | id b | t | h]; cbn [occur].
  - rewrite dispatch_app. apply deliver_invariant; [intros; now apply H |].
    apply V, I.
  - rewrite dispatch_app. apply deliver_invariant; [intros; now apply H |].
    apply C, I.
  - rewrite dispatch_app. apply deliver_invariant; [intros; now apply H |].
    exact I.
  - apply F, I.
Qed.

Lemma occurs_invariant (J : State -> Prop) :
  (forall id v st, J st -> J (assign id (Dom.set_value v) st)) ->
  (forall id b st, J st -> J (assign id (Dom.set_checked b) st)) ->
  (forall h w st, J st -> J (call h w st)) ->
  (forall h w st, J st -> J (fire h w st)) ->
  forall os p, J (app p) -> J (app (occurs os p)).
Proof.
  intros V C H F.
  apply (occurs_ind (fun q => J (app q))).
  intros o w q. now apply occur_invariant.
Qed.

(** ** Start-up *)

Lemma count_app {A : Type} (f : A -> bool) (l l' : list A) :
  count f (l ++ l') = (count f l + count f l')%nat.
Proof. unfold count. now rewrite filter_app, length_app. Qed.

Lemma init_ready d w s :
  created w = Some s ->
  let p := Boot.init w (Boot.opening d) in
  listeners p =
    listeners (Boot.setupEventListeners (presetButtons w) (Boot.opening d))
  /\ statusReady p = true
  /\ session (app p) = Some s
  /\ journal (app p) = [] /\ timers (app p) = []
  /\ nextHandle (app p) = 1%positive
  /\ predictionCount (app p) = 0%nat
  /\ autoDemoInterval (app p) = None
  /\ currentDemoStep (app p) = 0%nat
  /\ labelsAgree (app p).
Proof.
  intro H. cbv zeta. unfold Boot.init, Boot.loadModel. rewrite H.
  destruct (metadata w) as [| | [kb |]]; repeat split.
Qed.

Lemma init_failed d w :
  created w = None ->
  let p := Boot.init w (Boot.opening d) in
  listeners p = [] /\ statusReady p = false
  /\ session (app p) = None
  /\ journal (app p) = [] /\ timers (app p) = []
  /\ predictionCount (app p) = 0%nat
  /\ Dom.textContent (document (app p) "modelStatus")
     = Lit "Error loading model".
Proof.
  intro H. cbv zeta. unfold Boot.init, Boot.loadModel. rewrite H.
  destruct (metadata w) as [| | [kb |]]; repeat split.
Qed.

Lemma set_value_shown id v st id' :
  Dom.textContent (document (assign id (Dom.set_value v) st) id')
  = Dom.textContent (document st id')
  /\ Dom.innerHTML (document (assign id (Dom.set_value v) st) id')
     = Dom.innerHTML (document st id')
  /\ Dom.display (document (assign id (Dom.set_value v) st) id')
     = Dom.display (document st id').
Proof.
  cbn [assign document set_document]. unfold Dom.update.
  destruct (String.eqb id' id); repeat split.
Qed.

Lemma set_checked_shown id b st id' :
  Dom.textContent (document (assign id (Dom.set_checked b) st) id')
  = Dom.textContent (document st id')
  /\ Dom.innerHTML (document (assign id (Dom.set_checked b) st) id')
     = Dom.innerHTML (document st id')
  /\ Dom.display (document (assign id (Dom.set_checked b) st) id')
     = Dom.display (document st id')
  /\ Dom.value (document (assign id (Dom.set_checked b) st) id')
     = Dom.value (document st id').
Proof.
  cbn [assign document set_document]. unfold Dom.update.
  destruct (String.eqb id' id); repeat split.
Qed.

(** X9. When the session cannot be created the page stays inert whatever
    the user does: the badge reads Error loading model and is not ready,
    no listener is registered, so no click, slider or checkbox runs
    anything: no alert, no call of the classifier, no timer, no count,
    and every text, block and visibility of the page stays as start-up
    left it; the demo button stays as the markup has it and the labels
    are not refreshed. *)
Theorem failed_startup_leaves_inert_page (d : Dom.Document) (w : BootWorld)
  (os : list (Occurrence * World)) :
  created w = None ->
  let p0 := Boot.init w (Boot.opening d) in
  let p := occurs os p0 in
  (statusReady p = false
   /\ Dom.textContent (document (app p) "modelStatus")
      = Lit "Error loading model")
  /\ listeners p = []
  /\ (journal (app p) = [] /\ timers (app p) = []
      /\ session (app p) = None /\ predictionCount (app p) = 0%nat)
  /\ (forall id,
        Dom.textContent (document (app p) id)
        = Dom.textContent (document (app p0) id)
        /\ Dom.innerHTML (document (app p) id) = Dom.innerHTML (d id)
        /\ Dom.display (document (app p) id) = Dom.display (d id))
  /\ (forall id, existsb (String.eqb id) ["modelStatus"; "modelSize"] = false ->
                 Dom.textContent (document (app p) id)
                 = Dom.textContent (d id)).
Proof.
  intro H. cbv zeta.
  destruct (init_failed d w H) as (L0 & R0 & S0 & J0 & T0 & C0 & B0).
  set (p0 := Boot.init w (Boot.opening d)) in *.
  assert (D0 : forall id,
             Dom.innerHTML (document (app p0) id) = Dom.innerHTML (d id)
             /\ Dom.display (document (app p0) id) = Dom.display (d id)
             /\ (existsb (String.eqb id) ["modelStatus"; "modelSize"] = false
                 -> Dom.textContent (document (app p0) id)
                    = Dom.textContent (d id))).
  { intro id. subst p0. unfold Boot.init, Boot.loadModel. rewrite H.
    cbn [existsb orb].
    destruct (metadata w) as [| | [kb |]];
      cbn [Boot.loadModelInfo Boot.updateModelStatus Boot.on_app app
           assign document set_document initial]; unfold Dom.update;
      destruct (String.eqb id "modelStatus"), (String.eqb id "modelSize");
      repeat split; intro; discriminate. }
  assert (I : listeners (occurs os p0) = []
              /\ journal (app (occurs os p0)) = []
              /\ timers (app (occurs os p0)) = []
              /\ session (app (occurs os p0)) = None
              /\ predictionCount (app (occurs os p0)) = 0%nat
              /\ forall id,
                   Dom.textContent (document (app (occurs os p0)) id)
                   = Dom.textContent (document (app p0) id)
                   /\ Dom.innerHTML (document (app (occurs os p0)) id)
                      = Dom.innerHTML (document (app p0) id)
                   /\ Dom.display (document (app (occurs os p0)) id)
                      = Dom.display (document (app p0) id)).
  { apply (occurs_ind
             (fun q => listeners q = []
                       /\ journal (app q) = [] /\ timers (app q) = []
                       /\ session (app q) = None
                       /\ predictionCount (app q) = 0%nat
                       /\ forall id,
                            Dom.textContent (document (app q) id)
                            = Dom.textContent (document (app p0) id)
                            /\ Dom.innerHTML (document (app q) id)
                               = Dom.innerHTML (document (app p0) id)
                            /\ Dom.display (document (app q) id)
                               = Dom.display (document (app p0) id)));
      [| repeat split; assumption].
    intros o w' q (L & J & T & S & C & D).
    split; [rewrite occur_listeners; exact L |].
    destruct o as [id v | id b | t | h]; cbn [occur].
    - rewrite dispatch_app. cbn [Boot.on_app listeners app]. rewrite L.
      cbn [deliver fold_left]. repeat split; try assumption;
        destruct (set_value_shown id v (app q) id0) as (A1 & A2 & A3);
        destruct (D id0) as (D1 & D2 & D3); congruence.
    - rewrite dispatch_app. cbn [Boot.on_app listeners app]. rewrite L.
      cbn [deliver fold_left]. repeat split; try assumption;
        destruct (set_checked_shown id b (app q) id0) as (A1 & A2 & A3 & _);
        destruct (D id0) as (D1 & D2 & D3); congruence.
    - rewrite dispatch_app, L. cbn [deliver fold_left].
      repeat split; try assumption; apply D.
    - cbn [Boot.on_app app]. unfold fire. rewrite T. cbn [find].
      repeat split; try assumption; apply D. }
  destruct I as (L & J & T & S & C & D).
  destruct (occurs_badge os p0) as (R & _).
  split; [split; [congruence | destruct (D "modelStatus") as (-> & _); exact B0]
         |].
  split; [exact L |]. split; [repeat split; assumption |].
  split.
  - intro id. destruct (D id) as (D1 & D2 & D3).
    destruct (D0 id) as (E1 & E2 & _). repeat split; congruence.
  - intros id Hid. destruct (D id) as (D1 & _).
    destruct (D0 id) as (_ & _ & E). rewrite D1. exact (E Hid).
Qed.

Lemma failed_startup_leaves_inert_page_witness :
  let w :=
    {| metadata := MetadataParsed (Some 3.5);
       created := None;
       presetButtons := ["empty"; "morning"; "evening"; "weekend"];
       userAgent := "Mozilla/5.0 Chrome/120.0 Safari/537.36";
       platform := "Linux x86_64" |} in
  let p :=
    occurs [(Clicked (ById "predictBtn"),
             {| startTime := 10; endTime := 12.5;
                response := RunResolved 0 |});
            (Clicked (PresetButton 0),
             {| startTime := 10; endTime := 12.5;
                response := RunResolved 0 |});
            (Moved "hourInput" 7,
             {| startTime := 10; endTime := 12.5;
                response := RunResolved 0 |})]
      (Boot.init w (Boot.opening (fun _ => Dom.blank))) in
  Dom.textContent (document (app p) "modelStatus") = Lit "Error loading model"
  /\ journal (app p) = [] /\ timers (app p) = []
  /\ Dom.textContent (document (app p) "hourValue") = Lit "".
Proof.
  cbv zeta.
  destruct (failed_startup_leaves_inert_page (fun _ => Dom.blank)
              {| metadata := MetadataParsed (Some 3.5);
                 created := None;
                 presetButtons := ["empty"; "morning"; "evening"; "weekend"];
                 userAgent := "Mozilla/5.0 Chrome/120.0 Safari/537.36";
                 platform := "Linux x86_64" |}
              [(Clicked (ById "predictBtn"),
                {| startTime := 10; endTime := 12.5;
                   response := RunResolved 0 |});
               (Clicked (PresetButton 0),
                {| startTime := 10; endTime := 12.5;
                   response := RunResolved 0 |});
               (Moved "hourInput" 7,
                {| startTime := 10; endTime := 12.5;
                   response := RunResolved 0 |})]
              eq_refl) as ((_ & B) & _ & (J & T & _) & _ & F).
  split; [exact B |]. split; [exact J |]. split; [exact T |].
  exact (F "hourValue" eq_refl).
Defined.

(** ** The ledger *)

Lemma accounted_silent st st' : silent st st' -> accounted st -> accounted st'.
Proof.
  intros (S & J & C & _) (A & B & E). unfold accounted.
  rewrite J, C. repeat split; assumption.
Qed.

Lemma accounted_runPrediction w st s :
  session st = Some s -> accounted st -> accounted (runPrediction w st).
Proof.
  intros S (A & B & E).
  destruct (runPrediction_metrics w st s S) as (_ & C & _).
  cbv zeta in C. unfold accounted.
  rewrite (runPrediction_journal w st s S), C, !count_app.
  unfold resolved.
  destruct (response w) as [output_label |].
  - destruct (Js.strict_eq (Js.of_Z output_label) 1);
      cbn [count filter inference isSessionRun failureAlert notLoadedAlert
           isEstimated List.length]; repeat split; lia.
  - change (count failureAlert
              [inference (featureVector st);
               Alert "Prediction failed! Check console for details."])
      with 1%nat.
    change (count notLoadedAlert
              [inference (featureVector st);
               Alert "Prediction failed! Check console for details."])
      with 0%nat.
    cbn [count filter inference isSessionRun isEstimated List.length].
    repeat split; lia.
Qed.

Lemma counterShown_frame ids st st' :
  silent st st' -> touches ids st st' ->
  existsb (String.eqb "totalPredictions") ids = false ->
  counterShown st -> counterShown st'.
Proof.
  intros (_ & _ & C & _) T O [Z | K]; unfold counterShown; rewrite C.
  - left; exact Z.
  - right. rewrite (T _ O). exact K.
Qed.

Lemma displayResults_total label probability latency st :
  let st' := displayResults label probability latency st in
  Dom.textContent (document st' "totalPredictions")
  = Int (Z.of_nat (predictionCount st')).
Proof.
  cbv zeta. unfold displayResults.
  rewrite (document_out _ _ _ "totalPredictions"
             (generateEnergyNudge_touches _ _ _) eq_refl).
  match goal with
  | |- context [generateEnergyNudge ?l ?r ?x] =>
      destruct (generateEnergyNudge_control l r x)
        as (_ & _ & _ & _ & _ & _ & C & _)
  end.
  cbv zeta in C. rewrite C.
  unfold updatePerformanceMetrics.
  match goal with
  | |- context [match session ?x with _ => _ end] =>
      destruct (session x) as [[[[| provider rest] |]] |]
  end; reflexivity.
Qed.

Lemma counterShown_runPrediction w st s :
  session st = Some s -> counterShown st -> counterShown (runPrediction w st).
Proof.
  intros S K.
  destruct (response w) as [output_label |] eqn:R.
  - rewrite (runPrediction_resolved w st s output_label S R).
    right. apply displayResults_total.
  - rewrite (runPrediction_rejected w st s S R). exact K.
Qed.

(** What holds of the state once the model is loaded. *)
Lemma ready_silent s ids st st' :
  silent st st' -> touches ids st st' ->
  existsb (String.eqb "totalPredictions") ids = false ->
  session st = Some s /\ accounted st /\ counterShown st ->
  session st' = Some s /\ accounted st' /\ counterShown st'.
Proof.
  intros Q T O (S & A & K).
  split; [destruct Q as (-> & _); exact S |].
  split; [exact (accounted_silent _ _ Q A) |].
  exact (counterShown_frame _ _ _ Q T O K).
Qed.

Lemma ready_runPrediction s w st :
  session st = Some s /\ accounted st /\ counterShown st ->
  session (runPrediction w st) = Some s
  /\ accounted (runPrediction w st) /\ counterShown (runPrediction w st).
Proof.
  intros (S & A & K).
  split; [destruct (runPrediction_control w st) as (-> & _); exact S |].
  split; [exact (accounted_runPrediction w st s S A) |].
  exact (counterShown_runPrediction w st s S K).
Qed.

Lemma ready_call s h w st :
  session st = Some s /\ accounted st /\ counterShown st ->
  session (call h w st) = Some s
  /\ accounted (call h w st) /\ counterShown (call h w st).
Proof.
  intro R. destruct h; cbn [call].
  - exact (ready_silent s _ _ _ (silent_updateSensorDisplays st)
             (updateSensorDisplays_touches st) eq_refl R).
  - exact (ready_runPrediction s w st R).
  - exact (ready_silent s _ _ _ (silent_applyPreset _ st)
             (applyPreset_touches _ st) eq_refl R).
  - exact (ready_silent s _ _ _ (silent_startAutoDemo st)
             (startAutoDemo_touches st) eq_refl R).
  - exact (ready_silent s _ _ _ (silent_stopAutoDemo st)
             (stopAutoDemo_touches st) eq_refl R).
Qed.

Lemma ready_fire s h w st :
  session st = Some s /\ accounted st /\ counterShown st ->
  session (fire h w st) = Some s
  /\ accounted (fire h w st) /\ counterShown (fire h w st).
Proof.
  intro R. unfold fire.
  destruct (find _ (timers st)) as [t |]; [| exact R].
  assert (R1 : session (if repeats t then st else clearInterval h st) = Some s
               /\ accounted (if repeats t then st else clearInterval h st)
               /\ counterShown (if repeats t then st else clearInterval h st)).
  { destruct (repeats t); [exact R |].
    refine (ready_silent s [] _ _ (silent_clearInterval h st) _ eq_refl R).
    intros id _. reflexivity. }
  destruct (callback t).
  - apply ready_runPrediction, R1.
  - exact (ready_silent s _ _ _ (silent_demoStep _) (demoStep_touches _)
             eq_refl R1).
Qed.

Lemma ready_assign s id f st :
  (forall e, Dom.textContent (f e) = Dom.textContent e) ->
  session st = Some s /\ accounted st /\ counterShown st ->
  session (assign id f st) = Some s
  /\ accounted (assign id f st) /\ counterShown (assign id f st).
Proof.
  intros F (S & A & K). split; [exact S |].
  split; [exact (accounted_silent _ _ (silent_assign _ _ st) A) |].
  destruct K as [Z | K]; [left; exact Z | right].
  cbn [assign document set_document predictionCount]. unfold Dom.update.
  destruct (String.eqb "totalPredictions" id); [rewrite F |]; exact K.
Qed.

(** Once the model is loaded the session stays, the ledger stays balanced
    and the counter on the page is the script's, whatever occurs. *)
Lemma ready_occurs d w s os :
  created w = Some s ->
  let st := app (occurs os (Boot.init w (Boot.opening d))) in
  session st = Some s /\ accounted st /\ counterShown st.
Proof.
  intro H. cbv zeta.
  destruct (init_ready d w s H) as (_ & _ & S & J & _ & _ & C & _).
  apply (occurs_invariant
           (fun st => session st = Some s /\ accounted st /\ counterShown st)).
  - intros id v st. apply ready_assign. reflexivity.
  - intros id b st. apply ready_assign. reflexivity.
  - intros h w' st. apply ready_call.
  - intros h w' st. apply ready_fire.
  - split; [exact S |]. split; [| left; exact C].
    unfold accounted. rewrite J, C. repeat split; reflexivity.
Qed.

Lemma inert_occurs d w os :
  created w = None ->
  let st := app (occurs os (Boot.init w (Boot.opening d))) in
  session st = None /\ journal st = [] /\ predictionCount st = 0%nat.
Proof.
  intro H. cbv zeta.
  destruct (init_failed d w H) as (L0 & _ & S0 & J0 & T0 & C0 & _).
  assert (I : listeners (occurs os (Boot.init w (Boot.opening d))) = []
              /\ session (app (occurs os (Boot.init w (Boot.opening d))))
                 = None
              /\ journal (app (occurs os (Boot.init w (Boot.opening d)))) = []
              /\ predictionCount
                   (app (occurs os (Boot.init w (Boot.opening d)))) = 0%nat
              /\ timers (app (occurs os (Boot.init w (Boot.opening d)))) = []).
  { apply (occurs_ind
             (fun q => listeners q = [] /\ session (app q) = None
                       /\ journal (app q) = []
                       /\ predictionCount (app q) = 0%nat
                       /\ timers (app q) = []));
      [| repeat split; assumption].
    intros o w' q (L & S & J & C & T).
    split; [rewrite occur_listeners; exact L |].
    destruct o as [id v | id b | t | h]; cbn [occur].
    - rewrite dispatch_app. cbn [Boot.on_app listeners app]. rewrite L.
      cbn [deliver fold_left]. repeat split; assumption.
    - rewrite dispatch_app. cbn [Boot.on_app listeners app]. rewrite L.
      cbn [deliver fold_left]. repeat split; assumption.
    - rewrite dispatch_app, L. cbn [deliver fold_left].
      repeat split; assumption.
    - cbn [Boot.on_app app]. unfold fire. rewrite T. cbn [find].
      repeat split; assumption. }
  destruct I as (_ & S & J & C & _). repeat split; assumption.
Qed.

(** X10. The guard of [runPrediction] is never the one that answers a
    user: whatever the start-up and whatever happens on the page
    afterwards, the alert Model not loaded yet! is not raised, because
    the listeners are only registered once the session exists and the
    session is never given up: a page without a session has no
    listener. *)
Theorem not_loaded_alert_unreachable (d : Dom.Document) (w : BootWorld)
  (os : list (Occurrence * World)) :
  let p := occurs os (Boot.init w (Boot.opening d)) in
  ~ In (Alert "Model not loaded yet!") (journal (app p))
  /\ (session (app p) = None -> listeners p = [])
  /\ (session (app p) = None <-> created w = None).
Proof.
  cbv zeta. destruct (created w) as [s |] eqn:H.
  - destruct (ready_occurs d w s os H) as (S & (_ & N & _) & _).
    split; [| split; [| split]; congruence].
    intro I. unfold count in N.
    assert (F : In (Alert "Model not loaded yet!")
                  (filter notLoadedAlert
                     (journal (app (occurs os
                                      (Boot.init w (Boot.opening d)))))))
      by (apply filter_In; split; [exact I | reflexivity]).
    destruct (filter notLoadedAlert _); [exact F | discriminate N].
  - destruct (inert_occurs d w os H) as (S & J & _).
    destruct (init_failed d w H) as (L & _).
    rewrite J, occurs_listeners.
    split; [intros [] |]. split; [intros _; exact L | tauto].
Qed.

(** X11. The counter of predictions and the journal agree whatever
    happens on the page (buttons, sliders, presets, the demo and its
    timers, in any order, each prediction run to its end): every call of
    the classifier is either counted or answered with the failure alert,
    never both and never neither; an estimate is only made for a counted
    prediction; and once a prediction was counted the page shows the
    count. *)
Theorem predictions_are_accounted (d : Dom.Document) (w : BootWorld)
  (os : list (Occurrence * World)) :
  let st := app (occurs os (Boot.init w (Boot.opening d))) in
  (predictionCount st + count failureAlert (journal st)
   = count isSessionRun (journal st))%nat
  /\ (count isEstimated (journal st) <= predictionCount st)%nat
  /\ (predictionCount st <> 0%nat ->
      Dom.textContent (document st "totalPredictions")
      = Int (Z.of_nat (predictionCount st))).
Proof.
  cbv zeta. destruct (created w) as [s |] eqn:H.
  - destruct (ready_occurs d w s os H) as (_ & (A & _ & E) & K).
    split; [exact A |]. split; [exact E |].
    intro N. destruct K as [Z | K]; [contradiction | exact K].
  - destruct (inert_occurs d w os H) as (_ & J & C).
    rewrite J, C.
    split; [reflexivity |].
    split; [apply Nat.le_refl | intro N; now destruct N].
Qed.

(** ** The labels *)




















(** ** The browser name *)

Lemma substring_prefix (t after : string) :
  substring 0 (String.length t) (t ++ after) = t.
Proof.
  induction t as [| c t IH]; [now destruct after | cbn; now rewrite IH].
Qed.

Lemma substring_skip (before t : string) n :
  substring (String.length before) n (before ++ t) = substring 0 n t.
Proof. induction before as [| c b IH]; [reflexivity | exact IH]. Qed.

Lemma substring_head : forall n s,
  String.length (substring 0 n s) = n ->
  exists after, s = (substring 0 n s ++ after)%string.
Proof.
  induction n as [| n IH]; intros s H.
  - exists s. now destruct s.
  - destruct s as [| c s]; [discriminate H |].
    cbn in H. injection H as H. destruct (IH s H) as [after E].
    exists after. cbn. f_equal. exact E.
Qed.

Lemma substring_split : forall m n s,
  String.length (substring m n s) = n ->
  exists before after, s = (before ++ substring m n s ++ after)%string.
Proof.
  induction m as [| m IH]; intros n s H.
  - destruct (substring_head n s H) as [after E]. now exists ""%string, after.
  - destruct s as [| c s].
    + now exists ""%string, ""%string.
    + cbn [substring] in *. destruct (IH n s H) as (b & a & E).
      exists (String c b), a. cbn. f_equal. exact E.
Qed.

(** [indexOf] finds a name exactly when the name occurs. *)
Lemma occursIn_contains needle s :
  needle <> ""%string -> occursIn needle s = true <-> contains needle s.
Proof.
  intro N. unfold occursIn, contains.
  destruct (index 0 needle s) as [m |] eqn:I; split.
  - intros _. apply index_correct1 in I.
    destruct (substring_split m (String.length needle) s) as (b & a & E);
      [now rewrite I |].
    exists b, a. now rewrite I in E.
  - reflexivity.
  - discriminate.
  - intros (b & a & ->). exfalso.
    apply (index_correct3 0 (String.length b) _ _ I N (Nat.le_0_l _)).
    now rewrite substring_skip, substring_prefix.
Qed.

(** X13. Which browser is shown: the first of Chrome, Firefox, Safari and
    Edge that occurs in the user agent, in this order, Unknown when none
    does. So a user agent that names Chrome is shown as Chrome whatever
    else it names, and Edge is shown only for one that names neither
    Chrome nor Firefox nor Safari. The platform is shown as it is, and
    nothing else on the page is written. *)
Theorem browser_precedence (ua platform : string) (st : State) :
  let st' := detectSystemInfo ua platform st in
  let shown := browserName ua in
  (Dom.textContent (document st' "browserInfo") = Lit shown
   /\ Dom.textContent (document st' "platformInfo") = Lit platform
   /\ touches ["browserInfo"; "platformInfo"] st st')
  /\ (shown = "Chrome" <-> contains "Chrome" ua)
  /\ (shown = "Firefox" <->
      contains "Firefox" ua /\ ~ contains "Chrome" ua)
  /\ (shown = "Safari" <->
      contains "Safari" ua
      /\ ~ contains "Chrome" ua /\ ~ contains "Firefox" ua)
  /\ (shown = "Edge" <->
      contains "Edge" ua /\ ~ contains "Chrome" ua
      /\ ~ contains "Firefox" ua /\ ~ contains "Safari" ua)
  /\ (shown = "Unknown" <->
      ~ contains "Edge" ua /\ ~ contains "Chrome" ua
      /\ ~ contains "Firefox" ua /\ ~ contains "Safari" ua).
Proof.
  cbv zeta.
  split; [split; [reflexivity | split; [reflexivity |]] |].
  { unfold detectSystemInfo. touches_steps. }
  unfold browserName.
  pose proof (occursIn_contains "Chrome" ua ltac:(discriminate)) as C.
  pose proof (occursIn_contains "Firefox" ua ltac:(discriminate)) as F.
  pose proof (occursIn_contains "Safari" ua ltac:(discriminate)) as A.
  pose proof (occursIn_contains "Edge" ua ltac:(discriminate)) as E.
  destruct (occursIn "Chrome" ua), (occursIn "Firefox" ua),
    (occursIn "Safari" ua), (occursIn "Edge" ua);
    repeat match goal with
           | H : true = true <-> ?P |- _ =>
               assert P by (apply H; reflexivity); clear H
           | H : false = true <-> ?P |- _ =>
               assert (~ P) by (intro X; apply H in X; discriminate X);
               clear H
           end;
    repeat split; intros;
    repeat match goal with
           | H : _ /\ _ |- _ => destruct H
           end;
    first [ assumption | reflexivity | discriminate | contradiction ].
Qed.

(** ** The wiring *)

Lemma deliver_app t ev w ls ls' st :
  deliver t ev w (ls ++ ls') st = deliver t ev w ls' (deliver t ev w ls st).
Proof. unfold deliver. apply fold_left_app. Qed.

Lemma deliver_cons t ev w l ls st :
  deliver t ev w (l :: ls) st
  = deliver t ev w ls
      (if Target_eqb (target l) t && String.eqb (event l) ev
       then call (handler l) w st else st).
Proof. reflexivity. Qed.

Lemma deliver_presets k w : forall buttons a st,
  deliver (PresetButton k) "click" w
    (map (fun kn => {| target := PresetButton (fst kn); event := "click";
                       handler := CallApplyPreset (snd kn) |})
       (combine (seq a (List.length buttons)) buttons)) st
  = if (a <=? k)%nat
    then match nth_error buttons (k - a) with
         | Some presetName => applyPreset presetName st
         | None => st
         end
    else st.
Proof.
  induction buttons as [| b bs IH]; intros a st.
  - cbn. destruct (a <=? k)%nat; [| reflexivity]. now destruct (k - a)%nat.
  - cbn [List.length seq combine map]. rewrite deliver_cons, IH.
    cbn [target event handler fst snd Target_eqb call].
    change (String.eqb "click" "click") with true. rewrite andb_true_r.
    destruct (Nat.eqb_spec a k) as [-> | N].
    + rewrite Nat.leb_refl, Nat.sub_diag. cbn [nth_error].
      destruct (Nat.leb_spec (S k) k); [lia | reflexivity].
    + destruct (Nat.leb_spec a k) as [Le | Gt].
      * destruct (Nat.leb_spec (S a) k); [| lia].
        replace (k - a)%nat with (S (k - S a)) by lia. reflexivity.
      * destruct (Nat.leb_spec (S a) k); [lia | reflexivity].
Qed.

Lemma deliver_presets_other id ev w : forall (ls : list (nat * string)) st,
  deliver (ById id) ev w
    (map (fun kn => {| target := PresetButton (fst kn); event := "click";
                       handler := CallApplyPreset (snd kn) |}) ls) st = st.
Proof.
  induction ls as [| l ls IH]; intro st; [reflexivity |].
  cbn [map]. rewrite deliver_cons. exact (IH st).
Qed.

Ltac wiring :=
  cbn [deliver fold_left target event handler Target_eqb andb call
       String.eqb Ascii.eqb Bool.eqb].

(** X14. Each control is wired to one function, once: on a ready page,
    moving one of the four sliders or setting one of the two checkboxes
    refreshes the labels and runs nothing else (no prediction); Predict
    runs one prediction; the k-th preset button applies the preset its
    [data-preset] names, once; the demo buttons start and stop the
    demo; an event on anything else runs nothing. *)
Theorem controls_are_wired_once (d : Dom.Document) (w : BootWorld)
  (s : Session) (os : list (Occurrence * World)) (answer : World) :
  created w = Some s ->
  let p := occurs os (Boot.init w (Boot.opening d)) in
  let after o := app (occur o answer p) in
  (forall id v,
     after (Moved id v) =
       if existsb (String.eqb id) sliderInputs
       then updateSensorDisplays (assign id (Dom.set_value v) (app p))
       else assign id (Dom.set_value v) (app p))
  /\ (forall id b,
        after (Toggled id b) =
          if existsb (String.eqb id) toggleInputs
          then updateSensorDisplays (assign id (Dom.set_checked b) (app p))
          else assign id (Dom.set_checked b) (app p))
  /\ after (Clicked (ById "predictBtn")) = runPrediction answer (app p)
  /\ after (Clicked (ById "autoDemoBtn")) = startAutoDemo (app p)
  /\ after (Clicked (ById "stopDemoBtn")) = stopAutoDemo (app p)
  /\ (forall k,
        after (Clicked (PresetButton k)) =
          match nth_error (presetButtons w) k with
          | Some presetName => applyPreset presetName (app p)
          | None => app p
          end)
  /\ (forall id,
        existsb (String.eqb id) ["predictBtn"; "autoDemoBtn"; "stopDemoBtn"]
        = false ->
        after (Clicked (ById id)) = app p).
Proof.
  intro H. cbv zeta.
  destruct (init_ready d w s H) as (L0 & _).
  set (p0 := Boot.init w (Boot.opening d)) in *.
  pose proof (occurs_listeners os p0) as L. rewrite L0 in L.
  generalize dependent (occurs os p0). clear. intros p L.
  cbn [Boot.setupEventListeners Boot.opening listeners List.app] in L.
  assert (D : forall t ev st,
             deliver t ev answer (listeners p) st =
             deliver t ev answer
               [ {| target := ById "autoDemoBtn"; event := "click";
                    handler := CallStartAutoDemo |};
                 {| target := ById "stopDemoBtn"; event := "click";
                    handler := CallStopAutoDemo |} ]
               (deliver t ev answer
                  (map (fun kn =>
                          {| target := PresetButton (fst kn);
                             event := "click";
                             handler := CallApplyPreset (snd kn) |})
                     (combine (seq 0 (List.length (presetButtons w)))
                        (presetButtons w)))
                  (deliver t ev answer
                     [ {| target := ById "hourInput"; event := "input";
                          handler := CallUpdateSensorDisplays |};
                       {| target := ById "dayInput"; event := "input";
                          handler := CallUpdateSensorDisplays |};
                       {| target := ById "lightInput"; event := "input";
                          handler := CallUpdateSensorDisplays |};
                       {| target := ById "tempInput"; event := "input";
                          handler := CallUpdateSensorDisplays |};
                       {| target := ById "pirInput"; event := "change";
                          handler := CallUpdateSensorDisplays |};
                       {| target := ById "phoneInput"; event := "change";
                          handler := CallUpdateSensorDisplays |};
                       {| target := ById "predictBtn"; event := "click";
                          handler := CallRunPrediction |} ] st))).
  { intros t ev st. rewrite L.
    change (?a :: ?b :: ?c :: ?e :: ?f :: ?g :: ?h :: ?rest ++ ?last)
      with ([a; b; c; e; f; g; h] ++ rest ++ last).
    now rewrite !deliver_app. }
  clear L.
  repeat split.
  - intros id v. cbn [occur]. rewrite dispatch_app, D.
    cbn [Boot.on_app listeners app]. rewrite deliver_presets_other.
    cbn [existsb sliderInputs].
    destruct (String.eqb id "hourInput") eqn:N1;
      [apply String.eqb_eq in N1 as ->; wiring; reflexivity |].
    destruct (String.eqb id "dayInput") eqn:N2;
      [apply String.eqb_eq in N2 as ->; wiring; reflexivity |].
    destruct (String.eqb id "lightInput") eqn:N3;
      [apply String.eqb_eq in N3 as ->; wiring; reflexivity |].
    destruct (String.eqb id "tempInput") eqn:N4;
      [apply String.eqb_eq in N4 as ->; wiring; reflexivity |].
    rewrite String.eqb_sym in N1, N2, N3, N4.
    cbn [deliver fold_left target event handler Target_eqb].
    rewrite N1, N2, N3, N4. cbn [andb orb].
    change (String.eqb "change" "input") with false.
    change (String.eqb "click" "input") with false.
    rewrite !andb_false_r. reflexivity.
  - intros id b. cbn [occur]. rewrite dispatch_app, D.
    cbn [Boot.on_app listeners app]. rewrite deliver_presets_other.
    cbn [existsb toggleInputs].
    destruct (String.eqb id "pirInput") eqn:N1;
      [apply String.eqb_eq in N1 as ->; wiring; reflexivity |].
    destruct (String.eqb id "phoneInput") eqn:N2;
      [apply String.eqb_eq in N2 as ->; wiring; reflexivity |].
    rewrite String.eqb_sym in N1, N2.
    cbn [deliver fold_left target event handler Target_eqb].
    rewrite N1, N2. cbn [andb orb].
    change (String.eqb "input" "change") with false.
    change (String.eqb "click" "change") with false.
    rewrite !andb_false_r. reflexivity.
  - cbn [occur]. rewrite dispatch_app, D, deliver_presets_other.
    wiring. reflexivity.
  - cbn [occur]. rewrite dispatch_app, D, deliver_presets_other.
    wiring. reflexivity.
  - cbn [occur]. rewrite dispatch_app, D, deliver_presets_other.
    wiring. reflexivity.
  - intro k. cbn [occur]. rewrite dispatch_app, D, deliver_presets.
    cbn [Nat.leb]. rewrite Nat.sub_0_r. wiring. reflexivity.
  - intros id O. cbn [occur]. rewrite dispatch_app, D, deliver_presets_other.
    cbn [existsb] in O.
    repeat (apply orb_false_elim in O; destruct O as [?O O]).
    rewrite String.eqb_sym in O0, O1, O2.
    cbn [deliver fold_left target event handler Target_eqb].
    rewrite O0, O1, O2. cbn [andb].
    change (String.eqb "input" "click") with false.
    change (String.eqb "change" "click") with false.
    rewrite !andb_false_r. reflexivity.
Qed.

Lemma controls_are_wired_once_witness :
  let w :=
    {| metadata := MetadataFailed;
       created := Some {| executionProviders := None |};
       presetButtons := ["empty"; "morning"; "evening"; "weekend"];
       userAgent := "Mozilla/5.0 Chrome/120.0 Safari/537.36";
       platform := "Linux x86_64" |} in
  let answer :=
    {| startTime := 10; endTime := 12.5; response := RunResolved 0 |} in
  let p := Boot.init w (Boot.opening (fun _ => Dom.blank)) in
  app (occur (Clicked (PresetButton 2)) answer p)
  = applyPreset "evening" (app p)
  /\ app (occur (Clicked (PresetButton 4)) answer p) = app p
  /\ app (occur (Clicked (ById "predictBtn")) answer p)
     = runPrediction answer (app p).
Proof.
  cbv zeta.
  destruct (controls_are_wired_once (fun _ => Dom.blank)
              {| metadata := MetadataFailed;
                 created := Some {| executionProviders := None |};
                 presetButtons := ["empty"; "morning"; "evening"; "weekend"];
                 userAgent := "Mozilla/5.0 Chrome/120.0 Safari/537.36";
                 platform := "Linux x86_64" |}
              {| executionProviders := None |} []
              {| startTime := 10; endTime := 12.5;
                 response := RunResolved 0 |} eq_refl)
    as (_ & _ & P & _ & _ & K & _).
  split; [exact (K 2%nat) |]. split; [exact (K 4%nat) | exact P].
Defined.

(** ** What start-up shows *)

Lemma startup_kept st st' id :
  touches liveFields st st' ->
  existsb (String.eqb id) startupFields = true ->
  document st' id = document st id.
Proof. intros T H. exact (touches_others _ _ _ _ _ T H eq_refl). Qed.

(** X15. What a successful start-up shows stays on the page whatever
    happens afterwards, failed predictions included: the badge reads
    Model Ready and is ready, the provider is the first one the session
    reports, or wasm when it reports none, in upper case, and browser and
    platform are those of the navigator. A missing or unusable
    [model_info.json] costs nothing but the model size, which then stays
    as the markup has it. *)
Theorem ready_page_shows_model (d : Dom.Document) (w : BootWorld)
  (s : Session) (os : list (Occurrence * World)) :
  created w = Some s ->
  let p := occurs os (Boot.init w (Boot.opening d)) in
  let text id := Dom.textContent (document (app p) id) in
  (statusReady p = true /\ text "modelStatus" = Lit "Model Ready ✓")
  /\ text "execProvider"
     = Upper match executionProviders s with
             | Some (first :: _) => first
             | _ => "wasm"
             end
  /\ text "modelSize"
     = match metadata w with
       | MetadataParsed (Some kb) => Fixed kb 2 +++ Lit " KB"
       | _ => Dom.textContent (d "modelSize")
       end
  /\ modelInfo p
     = match metadata w with
       | MetadataParsed _ => Some (metadata w)
       | _ => None
       end
  /\ text "browserInfo" = Lit (browserName (userAgent w))
  /\ text "platformInfo" = Lit (platform w).
Proof.
  intro H. cbv zeta.
  set (p0 := Boot.init w (Boot.opening d)).
  assert (K : forall id, existsb (String.eqb id) startupFields = true ->
                         Dom.textContent (document (app (occurs os p0)) id)
                         = Dom.textContent (document (app p0) id)).
  { apply (occurs_invariant
             (fun st => forall id,
                  existsb (String.eqb id) startupFields = true ->
                  Dom.textContent (document st id)
                  = Dom.textContent (document (app p0) id))).
    - intros id v st J id' I.
      destruct (set_value_shown id v st id') as (-> & _). exact (J id' I).
    - intros id b st J id' I.
      destruct (set_checked_shown id b st id') as (-> & _). exact (J id' I).
    - intros h w' st J id' I.
      rewrite (startup_kept _ _ _ (call_touches h w' st) I). exact (J id' I).
    - intros h w' st J id' I.
      rewrite (startup_kept _ _ _ (fire_touches h w' st) I). exact (J id' I).
    - reflexivity. }
  destruct (occurs_badge os p0) as (R & M).
  rewrite R, M, !K by reflexivity. subst p0.
  unfold Boot.init, Boot.loadModel. rewrite H.
  destruct (metadata w) as [| | [kb |]]; repeat split.
Qed.

Lemma ready_page_shows_model_witness :
  let w :=
    {| metadata := MetadataParsed (Some 3.5);
       created := Some {| executionProviders := Some ["webgl"; "wasm"] |};
       presetButtons := ["empty"; "morning"; "evening"; "weekend"];
       userAgent := "Mozilla/5.0 Chrome/120.0 Safari/537.36";
       platform := "Linux x86_64" |} in
  let st :=
    app (occurs [(Clicked (ById "predictBtn"),
                  {| startTime := 10; endTime := 12.5;
                     response := RunRejected |})]
           (Boot.init w (Boot.opening (fun _ => Dom.blank)))) in
  Dom.textContent (document st "modelStatus") = Lit "Model Ready ✓"
  /\ Dom.textContent (document st "execProvider") = Upper "webgl"
  /\ Dom.textContent (document st "modelSize") = Fixed 3.5 2 +++ Lit " KB"
  /\ Dom.textContent (document st "browserInfo") = Lit "Chrome".
Proof.
  cbv zeta.
  destruct (ready_page_shows_model (fun _ => Dom.blank)
              {| metadata := MetadataParsed (Some 3.5);
                 created :=
                   Some {| executionProviders := Some ["webgl"; "wasm"] |};
                 presetButtons := ["empty"; "morning"; "evening"; "weekend"];
                 userAgent := "Mozilla/5.0 Chrome/120.0 Safari/537.36";
                 platform := "Linux x86_64" |}
              {| executionProviders := Some ["webgl"; "wasm"] |}
              [(Clicked (ById "predictBtn"),
                {| startTime := 10; endTime := 12.5;
                   response := RunRejected |})]
              eq_refl) as ((_ & A) & B & C & _ & D & _).
  repeat split; assumption.
Defined.

(** ** The cards *)

Lemma lastEstimate_app j j' :
  lastEstimate (j ++ j') =
  match lastEstimate j' with
  | Some savings => Some savings
  | None => lastEstimate j
  end.
Proof.
  unfold lastEstimate. rewrite fold_left_app.
  generalize (fold_left
                (fun found e =>
                   match e with
                   | Estimated _ savings => Some savings
                   | _ => found
                   end) j None).
  induction j' as [| e j' IH]; intro found; [reflexivity |].
  cbn [fold_left]. rewrite IH. symmetry. rewrite IH.
  destruct (fold_left _ j' None); [reflexivity |].
  now destruct e.
Qed.

Lemma displayEnergySummary_writes savings st id :
  existsb (String.eqb id) summaryFields = true ->
  Dom.textContent (document (displayEnergySummary savings st) id)
  = summaryText savings id.
Proof.
  unfold summaryText. cbn [existsb summaryFields]. intro H.
  repeat match type of H with
         | (String.eqb id ?x || _)%bool = true =>
             let N := fresh in
             destruct (String.eqb id x) eqn:N;
             [apply String.eqb_eq in N as ->; reflexivity | cbn [orb] in H]
         end.
  discriminate H.
Qed.

Lemma generateEnergyNudge_summary prediction sensors st id :
  Js.strict_eq prediction 1 = false ->
  existsb (String.eqb id) summaryFields = true ->
  Dom.textContent (document (generateEnergyNudge prediction sensors st) id)
  = summaryText (Estimator.calculateEnergySavings sensors) id.
Proof.
  intros E H. unfold generateEnergyNudge. cbv zeta. rewrite E.
  rewrite <- (displayEnergySummary_writes _
                (assign "energyNudgeContainer"
                   (Dom.set_innerHTML
                      (NudgeOpportunity
                         (Fixed (totalKwh
                                   (Estimator.calculateEnergySavings sensors))
                            2)))
                   (record (Estimated sensors
                              (Estimator.calculateEnergySavings sensors)) st))
                id H).
  rewrite document_assign_other; [reflexivity |].
  cbn [existsb summaryFields] in H.
  destruct (String.eqb_spec id "energySummaryContainer") as [-> |];
    [discriminate H | reflexivity].
Qed.

Lemma displayResults_summary label probability latency st id :
  Js.strict_eq label 1 = false ->
  existsb (String.eqb id) summaryFields = true ->
  Dom.textContent (document (displayResults label probability latency st) id)
  = summaryText (Estimator.calculateEnergySavings (getSensorValues st)) id.
Proof.
  intros E H. unfold displayResults.
  set (st1 := assign "metricsContainer" _ _).
  set (st2 := updatePerformanceMetrics latency st1).
  assert (T1 : touches statusFields st st1) by (unfold st1; touches_steps).
  assert (Hs : getSensorValues st2 = getSensorValues st).
  { apply getSensorValues_same. intros id' Hid. unfold st2.
    rewrite (touches_others metricFields sensorInputs st1 _ id'
               (updatePerformanceMetrics_touches latency st1) Hid eq_refl).
    exact (touches_others statusFields sensorInputs st st1 id' T1 Hid
             eq_refl). }
  rewrite <- Hs. exact (generateEnergyNudge_summary _ _ _ _ E H).
Qed.

(** A counted prediction leaves the three cards telling the same. *)
Lemma displayResults_consistent label probability latency st :
  consistent (displayResults label probability latency st).
Proof.
  pose proof (displayResults_status label probability latency st) as S.
  destruct (displayResults_shows label probability latency st) as (N & D).
  destruct (displayResults_control label probability latency st)
    as (_ & _ & _ & _ & _ & _ & _ & _ & J).
  cbv zeta in N, D, J.
  destruct (Js.strict_eq label 1) eqn:E.
  - left. repeat split; assumption.
  - right.
    exists (Estimator.calculateEnergySavings (getSensorValues st)).
    split; [rewrite J, lastEstimate_app; reflexivity |].
    repeat split; try assumption.
    intros id H. exact (displayResults_summary _ _ _ _ _ E H).
Qed.

Lemma consistent_frame st st' :
  journal st' = journal st ->
  (forall id, existsb (String.eqb id) cardFields = true ->
              Dom.textContent (document st' id)
              = Dom.textContent (document st id)
              /\ Dom.innerHTML (document st' id)
                 = Dom.innerHTML (document st id)
              /\ Dom.display (document st' id)
                 = Dom.display (document st id)) ->
  consistent st -> consistent st'.
Proof.
  intros J F C.
  assert (Fs : forall id, existsb (String.eqb id) summaryFields = true ->
                          Dom.textContent (document st' id)
                          = Dom.textContent (document st id)).
  { intros id H. apply F. cbn [cardFields nudgeFields List.app existsb].
    rewrite H. cbn [existsb summaryFields] in H.
    now rewrite !orb_true_r. }
  destruct (F "resultsContainer" eq_refl) as (_ & R & _).
  destruct (F "energyNudgeContainer" eq_refl) as (_ & N & _).
  destruct (F "energySummaryContainer" eq_refl) as (_ & _ & D).
  unfold consistent, shownStatus. rewrite J, R, N, D.
  destruct C as [C | (savings & L & S & N' & D' & T)]; [left; exact C |].
  right. exists savings. repeat split; try assumption.
  intros id H. rewrite (Fs id H). exact (T id H).
Qed.

Lemma consistent_touches ids st st' :
  silent st st' -> touches ids st st' ->
  forallb (fun i => negb (existsb (String.eqb i) ids)) cardFields = true ->
  predictionCount st = 0%nat \/ consistent st ->
  predictionCount st' = 0%nat \/ consistent st'.
Proof.
  intros (_ & J & C & _) T O [Z | K]; [left; congruence | right].
  refine (consistent_frame st st' J _ K).
  intros id H. now rewrite (touches_others _ _ _ _ _ T H O).
Qed.

Lemma consistent_runPrediction w st s :
  session st = Some s ->
  predictionCount st = 0%nat \/ consistent st ->
  predictionCount (runPrediction w st) = 0%nat
  \/ consistent (runPrediction w st).
Proof.
  intros S K.
  destruct (response w) as [output_label |] eqn:R.
  - rewrite (runPrediction_resolved w st s output_label S R).
    right. apply displayResults_consistent.
  - rewrite (runPrediction_rejected w st s S R).
    destruct K as [Z | K]; [left; exact Z | right].
    destruct K as [C | (savings & L & C)]; [left; exact C | right].
    exists savings. split; [| exact C].
    change (lastEstimate
              ((journal st ++ [inference (featureVector st)]) ++
               [Alert "Prediction failed! Check console for details."])
            = Some savings).
    now rewrite !lastEstimate_app.
Qed.

Lemma cards_call s h w st :
  session st = Some s /\ (predictionCount st = 0%nat \/ consistent st) ->
  session (call h w st) = Some s
  /\ (predictionCount (call h w st) = 0%nat \/ consistent (call h w st)).
Proof.
  intros [S K].
  assert (Q : forall ids st',
             silent st st' -> touches ids st st' ->
             forallb (fun i => negb (existsb (String.eqb i) ids)) cardFields
             = true ->
             session st' = Some s
             /\ (predictionCount st' = 0%nat \/ consistent st')).
  { intros ids st' Q T O. split; [destruct Q as (-> & _); exact S |].
    exact (consistent_touches ids st st' Q T O K). }
  destruct h; cbn [call].
  - exact (Q _ _ (silent_updateSensorDisplays st)
             (updateSensorDisplays_touches st) eq_refl).
  - split; [destruct (runPrediction_control w st) as (-> & _); exact S |].
    exact (consistent_runPrediction w st s S K).
  - exact (Q _ _ (silent_applyPreset _ st) (applyPreset_touches _ st)
             eq_refl).
  - exact (Q _ _ (silent_startAutoDemo st) (startAutoDemo_touches st)
             eq_refl).
  - exact (Q _ _ (silent_stopAutoDemo st) (stopAutoDemo_touches st) eq_refl).
Qed.

Lemma cards_fire s h w st :
  session st = Some s /\ (predictionCount st = 0%nat \/ consistent st) ->
  session (fire h w st) = Some s
  /\ (predictionCount (fire h w st) = 0%nat \/ consistent (fire h w st)).
Proof.
  intros [S K]. unfold fire.
  destruct (find _ (timers st)) as [t |]; [| split; assumption].
  set (st1 := if repeats t then st else clearInterval h st).
  assert (R1 : session st1 = Some s
               /\ (predictionCount st1 = 0%nat \/ consistent st1)).
  { subst st1. destruct (repeats t); [split; assumption |].
    split; [exact S |].
    refine (consistent_touches [] st _ (silent_clearInterval h st) _
              eq_refl K).
    intros id _. reflexivity. }
  destruct R1 as [S1 K1].
  destruct (callback t).
  - split; [destruct (runPrediction_control w st1) as (-> & _); exact S1 |].
    exact (consistent_runPrediction w st1 s S1 K1).
  - split; [destruct (silent_demoStep st1) as (-> & _); exact S1 |].
    exact (consistent_touches _ st1 _ (silent_demoStep st1)
             (demoStep_touches st1) eq_refl K1).
Qed.

(** X16. Once a prediction was counted, the result card, the nudge card
    and the savings summary always tell of the same prediction, whatever
    happens on the page: either the room is shown occupied, the nudge is
    Room In Use and the summary is hidden, or it is shown empty, the
    summary is visible and the nudge and the ten summary fields carry
    the figures of the last estimate made. Presets, sliders, the demo and
    failed predictions leave the three untouched. *)
Theorem cards_tell_the_same_prediction (d : Dom.Document) (w : BootWorld)
  (os : list (Occurrence * World)) :
  let st := app (occurs os (Boot.init w (Boot.opening d))) in
  predictionCount st <> 0%nat ->
  (shownStatus st = Some "OCCUPIED"
   /\ Dom.innerHTML (document st "energyNudgeContainer") = Some NudgeRoomInUse
   /\ Dom.display (document st "energySummaryContainer") = "none")
  \/ (exists savings,
        lastEstimate (journal st) = Some savings
        /\ shownStatus st = Some "EMPTY"
        /\ Dom.innerHTML (document st "energyNudgeContainer")
           = Some (NudgeOpportunity (Fixed (totalKwh savings) 2))
        /\ Dom.display (document st "energySummaryContainer") = "block"
        /\ forall id, existsb (String.eqb id) summaryFields = true ->
                      Dom.textContent (document st id)
                      = Dom.textContent
                          (document (displayEnergySummary savings st) id)).
Proof.
  cbv zeta. intro N.
  destruct (created w) as [s |] eqn:H.
  - destruct (init_ready d w s H) as (_ & _ & S & _ & _ & _ & C & _).
    assert (K : session (app (occurs os (Boot.init w (Boot.opening d))))
                = Some s
                /\ (predictionCount
                      (app (occurs os (Boot.init w (Boot.opening d))))
                    = 0%nat
                    \/ consistent
                         (app (occurs os (Boot.init w (Boot.opening d)))))).
    { apply (occurs_invariant
               (fun st => session st = Some s
                          /\ (predictionCount st = 0%nat \/ consistent st))).
      - intros id v st [S' K]. split; [exact S' |].
        destruct K as [Z | K]; [left; exact Z | right].
        apply (consistent_frame st); [reflexivity | | exact K].
        intros id' _. apply set_value_shown.
      - intros id b st [S' K]. split; [exact S' |].
        destruct K as [Z | K]; [left; exact Z | right].
        apply (consistent_frame st); [reflexivity | | exact K].
        intros id' _.
        destruct (set_checked_shown id b st id') as (A1 & A2 & A3 & _).
        repeat split; assumption.
      - intros h w' st. apply cards_call.
      - intros h w' st. apply cards_fire.
      - split; [exact S | left; exact C]. }
    destruct K as (_ & [Z | [K | (savings & L & K1 & K2 & K3 & K4)]]);
      [contradiction | left; exact K | right].
    exists savings. repeat split; try assumption.
    intros id I. rewrite displayEnergySummary_writes by exact I.
    exact (K4 id I).
  - destruct (inert_occurs d w os H) as (_ & _ & C). contradiction.
Qed.

Lemma cards_tell_the_same_prediction_witness :
  let w :=
    {| metadata := MetadataFailed;
       created := Some {| executionProviders := None |};
       presetButtons := ["empty"; "morning"; "evening"; "weekend"];
       userAgent := "Mozilla/5.0 Chrome/120.0 Safari/537.36";
       platform := "Linux x86_64" |} in
  let st :=
    app (occurs [(Moved "lightInput" 400,
                  {| startTime := 0; endTime := 0; response := RunRejected |});
                 (Clicked (ById "predictBtn"),
                  {| startTime := 10; endTime := 12.5;
                     response := RunResolved 0 |});
                 (Clicked (PresetButton 1),
                  {| startTime := 0; endTime := 0; response := RunRejected |})]
           (Boot.init w (Boot.opening (fun _ => Dom.blank)))) in
  predictionCount st = 1%nat
  /\ shownStatus st = Some "EMPTY"
  /\ Dom.textContent (document st "lightsSavings")
     = Fixed 0.02 2 +++ Lit " kWh".
Proof.
  cbv zeta.
  destruct (cards_tell_the_same_prediction (fun _ => Dom.blank)
              {| metadata := MetadataFailed;
                 created := Some {| executionProviders := None |};
                 presetButtons := ["empty"; "morning"; "evening"; "weekend"];
                 userAgent := "Mozilla/5.0 Chrome/120.0 Safari/537.36";
                 platform := "Linux x86_64" |}
              [(Moved "lightInput" 400,
                {| startTime := 0; endTime := 0; response := RunRejected |});
               (Clicked (ById "predictBtn"),
                {| startTime := 10; endTime := 12.5;
                   response := RunResolved 0 |});
               (Clicked (PresetButton 1),
                {| startTime := 0; endTime := 0; response := RunRejected |})]
              ltac:(vm_compute; discriminate))
    as [(A & _) | (savings & L & A & _ & _ & T)].
  - vm_compute in A. discriminate A.
  - split; [vm_compute; reflexivity |]. split; [exact A |].
    rewrite (T "lightsSavings" eq_refl).
    vm_compute in L. injection L as <-. vm_compute. reflexivity.
Defined.

(** ** The timer table *)

Lemma wellTimed_same st st' :
  timers st' = timers st -> nextHandle st' = nextHandle st ->
  autoDemoInterval st' = autoDemoInterval st ->
  wellTimed st -> wellTimed st'.
Proof.
  intros T N A ((D & F) & K & I). unfold wellTimed, handlesFresh.
  rewrite T, N, A. repeat split; try assumption.
  intros h H. rewrite timerOf_eq, T, <- timerOf_eq. exact (I h H).
Qed.

Lemma wellTimed_push st st' t :
  timers st' = timers st ++ [t] ->
  nextHandle st' = Pos.succ (nextHandle st) ->
  autoDemoInterval st' = autoDemoInterval st ->
  handle t = nextHandle st ->
  t = predictionTimer (handle t) \/ t = demoTimer (handle t) ->
  wellTimed st -> wellTimed st'.
Proof.
  intros T N A H C ((D & F) & K & I). unfold wellTimed, handlesFresh.
  rewrite T, N, A. repeat split.
  - rewrite map_app.
    apply NoDup_app;
      [exact D | constructor; [intros [] | constructor] |].
    intros a In1 [<- | []]. apply in_map_iff in In1 as (t' & E & In1).
    rewrite Forall_forall in F. specialize (F t' In1). rewrite E, H in F.
    exact (Pos.lt_irrefl _ F).
  - apply Forall_app. split.
    + eapply Forall_impl; [| exact F]. intros t' L. cbv beta in L |- *. lia.
    + constructor; [rewrite H; lia | constructor].
  - apply Forall_app.
    split; [exact K | constructor; [exact C | constructor]].
  - intros h E. rewrite timerOf_eq, T, find_app, <- timerOf_eq.
    now rewrite (I h E).
Qed.

Lemma NoDup_map_filter {A B : Type} (g : A -> B) (f : A -> bool) l :
  NoDup (map g l) -> NoDup (map g (filter f l)).
Proof.
  induction l as [| a l IH]; intro D; [exact D |].
  cbn [map] in D. inversion D as [| x xs Nin D' E]; subst.
  cbn [filter]. destruct (f a); [| exact (IH D')].
  cbn [map]. constructor; [| exact (IH D')].
  intro In1. apply Nin. apply in_map_iff in In1 as (a' & E & In1).
  apply filter_In in In1 as [In1 _]. apply in_map_iff. now exists a'.
Qed.

Lemma wellTimed_filter h st st' :
  timers st' = filter (fun t => negb (Pos.eqb (handle t) h)) (timers st) ->
  nextHandle st' = nextHandle st ->
  (forall h', autoDemoInterval st' = Some h' ->
              autoDemoInterval st = Some h' /\ h' <> h) ->
  wellTimed st -> wellTimed st'.
Proof.
  intros T N A ((D & F) & K & I). unfold wellTimed, handlesFresh.
  rewrite T, N. repeat split.
  - apply NoDup_map_filter, D.
  - rewrite Forall_forall in *. intros t In1.
    apply filter_In in In1 as [In1 _]. exact (F t In1).
  - rewrite Forall_forall in *. intros t In1.
    apply filter_In in In1 as [In1 _]. exact (K t In1).
  - intros h' E. destruct (A h' E) as [E' Ne].
    rewrite timerOf_eq, T, timerOf_filter_other by congruence.
    rewrite <- timerOf_eq. exact (I h' E').
Qed.

Lemma applyPreset_timers presetName st :
  applyPreset presetName st = st
  \/ (timers (applyPreset presetName st)
      = timers st ++ [predictionTimer (nextHandle st)]
      /\ nextHandle (applyPreset presetName st) = Pos.succ (nextHandle st)
      /\ autoDemoInterval (applyPreset presetName st) = autoDemoInterval st).
Proof.
  unfold applyPreset.
  destruct (presets_get presetName); [right | right | left];
    repeat split.
Qed.

Lemma wellTimed_applyPreset presetName st :
  wellTimed st -> wellTimed (applyPreset presetName st).
Proof.
  intro W. destruct (applyPreset_timers presetName st) as [-> | (T & N & A)];
    [exact W |].
  refine (wellTimed_push st _ _ T N A eq_refl _ W). left; reflexivity.
Qed.

Lemma wellTimed_runDemoScenario presetName st st' :
  runDemoScenario presetName st = Some st' -> wellTimed st -> wellTimed st'.
Proof.
  unfold runDemoScenario.
  destruct (presets_get presetName) as [preset | [name |] |];
    intros [= <-] W; apply wellTimed_applyPreset;
    exact (wellTimed_same st _ eq_refl eq_refl eq_refl W).
Qed.

Lemma wellTimed_set_currentDemoStep c st :
  wellTimed st -> wellTimed (set_currentDemoStep c st).
Proof. exact (wellTimed_same st _ eq_refl eq_refl eq_refl). Qed.

Lemma wellTimed_demoStep st : wellTimed st -> wellTimed (demoStep st).
Proof.
  intro W. unfold demoStep.
  destruct (currentDemoStep st <? List.length demoScenarios)%nat.
  - destruct (runDemoScenario _ st) as [st' |] eqn:R; [| exact W].
    apply wellTimed_set_currentDemoStep.
    exact (wellTimed_runDemoScenario _ _ _ R W).
  - destruct (runDemoScenario _ (set_currentDemoStep 0 st)) as [st' |] eqn:R.
    + apply wellTimed_set_currentDemoStep.
      refine (wellTimed_runDemoScenario _ _ _ R _).
      apply wellTimed_set_currentDemoStep, W.
    + apply wellTimed_set_currentDemoStep, W.
Qed.

Lemma wellTimed_startAutoDemo st : wellTimed st -> wellTimed (startAutoDemo st).
Proof.
  intros ((D & F) & K & I).
  destruct (startAutoDemo_first st) as (A & _ & T & N & _).
  unfold wellTimed, handlesFresh. rewrite T, N.
  assert (Fr : forall t, In t (timers st) ->
                         (handle t < nextHandle st)%positive)
    by (apply Forall_forall; exact F).
  repeat split.
  - rewrite map_app. apply NoDup_app; [exact D | |].
    + cbn [map predictionTimer demoTimer handle].
      constructor; [intros [E | []]; lia |].
      constructor; [intros [] | constructor].
    + intros a In1 In2. apply in_map_iff in In1 as (t' & E & In1).
      specialize (Fr t' In1). rewrite E in Fr.
      cbn [map demoTimer handle In] in In2.
      destruct In2 as [<- | [<- | []]]; lia.
  - apply Forall_app. split.
    + apply Forall_forall. intros t In1. specialize (Fr t In1). lia.
    + constructor; [cbn [predictionTimer handle]; lia |].
      constructor; [cbn [demoTimer handle]; lia | constructor].
  - apply Forall_app. split; [exact K |].
    constructor; [left; reflexivity |].
    constructor; [right; reflexivity | constructor].
  - intros h E. rewrite A in E. injection E as <-.
    rewrite timerOf_eq, T, find_app.
    rewrite (find_none_below (nextHandle st) (timers st) (fun _ => True))
      by first [ lia
               | apply Forall_forall; intros t In1; split;
                 [exact Logic.I | exact (Fr t In1)] ].
    cbn [find demoTimer handle].
    destruct (Pos.eqb_spec (nextHandle st) (Pos.succ (nextHandle st)));
      [lia |].
    now rewrite Pos.eqb_refl.
Qed.

Lemma wellTimed_stopAutoDemo st : wellTimed st -> wellTimed (stopAutoDemo st).
Proof.
  intro W. unfold stopAutoDemo.
  apply wellTimed_set_currentDemoStep.
  destruct (autoDemoInterval st) as [h |] eqn:A.
  - apply (wellTimed_filter h st); [reflexivity | reflexivity | | exact W].
    intros h' E. discriminate E.
  - exact (wellTimed_same st _ eq_refl eq_refl eq_refl W).
Qed.

Lemma wellTimed_call h w st : wellTimed st -> wellTimed (call h w st).
Proof.
  intro W. destruct h; cbn [call].
  - exact (wellTimed_same st _ eq_refl eq_refl eq_refl W).
  - destruct (runPrediction_control w st) as (_ & A & _ & T & N).
    exact (wellTimed_same st _ T N A W).
  - exact (wellTimed_applyPreset _ st W).
  - exact (wellTimed_startAutoDemo st W).
  - exact (wellTimed_stopAutoDemo st W).
Qed.

Lemma wellTimed_fire h w st : wellTimed st -> wellTimed (fire h w st).
Proof.
  intro W. unfold fire.
  destruct (find _ (timers st)) as [t |] eqn:G; [| exact W].
  assert (W1 : wellTimed (if repeats t then st else clearInterval h st)).
  { destruct (repeats t) eqn:R; [exact W |].
    apply (wellTimed_filter h st); [reflexivity | reflexivity | | exact W].
    intros h' E. split; [exact E |]. intros ->.
    destruct W as (_ & _ & I). specialize (I h E).
    rewrite timerOf_eq, G in I. injection I as ->. discriminate R. }
  destruct (callback t).
  - destruct (runPrediction_control w
                (if repeats t then st else clearInterval h st))
      as (_ & A & _ & T & N).
    exact (wellTimed_same _ _ T N A W1).
  - exact (wellTimed_demoStep _ W1).
Qed.

(** X17. The timer table stays in order whatever happens on the page:
    no handle is handed out twice, every timer on the table is a one-shot
    prediction after 500 ms or a demo step repeating every 7000 ms, and
    the interval the script remembers is always a demo interval that is
    still on the table, so Stop always finds the one to cancel. *)
Theorem timer_table_stays_in_order (d : Dom.Document) (w : BootWorld)
  (os : list (Occurrence * World)) :
  let st := app (occurs os (Boot.init w (Boot.opening d))) in
  (NoDup (map handle (timers st))
   /\ Forall (fun t => (handle t < nextHandle st)%positive) (timers st))
  /\ Forall (fun t =>
               t = {| handle := handle t; callback := RunPredictionCallback;
                      delay := 500; repeats := false |}
               \/ t = {| handle := handle t; callback := DemoStepCallback;
                         delay := 7000; repeats := true |}) (timers st)
  /\ (forall h, autoDemoInterval st = Some h ->
                timerOf h st
                = Some {| handle := h; callback := DemoStepCallback;
                          delay := 7000; repeats := true |}).
Proof.
  cbv zeta.
  apply (occurs_invariant wellTimed).
  - intros id v st. exact (wellTimed_same st _ eq_refl eq_refl eq_refl).
  - intros id b st. exact (wellTimed_same st _ eq_refl eq_refl eq_refl).
  - intros h w' st. apply wellTimed_call.
  - intros h w' st. apply wellTimed_fire.
  - unfold Boot.init, Boot.loadModel.
    destruct (created w), (metadata w) as [| | [kb |]];
      (split; [split; constructor | split; [constructor | discriminate]]).
Qed.
